(** * Element resolution engine of testingApp: a shallow embedding

    The development follows the Python sources:
    - [src/xpath_helpers.py]   (XPathHelper)
    - [src/element_cache.py]   (ElementCache)
    - [src/ai_client.py]       (AIClient and its subclasses, AIElementDetector)
    - [src/test_executor.py]   (TestExecutor)
    - [config.py]              (Settings)

    Python strings are modelled as [string] (8-bit characters); the text
    handled by the program (URLs, element descriptions, XPath expressions) is
    ASCII, on which [str.lower], [str.strip], [str.replace] and the [in]
    operator are given below.  Dictionaries are [gmap]s. *)

From Stdlib Require Import ZArith List String Ascii Bool Lia DecimalString Sorted.
From Stdlib Require QArith.
From stdpp Require Import base option strings gmap.

Local Open Scope string_scope.
Local Open Scope list_scope.

(** ** Python string primitives *)

Module PyStr.

(** [c.isspace()] on the ASCII range: TAB, LF, VT, FF, CR, the four
    separators FS, GS, RS, US and the blank. *)
Definition is_space (c : ascii) : bool :=
  let n := nat_of_ascii c in
  (Nat.leb 9 n && Nat.leb n 13) || (Nat.leb 28 n && Nat.leb n 32).

Definition lower_char (c : ascii) : ascii :=
  let n := nat_of_ascii c in
  if Nat.leb 65 n && Nat.leb n 90 then ascii_of_nat (n + 32) else c.

(** [s.lower()] *)
Fixpoint lower (s : string) : string :=
  match s with
  | EmptyString => EmptyString
  | String c s' => String (lower_char c) (lower s')
  end.

Fixpoint lstrip (s : string) : string :=
  match s with
  | EmptyString => EmptyString
  | String c s' => if is_space c then lstrip s' else s
  end.

Fixpoint rstrip (s : string) : string :=
  match s with
  | EmptyString => EmptyString
  | String c s' =>
      match rstrip s' with
      | EmptyString => if is_space c then EmptyString else String c EmptyString
      | r => String c r
      end
  end.

(** [s.strip()] *)
Definition strip (s : string) : string := rstrip (lstrip s).

(** [s.startswith(p)] *)
Definition startswith (s p : string) : bool := String.prefix p s.

(** [sub in s] *)
Fixpoint contains (sub s : string) : bool :=
  String.prefix sub s ||
  match s with
  | EmptyString => false
  | String _ s' => contains sub s'
  end.

(** [s.replace(old, new)] for a non-empty [old]: the occurrences of [old]
    are found from left to right and do not overlap.  [skip] counts the
    characters of the occurrence just replaced that are still to be
    dropped. *)
Fixpoint replace_from (old new : string) (skip : nat) (s : string) : string :=
  match s with
  | EmptyString => EmptyString
  | String c s' =>
      match skip with
      | S k => replace_from old new k s'
      | O =>
          if String.prefix old s
          then new +:+ replace_from old new (String.length old - 1) s'
          else String c (replace_from old new 0 s')
      end
  end.

Definition replace (old new s : string) : string := replace_from old new 0 s.

(** Strings made of whitespace only. *)
Fixpoint all_space (s : string) : bool :=
  match s with
  | EmptyString => true
  | String c s' => is_space c && all_space s'
  end.

(** Python truthiness of a string: the empty string is falsy. *)
Definition truthy (s : string) : bool :=
  match s with EmptyString => false | _ => true end.

End PyStr.

(** ** src/xpath_helpers.py *)

Module XPathHelper.

Definition button_by_text (text : string) : string :=
  "//button[text()='" +:+ text +:+ "']".

Definition button_by_partial_text (text : string) : string :=
  "//button[contains(text(),'" +:+ text +:+ "')]".

Definition link_by_text (text : string) : string :=
  "//a[text()='" +:+ text +:+ "']".

Definition link_by_partial_text (text : string) : string :=
  "//a[contains(text(),'" +:+ text +:+ "')]".

Definition input_by_placeholder (placeholder : string) : string :=
  "//input[@placeholder='" +:+ placeholder +:+ "']".

Definition input_by_label (label : string) : string :=
  "//input[@id=//label[text()='" +:+ label +:+ "']/@for]".

Definition element_by_text (text : string) : string :=
  "//*[contains(text(),'" +:+ text +:+ "')]".

Definition button_variations (text : string) : list string :=
  let button_text := PyStr.strip (PyStr.replace "button" EmptyString text) in
  [ "//button[text()='" +:+ button_text +:+ "']";
    "//button[contains(text(),'" +:+ button_text +:+ "')]";
    "//input[@type='button' and @value='" +:+ button_text +:+ "']";
    "//input[@type='submit' and @value='" +:+ button_text +:+ "']" ].

Definition link_variations (text : string) : list string :=
  let link_text := PyStr.strip (PyStr.replace "link" EmptyString text) in
  [ "//a[text()='" +:+ link_text +:+ "']";
    "//a[contains(text(),'" +:+ link_text +:+ "')]" ].

Definition input_variations (text : string) : list string :=
  let field_name :=
    PyStr.strip (PyStr.replace "field" EmptyString (PyStr.replace "input" EmptyString text)) in
  [ "//input[@placeholder='" +:+ field_name +:+ "']";
    "//input[@name='" +:+ field_name +:+ "']";
    "//input[@id='" +:+ field_name +:+ "']";
    "//input[@id=//label[text()='" +:+ field_name +:+ "']/@for]" ].

(** [generate_xpath_variations]: [variations] starts empty, is extended by
    each keyword block whose test succeeds, and the generic text search is
    appended last. *)
Definition generate_xpath_variations (element_description : string) : list string :=
  let text := PyStr.strip element_description in
  let variations := [] in
  let variations :=
    if PyStr.contains "button" (PyStr.lower text)
    then variations ++ button_variations text else variations in
  let variations :=
    if PyStr.contains "link" (PyStr.lower text)
    then variations ++ link_variations text else variations in
  let variations :=
    if PyStr.contains "input" (PyStr.lower text)
       || PyStr.contains "field" (PyStr.lower text)
    then variations ++ input_variations text else variations in
  variations ++ ["//*[contains(text(),'" +:+ text +:+ "')]"].

End XPathHelper.

(** ** hashlib.md5 (RFC 1321)

    32-bit words are [Z]s in [0, 2^32); additions wrap around. *)

Module MD5.
Local Open Scope Z_scope.

Definition mask32 : Z := 0xffffffff.
Definition add32 (a b : Z) : Z := Z.land (a + b) mask32.
Definition not32 (a : Z) : Z := Z.lxor a mask32.
Definition rotl32 (x c : Z) : Z :=
  Z.land (Z.lor (Z.shiftl x c) (Z.shiftr x (32 - c))) mask32.

(** Per-round shift amounts. *)
Definition shifts : list Z :=
  [ 7; 12; 17; 22; 7; 12; 17; 22; 7; 12; 17; 22; 7; 12; 17; 22;
    5; 9; 14; 20; 5; 9; 14; 20; 5; 9; 14; 20; 5; 9; 14; 20;
    4; 11; 16; 23; 4; 11; 16; 23; 4; 11; 16; 23; 4; 11; 16; 23;
    6; 10; 15; 21; 6; 10; 15; 21; 6; 10; 15; 21; 6; 10; 15; 21 ].

(** [floor (2^32 * abs (sin (i + 1)))] for [i] in [0, 64). *)
Definition sines : list Z :=
  [ 0xd76aa478; 0xe8c7b756; 0x242070db; 0xc1bdceee;
    0xf57c0faf; 0x4787c62a; 0xa8304613; 0xfd469501;
    0x698098d8; 0x8b44f7af; 0xffff5bb1; 0x895cd7be;
    0x6b901122; 0xfd987193; 0xa679438e; 0x49b40821;
    0xf61e2562; 0xc040b340; 0x265e5a51; 0xe9b6c7aa;
    0xd62f105d; 0x02441453; 0xd8a1e681; 0xe7d3fbc8;
    0x21e1cde6; 0xc33707d6; 0xf4d50d87; 0x455a14ed;
    0xa9e3e905; 0xfcefa3f8; 0x676f02d9; 0x8d2a4c8a;
    0xfffa3942; 0x8771f681; 0x6d9d6122; 0xfde5380c;
    0xa4beea44; 0x4bdecfa9; 0xf6bb4b60; 0xbebfbc70;
    0x289b7ec6; 0xeaa127fa; 0xd4ef3085; 0x04881d05;
    0xd9d4d039; 0xe6db99e5; 0x1fa27cf8; 0xc4ac5665;
    0xf4292244; 0x432aff97; 0xab9423a7; 0xfc93a039;
    0x655b59c3; 0x8f0ccc92; 0xffeff47d; 0x85845dd1;
    0x6fa87e4f; 0xfe2ce6e0; 0xa3014314; 0x4e0811a1;
    0xf7537e82; 0xbd3af235; 0x2ad7d2bb; 0xeb86d391 ].

(** The message as bytes: [str.encode()] of ASCII text. *)
Fixpoint encode (s : string) : list Z :=
  match s with
  | EmptyString => []
  | String c s' => Z.of_nat (nat_of_ascii c) :: encode s'
  end.

(** [n] as [k] little-endian bytes. *)
Fixpoint le_bytes (k : nat) (n : Z) : list Z :=
  match k with
  | O => []
  | S k' => Z.land n 0xff :: le_bytes k' (Z.shiftr n 8)
  end.

(** Padding: a [0x80] byte, zeros up to 56 modulo 64, then the bit length
    on 64 bits. *)
Definition pad (msg : list Z) : list Z :=
  let len := Z.of_nat (List.length msg) in
  let zeros := Z.to_nat ((55 - len) mod 64) in
  msg ++ [0x80] ++ repeat 0 zeros ++ le_bytes 8 (Z.land (8 * len) 0xffffffffffffffff).

Definition word_of_bytes (b0 b1 b2 b3 : Z) : Z :=
  Z.lor b0 (Z.lor (Z.shiftl b1 8) (Z.lor (Z.shiftl b2 16) (Z.shiftl b3 24))).

Fixpoint words (bs : list Z) : list Z :=
  match bs with
  | b0 :: b1 :: b2 :: b3 :: bs' => word_of_bytes b0 b1 b2 b3 :: words bs'
  | _ => []
  end.

(** The blocks of sixteen words; [n] bounds the number of blocks. *)
Fixpoint blocks (n : nat) (ws : list Z) : list (list Z) :=
  match n, ws with
  | S n', _ :: _ => firstn 16 ws :: blocks n' (skipn 16 ws)
  | _, _ => []
  end.

Record state := State { sa : Z; sb : Z; sc : Z; sd : Z }.

Definition init : state :=
  State 0x67452301 0xefcdab89 0x98badcfe 0x10325476.

(** One of the 64 operations on block [m]. *)
Definition step (m : list Z) (st : state) (i : nat) : state :=
  let '(State a b c d) := st in
  let iz := Z.of_nat i in
  let '(f, g) :=
    if iz <? 16 then (Z.lor (Z.land b c) (Z.land (not32 b) d), iz)
    else if iz <? 32 then
      (Z.lor (Z.land d b) (Z.land (not32 d) c), (5 * iz + 1) mod 16)
    else if iz <? 48 then (Z.lxor b (Z.lxor c d), (3 * iz + 5) mod 16)
    else (Z.lxor c (Z.lor b (not32 d)), (7 * iz) mod 16) in
  let f :=
    add32 (add32 (add32 f a) (nth i sines 0)) (nth (Z.to_nat g) m 0) in
  State d (add32 b (rotl32 f (nth i shifts 0))) b c.

Definition compress (st : state) (m : list Z) : state :=
  let '(State a b c d) := fold_left (step m) (seq 0 64) st in
  State (add32 (sa st) a) (add32 (sb st) b) (add32 (sc st) c) (add32 (sd st) d).

Definition digest (s : string) : list Z :=
  let ws := words (pad (encode s)) in
  let '(State a b c d) := fold_left compress (blocks (List.length ws) ws) init in
  le_bytes 4 a ++ le_bytes 4 b ++ le_bytes 4 c ++ le_bytes 4 d.

Definition hex_digit (n : Z) : ascii :=
  if n <? 10 then ascii_of_nat (Z.to_nat (48 + n))
  else ascii_of_nat (Z.to_nat (87 + n)).

Fixpoint hex (bs : list Z) : string :=
  match bs with
  | [] => EmptyString
  | b :: bs' =>
      String (hex_digit (Z.shiftr b 4)) (String (hex_digit (Z.land b 0xf)) (hex bs'))
  end.

(** [hashlib.md5(s.encode()).hexdigest()] *)
Definition hexdigest (s : string) : string := hex (digest s).

End MD5.

(** ** Exceptions, log records and the effect monad

    A Python call either returns or raises; what it changed before raising
    stays changed.  A computation therefore maps a state to an outcome, the
    new state and the events it emitted, in order. *)

Inductive exn_kind :=
  | TypeError | ValueError | AttributeError | OSError | JSONDecodeError | APIError
  | IndexError.

Record exn := Exn { kind : exn_kind; message : string }.

(** [isinstance(e, json.JSONDecodeError)] *)
Definition is_json_error (e : exn) : bool :=
  match kind e with JSONDecodeError => true | _ => false end.

Inductive outcome (A : Type) :=
  | Ret (a : A)
  | Raise (e : exn).
Arguments Ret {A} a.
Arguments Raise {A} e.

Inductive level := DEBUG | INFO | WARNING | ERROR.

(** What a call does to the outside: a [loguru] record, a DOM probe
    ([PlaywrightController.find_element]), a run of the heuristic generator,
    a request to the AI detector, a write of the cache file. *)
Inductive event :=
  | Log (l : level) (msg : string)
  | Probe (selector selector_type : string)
  | Generate (element_description : string)
  | Analyze (element_description url : string)
  | Persist (ok : bool).

Definition is_log (ev : event) : bool :=
  match ev with Log _ _ => true | _ => false end.
Definition is_probe (ev : event) : bool :=
  match ev with Probe _ _ => true | _ => false end.
Definition is_generate (ev : event) : bool :=
  match ev with Generate _ => true | _ => false end.
Definition is_analyze (ev : event) : bool :=
  match ev with Analyze _ _ => true | _ => false end.

Definition M (S A : Type) : Type := S -> outcome A * S * list event.

Definition ret {S A} (a : A) : M S A := fun s => (Ret a, s, []).

Definition bind {S A B} (m : M S A) (k : A -> M S B) : M S B :=
  fun s =>
    match m s with
    | (Ret a, s1, t1) => let '(r, s2, t2) := k a s1 in (r, s2, t1 ++ t2)
    | (Raise e, s1, t1) => (Raise e, s1, t1)
    end.

Definition raise {S A} (e : exn) : M S A := fun s => (Raise e, s, []).

(** [try: m  except Exception as e: h e] *)
Definition try_except {S A} (m : M S A) (h : exn -> M S A) : M S A :=
  fun s =>
    match m s with
    | (Ret a, s1, t1) => (Ret a, s1, t1)
    | (Raise e, s1, t1) => let '(r, s2, t2) := h e s1 in (r, s2, t1 ++ t2)
    end.

Definition emit {S} (ev : event) : M S unit := fun s => (Ret tt, s, [ev]).
Definition get_state {S} : M S S := fun s => (Ret s, s, []).
Definition modify {S} (f : S -> S) : M S unit := fun s => (Ret tt, f s, []).

(** Run a computation on a component [T] of the state. *)
Definition zoom {S T A} (proj : S -> T) (upd : T -> S -> S) (m : M T A) : M S A :=
  fun s => let '(r, t, evs) := m (proj s) in (r, upd t s, evs).

Declare Scope py_scope.
Delimit Scope py_scope with py.
Notation "x <- m ;; k" := (bind m (fun x => k))
  (at level 100, m at next level, right associativity) : py_scope.
Notation "m ;; k" := (bind m (fun _ => k))
  (at level 100, right associativity) : py_scope.
Local Open Scope py_scope.

(** [str(n)] for a natural number. *)
Definition str_nat (n : nat) : string := NilZero.string_of_uint (Nat.to_uint n).

(** ** src/element_cache.py *)

Module ElementCache.

(** An entry as [set] builds it.  Such a dictionary has five keys, so it is
    truthy wherever the program tests it. *)
Record entry := Entry {
  selector : string;
  selector_type : string;
  url : string;
  element_description : string;
  metadata : list (string * string)
}.

(** A JSON document as [json.load] returns it: [None], a [bool], an [int],
    a [float], a [str], a [list], or a [dict] given by its items, one per
    key. *)
#[warnings="-register-all"] Inductive json :=
  | JNull
  | JBool (b : bool)
  | JInt (n : Z)
  | JFloat (x : QArith_base.Q)
  | JString (s : string)
  | JArray (items : list json)
  | JObject (members : list (string * json)).

(** [type(v).__name__] *)
Definition type_name (v : json) : string :=
  match v with
  | JNull => "NoneType"
  | JBool _ => "bool"
  | JInt _ => "int"
  | JFloat _ => "float"
  | JString _ => "str"
  | JArray _ => "list"
  | JObject _ => "dict"
  end.

(** [len(v)] *)
Definition len (v : json) : outcome nat :=
  match v with
  | JString s => Ret (String.length s)
  | JArray items => Ret (length items)
  | JObject members => Ret (length members)
  | _ => Raise (Exn TypeError ("object of type '" +:+ type_name v +:+ "' has no len()"))
  end.

(** [bool(v)] *)
Definition json_truthy (v : json) : bool :=
  match v with
  | JNull => false
  | JBool b => b
  | JInt n => negb (Z.eqb n 0)
  | JFloat x => negb (Z.eqb (QArith_base.Qnum x) 0)
  | JString s => PyStr.truthy s
  | JArray items => match items with [] => false | _ => true end
  | JObject members => match members with [] => false | _ => true end
  end.

(** [d.get(key)] on the items of a [dict]. *)
Fixpoint dict_get (key : string) (members : list (string * json)) : option json :=
  match members with
  | [] => None
  | (k, v) :: rest => if String.eqb k key then Some v else dict_get key rest
  end.

(** The cache file: missing, present but not readable, readable but not
    JSON, the JSON object of entries that [save_cache] writes, or any other
    JSON document. *)
Inductive file :=
  | NoFile
  | Unreadable
  | Garbled
  | Stored (table : gmap string entry)
  | Foreign (v : json).

(** What [json.load] hands back for the file: the table of entries, or the
    other document as it is. *)
Inductive document :=
  | Table (table : gmap string entry)
  | Other (v : json).

(** How the next write goes: through, refused when the file is opened, or
    broken off while the table is being dumped. *)
Inductive fault := NoFault | OpenFails | DumpFails.

Record store := Store { content : file; write_fault : fault }.

(** [self.cache_file.exists()] *)
Definition exists_ : M store bool :=
  fun st => (Ret (match content st with NoFile => false | _ => true end), st, []).

(** [with open(self.cache_file, 'r') as f: json.load(f)] *)
Definition read_json : M store document :=
  fun st =>
    match content st with
    | Stored table => (Ret (Table table), st, [])
    | Foreign v => (Ret (Other v), st, [])
    | Garbled => (Raise (Exn JSONDecodeError "Expecting value"), st, [])
    | Unreadable => (Raise (Exn OSError "Permission denied"), st, [])
    | NoFile => (Raise (Exn OSError "No such file or directory"), st, [])
    end.

(** [with open(self.cache_file, 'w') as f: json.dump(table, f, indent=2)] *)
Definition write_json (table : gmap string entry) : M store unit :=
  fun st =>
    match write_fault st with
    | NoFault => (Ret tt, Store (Stored table) NoFault, [Persist true])
    | OpenFails => (Raise (Exn OSError "Permission denied"), st, [Persist false])
    | DumpFails =>
        (Raise (Exn OSError "No space left on device"), Store Garbled DumpFails,
         [Persist false])
    end.

Record t := Make {
  cache_file : store;
  cache : gmap string entry
}.

Definition on_file {A} : M store A -> M t A :=
  zoom cache_file (fun st self => Make st (cache self)).

Definition set_table (table : gmap string entry) : M t unit :=
  modify (fun self => Make (cache_file self) table).

Definition key_input (url element_description : string) : string :=
  url +:+ "::" +:+ PyStr.strip (PyStr.lower element_description).

Definition _generate_key (url element_description : string) : string :=
  let combined := key_input url element_description in
  MD5.hexdigest combined.

Definition get (url element_description : string) : M t (option entry) :=
  let key := _generate_key url element_description in
  self <- get_state ;;
  match cache self !! key with
  | Some result =>
      emit (Log INFO ("Cache hit for: " +:+ element_description)) ;;
      ret (Some result)
  | None =>
      emit (Log INFO ("Cache miss for: " +:+ element_description)) ;;
      ret None
  end.

Definition save_cache : M t unit :=
  try_except
    (self <- get_state ;;
     on_file (write_json (cache self)) ;;
     emit (Log DEBUG ("Saved cache with " +:+ str_nat (size (cache self)) +:+ " entries")))
    (fun e => emit (Log ERROR ("Error saving cache: " +:+ message e))).

Definition set (url element_description selector selector_type : string)
    (metadata : option (list (string * string))) : M t unit :=
  let key := _generate_key url element_description in
  let entry :=
    Entry selector selector_type url element_description (default [] metadata) in
  self <- get_state ;;
  set_table (<[key := entry]> (cache self)) ;;
  save_cache ;;
  emit (Log INFO ("Cached selector for: " +:+ element_description +:+ " -> " +:+ selector)).

(** *** The object around [load_cache]

    [load_cache] assigns what [json.load] returns to [self.cache] as it is.
    [t] above is the object whose [self.cache] is a table of entries, as the
    annotation [Dict[str, Dict[str, Any]]] has it; [get], [set],
    [save_cache] and [clear_cache] keep it one.  [obj] is the object with
    [self.cache] of either kind. *)
Record obj := Obj {
  obj_file : store;
  obj_cache : document
}.

Definition of_t (self : t) : obj := Obj (cache_file self) (Table (cache self)).

Definition on_obj_file {A} : M store A -> M obj A :=
  zoom obj_file (fun st self => Obj st (obj_cache self)).

Definition set_cache (doc : document) : M obj unit :=
  modify (fun self => Obj (obj_file self) doc).

(** [len(self.cache)] *)
Definition len_cache (doc : document) : outcome nat :=
  match doc with
  | Table table => Ret (size table)
  | Other v => len v
  end.

Definition load_cache : M obj unit :=
  try_except
    (present <- on_obj_file exists_ ;;
     if (present : bool) then
       doc <- on_obj_file read_json ;;
       set_cache doc ;;
       match len_cache doc with
       | Ret n => emit (Log INFO ("Loaded cache with " +:+ str_nat n +:+ " entries"))
       | Raise e => raise e
       end
     else
       set_cache (Table ∅) ;;
       emit (Log INFO "No cache file found, starting fresh"))
    (fun e =>
       emit (Log ERROR ("Error loading cache: " +:+ message e)) ;;
       set_cache (Table ∅)).

(** [ElementCache(cache_file)] *)
Definition __init__ (cache_file : store) : outcome obj * list event :=
  match load_cache (Obj cache_file (Table ∅)) with
  | (Ret _, self, evs) => (Ret self, evs)
  | (Raise e, _, evs) => (Raise e, evs)
  end.

(** [get] on the object as [load_cache] left it: on a table it is [get]
    above; on another [dict] the value under the key is returned when it is
    truthy; any other document has no [get] attribute. *)
Definition get_loaded (url element_description : string)
    : M obj (option (entry + json)) :=
  fun self =>
    match obj_cache self with
    | Table table =>
        let '(r, self', evs) := get url element_description (Make (obj_file self) table) in
        (match r with
         | Ret result => Ret (option_map inl result)
         | Raise e => Raise e
         end, of_t self', evs)
    | Other (JObject members) =>
        let key := _generate_key url element_description in
        match dict_get key members with
        | Some result =>
            if json_truthy result then
              (Ret (Some (inr result)), self,
               [Log INFO ("Cache hit for: " +:+ element_description)])
            else (Ret None, self, [Log INFO ("Cache miss for: " +:+ element_description)])
        | None => (Ret None, self, [Log INFO ("Cache miss for: " +:+ element_description)])
        end
    | Other v =>
        (Raise (Exn AttributeError
                  ("'" +:+ type_name v +:+ "' object has no attribute 'get'")), self, [])
    end.

Definition clear_cache : M t unit :=
  set_table ∅ ;;
  save_cache ;;
  emit (Log INFO "Cache cleared").

End ElementCache.

(** ** config.py *)

Module Config.

Record Settings := {
  ai_provider : string;
  openai_api_key : option string;
  anthropic_api_key : option string;
  openai_model : string;
  anthropic_model : string;
  azure_openai_endpoint : option string;
  azure_openai_api_key : option string;
  azure_openai_deployment : option string;
  azure_openai_api_version : string;
  headless : bool;
  browser_type : string;
  timeout : Z;
  cache_file : string;
  log_level : string
}.

(** The field defaults of the class; the environment may set any field. *)
Definition defaults : Settings := {|
  ai_provider := "openai";
  openai_api_key := None;
  anthropic_api_key := None;
  openai_model := "gpt-4";
  anthropic_model := "claude-3-sonnet-20240229";
  azure_openai_endpoint := None;
  azure_openai_api_key := None;
  azure_openai_deployment := None;
  azure_openai_api_version := "2024-02-01";
  headless := true;
  browser_type := "chromium";
  timeout := 30000%Z;
  cache_file := "element_cache.json";
  log_level := "INFO"
|}.

End Config.

(** Truthiness of an [Optional[str]]: [None] and the empty string are falsy. *)
Definition truthy_opt (o : option string) : bool :=
  match o with Some s => PyStr.truthy s | None => false end.

(** ** src/ai_client.py *)

Module ai_client.

Record candidate := Candidate {
  c_selector : string;
  c_type : string;
  confidence : QArith_base.Q;
  reasoning : string
}.

(** The dictionary an analysis returns, in the shape the system prompt asks
    for. *)
Record result := Result {
  selectors : list candidate;
  best_selector : option string;
  success : bool;
  error : option string
}.

(** The handles of the vendor SDKs and the values held in instance
    attributes. *)
Inductive sdk :=
  | OpenAI (api_key : string)
  | AzureOpenAI (api_key azure_endpoint api_version : string)
  | Anthropic (api_key : string).

Inductive value :=
  | VStr (s : string)
  | VClient (c : sdk).

Inductive re_flag := DOTALL | IGNORECASE.

(** What lies outside the program: the remote completion services, reached
    through the SDK handle held in [self.client], with the [model] argument
    as the caller evaluated it; the JSON decoder; [re.sub] with the flags
    of the call site.  A request returns the text of the first choice or
    raises. *)
Class Services (N : Type) := {
  chat_completions_create : value -> value -> string -> string -> M N string;
  messages_create : value -> value -> string -> string -> M N string;
  json_loads : string -> outcome result;
  re_sub : string -> string -> string -> list re_flag -> string
}.

(** *** A small object model

    An instance carries its class name and its attribute dictionary.  A
    class body is executed top to bottom: each [def] binds its name in the
    class namespace, a later binding replacing an earlier one.  No class
    here has a class attribute other than its methods, and no method body
    reads a method through [self], so attribute reads look in the instance
    dictionary only. *)
Record instance := Instance {
  class_name : string;
  dict : gmap string value
}.

Definition getattr (self : instance) (name : string) : outcome value :=
  match dict self !! name with
  | Some v => Ret v
  | None =>
      Raise (Exn AttributeError
        ("'" +:+ class_name self +:+ "' object has no attribute '" +:+ name +:+ "'"))
  end.

Definition lift {S A} (o : outcome A) : M S A :=
  match o with Ret a => ret a | Raise e => raise e end.

Section Classes.
Context {N : Type} `{Services N}.

Definition analyze_fn : Type :=
  instance -> string -> string -> string -> M N (option result).

Inductive member :=
  | Init (f : list string -> outcome (gmap string value))
  | Method (abstract : bool) (f : analyze_fn).

#[warnings="-register-all"] Inductive class :=
  | PyClass (name : string) (base : option class) (body : list (string * member)).

Definition name_of (c : class) : string := let '(PyClass n _ _) := c in n.

Definition namespace (body : list (string * member)) : gmap string member :=
  fold_left (fun ns d => <[fst d := snd d]> ns) body ∅.

(** Attribute lookup on a class, along the base chain. *)
Fixpoint getattr_class (c : class) (name : string) : option member :=
  let '(PyClass _ base body) := c in
  match namespace body !! name with
  | Some m => Some m
  | None =>
      match base with
      | Some b => getattr_class b name
      | None => None
      end
  end.

Definition is_abstract (m : option member) : bool :=
  match m with Some (Method true _) => true | _ => false end.

(** [__abstractmethods__], as [ABCMeta] computes it when the class is
    created: the abstract names of the class's own namespace, and the
    abstract names of the base that still resolve to an abstract method. *)
Fixpoint abstractmethods (c : class) : list string :=
  match c with
  | PyClass _ base body =>
      List.filter (fun n => is_abstract (namespace body !! n)) (map fst body)
      ++ match base with
         | Some b => List.filter (fun n => is_abstract (getattr_class c n)) (abstractmethods b)
         | None => []
         end
  end.

Record object := Object { class_of : class; self_of : instance }.

(** [cls(args)]: [object.__new__] refuses a class with abstract methods
    before [__init__] runs. *)
Definition new (c : class) (args : list string) : outcome object :=
  match abstractmethods c with
  | [] =>
      match getattr_class c "__init__" with
      | Some (Init f) =>
          match f args with
          | Ret d => Ret (Object c (Instance (name_of c) d))
          | Raise e => Raise e
          end
      | _ => Ret (Object c (Instance (name_of c) ∅))
      end
  | n :: _ =>
      Raise (Exn TypeError
        ("Can't instantiate abstract class " +:+ name_of c
         +:+ " with abstract method " +:+ n))
  end.

(** [obj.analyze_dom(html_content, element_description, url)] *)
Definition call_analyze_dom (obj : object) (html_content element_description url : string)
    : M N (option result) :=
  match getattr_class (class_of obj) "analyze_dom" with
  | Some (Method _ f) => f (self_of obj) html_content element_description url
  | _ =>
      raise (Exn AttributeError
        ("'" +:+ name_of (class_of obj) +:+ "' object has no attribute 'analyze_dom'"))
  end.

(** *** The prompts (the same text in the three [analyze_dom] bodies) *)

Definition nl : string := String (ascii_of_nat 10) EmptyString.
Definition dq : string := String (ascii_of_nat 34) EmptyString.

Fixpoint lines (ls : list string) : string :=
  match ls with
  | [] => EmptyString
  | [l] => l
  | l :: ls' => l +:+ nl +:+ lines ls'
  end.

Definition system_prompt : string := lines [
  "You are an expert at analyzing HTML DOM and finding element selectors.";
  "Given HTML content and an element description, find the best XPath or CSS selector for that element.";
  EmptyString;
  "Rules:";
  "1. Prefer XPath selectors over CSS selectors";
  "2. Use text-based selectors when possible (e.g., //button[text()='Submit'])";
  "3. Avoid fragile selectors like absolute paths or index-based selectors";
  "4. Return multiple selector options ranked by reliability";
  "5. Include confidence score (0-1) for each selector";
  EmptyString;
  "Return JSON format:";
  "{";
  "    " +:+ dq +:+ "selectors" +:+ dq +:+ ": [";
  "        {";
  "            " +:+ dq +:+ "selector" +:+ dq +:+ ": " +:+ dq +:+ "//button[text()='Submit']" +:+ dq +:+ ",";
  "            " +:+ dq +:+ "type" +:+ dq +:+ ": " +:+ dq +:+ "xpath" +:+ dq +:+ ",";
  "            " +:+ dq +:+ "confidence" +:+ dq +:+ ": 0.9,";
  "            " +:+ dq +:+ "reasoning" +:+ dq +:+ ": " +:+ dq +:+ "Direct text match for button" +:+ dq;
  "        }";
  "    ],";
  "    " +:+ dq +:+ "best_selector" +:+ dq +:+ ": " +:+ dq +:+ "//button[text()='Submit']" +:+ dq +:+ ",";
  "    " +:+ dq +:+ "success" +:+ dq +:+ ": true,";
  "    " +:+ dq +:+ "error" +:+ dq +:+ ": null";
  "}" ].

(** [html_content[:8000]] keeps at most this many characters. *)
Definition html_limit : nat := Eval vm_compute in 80 * 100.

Definition user_prompt (html_content element_description url : string) : string :=
  lines [
    EmptyString;
    "HTML Content:";
    String.substring 0 html_limit html_content +:+ "  # Limit HTML to avoid token limits";
    EmptyString;
    "Element to find: " +:+ dq +:+ element_description +:+ dq;
    "URL: " +:+ url;
    EmptyString;
    "Find the best selector for this element. Focus on the most reliable approach.";
    EmptyString ].

(** The dictionary both [except] clauses return. *)
Definition failure (error : string) : result := Result [] None false (Some error).

(** The two [except] clauses, in order. *)
Definition on_error (vendor : string) (e : exn) : M N (option result) :=
  if is_json_error e then
    emit (Log ERROR ("Failed to parse " +:+ vendor +:+ " response: " +:+ message e)) ;;
    ret (Some (failure ("JSON parse error: " +:+ message e)))
  else
    emit (Log ERROR (vendor +:+ " API error: " +:+ message e)) ;;
    ret (Some (failure (message e))).

(** *** class AIClient(ABC) *)

(** The body of the abstract method is [pass]: it returns [None]. *)
Definition AIClient_analyze_dom : analyze_fn :=
  fun _ _ _ _ => ret None.

Definition AIClient : class :=
  PyClass "AIClient" None [("analyze_dom", Method true AIClient_analyze_dom)].

(** *** class OpenAIClient(AIClient) *)

Definition OpenAIClient___init__ (args : list string) : outcome (gmap string value) :=
  match args with
  | [api_key; model] =>
      Ret (<["model" := VStr model]> (<["client" := VClient (OpenAI api_key)]> ∅))
  | _ => Raise (Exn TypeError "__init__() takes from 2 to 3 positional arguments")
  end.

Definition OpenAIClient : class :=
  PyClass "OpenAIClient" (Some AIClient) [("__init__", Init OpenAIClient___init__)].

(** *** class AzureOpenAIClient(AIClient) *)

Definition AzureOpenAIClient___init__ (args : list string) : outcome (gmap string value) :=
  match args with
  | [api_key; endpoint; deployment; api_version] =>
      Ret (<["deployment" := VStr deployment]>
             (<["client" := VClient (AzureOpenAI api_key endpoint api_version)]> ∅))
  | _ => Raise (Exn TypeError "__init__() takes from 4 to 5 positional arguments")
  end.

(** The first [def analyze_dom] of the class body (source lines 41-111). *)
Definition AzureOpenAIClient_analyze_dom_1 : analyze_fn :=
  fun self html_content element_description url =>
    try_except
      (client <- lift (getattr self "client") ;;
       deployment <- lift (getattr self "deployment") ;;
       content <- chat_completions_create client deployment system_prompt
                    (user_prompt html_content element_description url) ;;
       result <- lift (json_loads content) ;;
       emit (Log INFO ("Azure OpenAI analysis completed for: " +:+ element_description)) ;;
       ret (Some result))
      (on_error "Azure OpenAI").

(** The second [def analyze_dom] of the class body (source lines 113-183). *)
Definition AzureOpenAIClient_analyze_dom_2 : analyze_fn :=
  fun self html_content element_description url =>
    try_except
      (client <- lift (getattr self "client") ;;
       model <- lift (getattr self "model") ;;
       content <- chat_completions_create client model system_prompt
                    (user_prompt html_content element_description url) ;;
       result <- lift (json_loads content) ;;
       emit (Log INFO ("OpenAI analysis completed for: " +:+ element_description)) ;;
       ret (Some result))
      (on_error "OpenAI").

Definition AzureOpenAIClient : class :=
  PyClass "AzureOpenAIClient" (Some AIClient)
    [ ("__init__", Init AzureOpenAIClient___init__);
      ("analyze_dom", Method false AzureOpenAIClient_analyze_dom_1);
      ("analyze_dom", Method false AzureOpenAIClient_analyze_dom_2) ].

(** *** class AnthropicClient(AIClient) *)

Definition AnthropicClient___init__ (args : list string) : outcome (gmap string value) :=
  match args with
  | [api_key; model] =>
      Ret (<["model" := VStr model]> (<["client" := VClient (Anthropic api_key)]> ∅))
  | _ => Raise (Exn TypeError "__init__() takes from 2 to 3 positional arguments")
  end.

Definition AnthropicClient_analyze_dom : analyze_fn :=
  fun self html_content element_description url =>
    try_except
      (client <- lift (getattr self "client") ;;
       model <- lift (getattr self "model") ;;
       content <- messages_create client model system_prompt
                    (user_prompt html_content element_description url) ;;
       result <- lift (json_loads content) ;;
       emit (Log INFO ("Anthropic analysis completed for: " +:+ element_description)) ;;
       ret (Some result))
      (on_error "Anthropic").

Definition AnthropicClient : class :=
  PyClass "AnthropicClient" (Some AIClient)
    [ ("__init__", Init AnthropicClient___init__);
      ("analyze_dom", Method false AnthropicClient_analyze_dom) ].

(** *** class AIElementDetector *)

Record AIElementDetector := Detector { client : object }.

Definition _initialize_client (settings : Config.Settings) : outcome object :=
  if String.eqb (Config.ai_provider settings) "openai" then
    if negb (truthy_opt (Config.openai_api_key settings)) then
      Raise (Exn ValueError "OpenAI API key not configured")
    else
      new OpenAIClient
        [ default EmptyString (Config.openai_api_key settings);
          Config.openai_model settings ]
  else if String.eqb (Config.ai_provider settings) "azure_openai" then
    if negb (truthy_opt (Config.azure_openai_api_key settings))
       || negb (truthy_opt (Config.azure_openai_endpoint settings))
       || negb (truthy_opt (Config.azure_openai_deployment settings)) then
      Raise (Exn ValueError
        "Azure OpenAI configuration incomplete. Need: api_key, endpoint, deployment")
    else
      new AzureOpenAIClient
        [ default EmptyString (Config.azure_openai_api_key settings);
          default EmptyString (Config.azure_openai_endpoint settings);
          default EmptyString (Config.azure_openai_deployment settings);
          Config.azure_openai_api_version settings ]
  else if String.eqb (Config.ai_provider settings) "anthropic" then
    if negb (truthy_opt (Config.anthropic_api_key settings)) then
      Raise (Exn ValueError "Anthropic API key not configured")
    else
      new AnthropicClient
        [ default EmptyString (Config.anthropic_api_key settings);
          Config.anthropic_model settings ]
  else
    Raise (Exn ValueError ("Unsupported AI provider: " +:+ Config.ai_provider settings)).

(** [AIElementDetector()] *)
Definition AIElementDetector___init__ (settings : Config.Settings) : outcome AIElementDetector :=
  match _initialize_client settings with
  | Ret c => Ret (Detector c)
  | Raise e => Raise e
  end.

Definition _clean_html (html_content : string) : string :=
  let html_content :=
    re_sub "<script[^>]*>.*?</script>" EmptyString html_content [DOTALL; IGNORECASE] in
  let html_content :=
    re_sub "<style[^>]*>.*?</style>" EmptyString html_content [DOTALL; IGNORECASE] in
  let html_content := re_sub "<!--.*?-->" EmptyString html_content [DOTALL] in
  html_content.

Definition fallback_candidate (selector : string) : candidate :=
  Candidate selector "xpath" (QArith_base.Qmake 1 2) "Fallback pattern-based selector".

Definition _add_fallback_selectors (result : result) (element_description : string)
    : M N ai_client.result :=
  emit (Generate element_description) ;;
  let fallback_selectors := XPathHelper.generate_xpath_variations element_description in
  let fallback_list := map fallback_candidate fallback_selectors in
  let result :=
    Result (selectors result ++ fallback_list) (best_selector result)
           (success result) (error result) in
  match fallback_list with
  | first :: _ =>
      if negb (truthy_opt (best_selector result)) then
        ret (Result (selectors result) (Some (c_selector first)) true (error result))
      else ret result
  | [] => ret result
  end.

Definition find_element_selector (self : AIElementDetector)
    (html_content element_description url : string) : M N result :=
  emit (Log INFO ("Analyzing element: " +:+ element_description)) ;;
  emit (Analyze element_description url) ;;
  let cleaned_html := _clean_html html_content in
  answer <- call_analyze_dom (client self) cleaned_html element_description url ;;
  match answer with
  | None => raise (Exn TypeError "'NoneType' object is not subscriptable")
  | Some result =>
      if negb (success result) || negb (truthy_opt (best_selector result)) then
        _add_fallback_selectors result element_description
      else ret result
  end.

End Classes.

Arguments analyze_fn : clear implicits.
Arguments member : clear implicits.
Arguments class : clear implicits.
Arguments object : clear implicits.
Arguments AIElementDetector : clear implicits.

End ai_client.

(** ** src/cucumber_parser.py: the step and scenario records *)

Module cucumber_parser.

Record TestStep := {
  step_type : string;
  step_text : string;
  element_description : option string;
  action : option string;
  expected_text : option string
}.

Record TestScenario := {
  name : string;
  steps : list TestStep;
  tags : option (list string);
  background_steps : option (list TestStep)
}.

End cucumber_parser.

(** ** src/playwright_controller.py

    The controller wraps the browser page.  Each of its methods catches what
    the driver raises and answers with a boolean (or the empty string), so the
    executor sees the interface below.  [find_element], [get_page_url] and
    [get_page_html] read the page and leave it as it is; the other methods
    may change it. *)

Class PlaywrightController (B : Type) := {
  get_page_url : B -> string;
  get_page_html : B -> string;
  find_element : B -> string -> string -> bool;
  navigate_to : string -> B -> bool * B;
  click_element : string -> string -> B -> bool * B;
  type_text : string -> string -> string -> B -> bool * B;
  select_option : string -> string -> string -> B -> bool * B;
  wait_for_element : string -> string -> B -> bool * B
}.

(** ** src/test_executor.py *)

Module TestExecutor.

Import cucumber_parser.

Record TestResult := {
  scenario_name : string;
  passed : bool;
  steps_executed : nat;
  steps_passed : nat;
  steps_failed : nat;
  error_message : option string;
  failed_steps : list string
}.

(** The dictionary [_get_element_selector] returns. *)
Record selector_dict := Selector { selector : string; type : string }.

(** The tier that answered.  The Python function returns the dictionary or
    [None] only; the tag names the [return] statement that was taken, in the
    words of the specification. *)
Inductive source := CACHE | HEURISTIC | AI | NONE.

(** [re.search(r'[QUOTE]([^QUOTE]+)[QUOTE]', s)] with QUOTE either quote
    character: the characters up to the next quote, when there is one. *)
Definition is_quote (c : ascii) : bool :=
  Nat.eqb (nat_of_ascii c) 34 || Nat.eqb (nat_of_ascii c) 39.

Fixpoint closed_run (s : string) : option string :=
  match s with
  | EmptyString => None
  | String c s' =>
      if is_quote c then Some EmptyString
      else option_map (String c) (closed_run s')
  end.

(** Group 1 of the leftmost match. *)
Fixpoint search_quoted (s : string) : option string :=
  match s with
  | EmptyString => None
  | String c s' =>
      if is_quote c then
        match closed_run s' with
        | Some (String _ _ as r) => Some r
        | _ => search_quoted s'
        end
      else search_quoted s'
  end.

Section Executor.
Context {B N : Type} `{PlaywrightController B} `{ai_client.Services N}.

(** The executor with the objects it owns.  [remote] is the state of the
    services behind the detector's client. *)
Record t := Make {
  ai_detector : ai_client.AIElementDetector N;
  playwright_controller : B;
  element_cache : ElementCache.t;
  cache_hits : nat;
  ai_calls : nat;
  remote : N
}.

Definition on_cache {A} : M ElementCache.t A -> M t A :=
  zoom element_cache
    (fun c self => Make (ai_detector self) (playwright_controller self) c
                     (cache_hits self) (ai_calls self) (remote self)).

Definition on_remote {A} : M N A -> M t A :=
  zoom remote
    (fun n self => Make (ai_detector self) (playwright_controller self)
                     (element_cache self) (cache_hits self) (ai_calls self) n).

(** A controller method that may change the page. *)
Definition on_page (f : B -> bool * B) : M t bool :=
  fun self =>
    let '(ok, b) := f (playwright_controller self) in
    (Ret ok,
     Make (ai_detector self) b (element_cache self) (cache_hits self)
       (ai_calls self) (remote self),
     []).

(** [self.playwright_controller.find_element(selector, selector_type)] *)
Definition probe (selector selector_type : string) : M t bool :=
  self <- get_state ;;
  emit (Probe selector selector_type) ;;
  ret (find_element (playwright_controller self) selector selector_type).

Definition count_cache_hit : M t unit :=
  modify (fun self => Make (ai_detector self) (playwright_controller self)
                        (element_cache self) (cache_hits self + 1) (ai_calls self)
                        (remote self)).

Definition count_ai_call : M t unit :=
  modify (fun self => Make (ai_detector self) (playwright_controller self)
                        (element_cache self) (cache_hits self) (ai_calls self + 1)
                        (remote self)).

(** The loop over [xpath_variations]. *)
Fixpoint try_variations (current_url element_description : string)
    (xpath_variations : list string) : M t (option selector_dict) :=
  match xpath_variations with
  | [] => ret None
  | xpath :: rest =>
      found <- probe xpath "xpath" ;;
      if (found : bool) then
        emit (Log INFO ("Found element with pattern: " +:+ xpath)) ;;
        on_cache (ElementCache.set current_url element_description xpath "xpath" None) ;;
        ret (Some (Selector xpath "xpath"))
      else try_variations current_url element_description rest
  end.

Definition not_found (element_description : string) : M t (option selector_dict * source) :=
  emit (Log ERROR ("Could not find selector for: " +:+ element_description)) ;;
  ret (None, NONE).

Definition _get_element_selector (element_description : string)
    : M t (option selector_dict * source) :=
  self <- get_state ;;
  let current_url := get_page_url (playwright_controller self) in
  cached_result <- on_cache (ElementCache.get current_url element_description) ;;
  match cached_result with
  | Some cached_result =>
      count_cache_hit ;;
      emit (Log INFO ("Using cached selector for: " +:+ element_description)) ;;
      ret (Some (Selector (ElementCache.selector cached_result)
                          (ElementCache.selector_type cached_result)), CACHE)
  | None =>
      emit (Generate element_description) ;;
      let xpath_variations := XPathHelper.generate_xpath_variations element_description in
      found <- try_variations current_url element_description xpath_variations ;;
      match found with
      | Some d => ret (Some d, HEURISTIC)
      | None =>
          emit (Log INFO ("Using AI analysis for: " +:+ element_description)) ;;
          count_ai_call ;;
          self <- get_state ;;
          let html_content := get_page_html (playwright_controller self) in
          ai_result <- on_remote
            (ai_client.find_element_selector (ai_detector self) html_content
               element_description current_url) ;;
          if ai_client.success ai_result && truthy_opt (ai_client.best_selector ai_result)
          then
            let selector := default EmptyString (ai_client.best_selector ai_result) in
            let selector_type :=
              if PyStr.startswith selector "//" || PyStr.startswith selector "xpath="
              then "xpath" else "css" in
            found <- probe selector selector_type ;;
            if (found : bool) then
              on_cache (ElementCache.set current_url element_description selector
                          selector_type None) ;;
              ret (Some (Selector selector selector_type), AI)
            else not_found element_description
          else not_found element_description
      end
  end.

(** *** Names for the states and traces of a resolution *)

Definition with_cache (self : t) (c : ElementCache.t) : t :=
  Make (ai_detector self) (playwright_controller self) c (cache_hits self)
    (ai_calls self) (remote self).

Definition with_hit (self : t) : t :=
  Make (ai_detector self) (playwright_controller self) (element_cache self)
    (cache_hits self + 1) (ai_calls self) (remote self).

Definition with_ai_call (self : t) (n : N) : t :=
  Make (ai_detector self) (playwright_controller self) (element_cache self)
    (cache_hits self) (ai_calls self + 1) n.

Definition page_url (self : t) : string :=
  get_page_url (playwright_controller self).

Definition exists_on_page (self : t) (xpath : string) : bool :=
  find_element (playwright_controller self) xpath "xpath".

Definition probes (xs : list string) : list event :=
  map (fun xpath => Probe xpath "xpath") xs.

Definition page_html (self : t) : string :=
  get_page_html (playwright_controller self).

(** [selector_type] as the executor infers it from an AI selector. *)
Definition inferred_type (selector : string) : string :=
  if PyStr.startswith selector "//" || PyStr.startswith selector "xpath="
  then "xpath" else "css".

Definition heuristic_prefix (d : string) : list event :=
  Log INFO ("Cache miss for: " +:+ d) :: Generate d
  :: probes (XPathHelper.generate_xpath_variations d)
  ++ [Log INFO ("Using AI analysis for: " +:+ d)].

(** *** Step handlers *)

Definition _handle_navigate_step (step : TestStep) : M t bool :=
  let url := element_description step in
  let url := if negb (truthy_opt url) then
               match search_quoted (step_text step) with
               | Some u => Some u
               | None => url
               end
             else url in
  if truthy_opt url then on_page (navigate_to (default EmptyString url))
  else ret false.

Definition _handle_click_step (step : TestStep) : M t bool :=
  if negb (truthy_opt (element_description step)) then ret false
  else
    r <- _get_element_selector (default EmptyString (element_description step)) ;;
    match fst r with
    | Some d => on_page (click_element (selector d) (type d))
    | None => ret false
    end.

Definition _handle_type_step (step : TestStep) : M t bool :=
  if negb (truthy_opt (element_description step)) || negb (truthy_opt (expected_text step))
  then ret false
  else
    r <- _get_element_selector (default EmptyString (element_description step)) ;;
    match fst r with
    | Some d =>
        on_page (type_text (selector d) (default EmptyString (expected_text step)) (type d))
    | None => ret false
    end.

Definition _handle_select_step (step : TestStep) : M t bool :=
  if negb (truthy_opt (element_description step)) || negb (truthy_opt (expected_text step))
  then ret false
  else
    r <- _get_element_selector (default EmptyString (element_description step)) ;;
    match fst r with
    | Some d =>
        on_page (select_option (selector d) (default EmptyString (expected_text step)) (type d))
    | None => ret false
    end.

Definition _handle_verify_step (step : TestStep) : M t bool :=
  if negb (truthy_opt (expected_text step)) then ret false
  else
    let selector :=
      "//*[contains(text(),'" +:+ default EmptyString (expected_text step) +:+ "')]" in
    probe selector "xpath".

(** Without an element the step sleeps two seconds and succeeds. *)
Definition _handle_wait_step (step : TestStep) : M t bool :=
  if truthy_opt (element_description step) then
    r <- _get_element_selector (default EmptyString (element_description step)) ;;
    match fst r with
    | Some d => on_page (wait_for_element (selector d) (type d))
    | None => ret false
    end
  else ret true.

Definition _handle_generic_step (step : TestStep) : M t bool :=
  let step_lower := PyStr.lower (step_text step) in
  let has_element := truthy_opt (element_description step) in
  if PyStr.contains "click" step_lower && has_element then _handle_click_step step
  else if existsb (fun word => PyStr.contains word step_lower) ["type"; "enter"; "input"]
          && has_element then _handle_type_step step
  else if PyStr.contains "select" step_lower && has_element then _handle_select_step step
  else if existsb (fun word => PyStr.contains word step_lower) ["see"; "verify"; "check"]
  then _handle_verify_step step
  else if PyStr.contains "navigate" step_lower || PyStr.contains "go to" step_lower
  then _handle_navigate_step step
  else
    emit (Log WARNING ("Unknown step type: " +:+ step_text step)) ;;
    ret true.

Definition action_is (step : TestStep) (a : string) : bool :=
  match action step with
  | Some x => String.eqb x a
  | None => false
  end.

Definition _execute_step (step : TestStep) : M t bool :=
  emit (Log INFO ("Executing step: " +:+ step_text step)) ;;
  try_except
    (if action_is step "navigate" then _handle_navigate_step step
     else if action_is step "click" then _handle_click_step step
     else if action_is step "type" then _handle_type_step step
     else if action_is step "select" then _handle_select_step step
     else if action_is step "verify" then _handle_verify_step step
     else if action_is step "wait" then _handle_wait_step step
     else _handle_generic_step step)
    (fun e =>
       emit (Log ERROR ("Step execution failed: " +:+ message e)) ;;
       ret false).

(** *** execute_scenario

    The counters are local variables of the call; they keep what they have
    when the [try] body is left by an exception.  [run_step] stands for the
    call [self._execute_step(step)]. *)

Record tally := Tally {
  executed : nat;
  passed_count : nat;
  failed_count : nat;
  failed_list : list string
}.

Definition count_step (label : string) (success : bool) (c : tally) : tally :=
  if success then
    Tally (executed c + 1) (passed_count c + 1) (failed_count c) (failed_list c)
  else
    Tally (executed c + 1) (passed_count c) (failed_count c + 1) (failed_list c ++ [label]).

Definition on_self {A} : M t A -> M (t * tally) A :=
  zoom fst (fun self st => (self, snd st)).

Definition on_tally (f : tally -> tally) : M (t * tally) unit :=
  modify (fun st => (fst st, f (snd st))).

Section Scenario.
Variable run_step : TestStep -> M t bool.

Fixpoint background_loop (steps : list TestStep) : M (t * tally) unit :=
  match steps with
  | [] => ret tt
  | step :: rest =>
      success <- on_self (run_step step) ;;
      on_tally (count_step ("Background: " +:+ step_text step) success) ;;
      background_loop rest
  end.

Fixpoint scenario_loop (steps : list TestStep) : M (t * tally) unit :=
  match steps with
  | [] => ret tt
  | step :: rest =>
      success <- on_self (run_step step) ;;
      on_tally (count_step (step_text step) success) ;;
      if (success : bool) then scenario_loop rest else ret tt
  end.

(** [runs steps self bs self' t]: the steps, run one after the other from
    [self] and each returning, give the results [bs], the state [self'] and
    the trace [t]. *)
Inductive runs : list TestStep -> t -> list bool -> t -> list event -> Prop :=
  | runs_nil self : runs [] self [] self []
  | runs_cons step rest self b self1 t1 bs self2 t2 :
      run_step step self = (Ret b, self1, t1) ->
      runs rest self1 bs self2 t2 ->
      runs (step :: rest) self (b :: bs) self2 (t1 ++ t2).

(** The counters after steps labelled [labels] gave the results [bs]. *)
Fixpoint count_steps (labels : list string) (bs : list bool) (c : tally) : tally :=
  match labels, bs with
  | label :: labels', b :: bs' => count_steps labels' bs' (count_step label b c)
  | _, _ => c
  end.

(** The [try] statement: the body, and the handler that keeps the message. *)
Definition guarded_body (scenario : TestScenario) : M (t * tally) (option string) :=
  try_except
    (match background_steps scenario with
     | Some ((_ :: _) as bg) => background_loop bg
     | _ => ret tt
     end ;;
     scenario_loop (steps scenario) ;;
     ret None)
    (fun e =>
       emit (Log ERROR ("Scenario execution failed: " +:+ message e)) ;;
       ret (Some (message e))).

Definition execute_scenario_with (scenario : TestScenario) : M t TestResult :=
  fun self =>
    let '(r, (self', c), evs) :=
      guarded_body scenario (self, Tally 0 0 0 []) in
    let evs := Log INFO ("Executing scenario: " +:+ name scenario) :: evs in
    match r with
    | Ret error_message =>
        let passed :=
          Nat.eqb (failed_count c) 0
          && match error_message with None => true | Some _ => false end in
        (Ret {| scenario_name := name scenario;
                passed := passed;
                steps_executed := executed c;
                steps_passed := passed_count c;
                steps_failed := failed_count c;
                error_message := error_message;
                failed_steps := failed_list c |},
         self', evs)
    | Raise e => (Raise e, self', evs)
    end.

End Scenario.

Definition execute_scenario (scenario : TestScenario) : M t TestResult :=
  execute_scenario_with _execute_step scenario.

End Executor.

End TestExecutor.

(** ** Test doubles

    A page that does not change under interaction, and AI services that are
    unreachable.  They serve the examples and the concrete runs below. *)

Module Doubles.

Record page := Page {
  page_url : string;
  page_html : string;
  matching : list string
}.

Definition page_find (p : page) (selector selector_type : string) : bool :=
  existsb (String.eqb selector) (matching p).

#[export] Instance static_page : PlaywrightController page := {
  get_page_url := page_url;
  get_page_html := page_html;
  find_element := page_find;
  navigate_to url p := (true, Page url (page_html p) (matching p));
  click_element selector selector_type p := (page_find p selector selector_type, p);
  type_text selector text selector_type p := (page_find p selector selector_type, p);
  select_option selector text selector_type p := (page_find p selector selector_type, p);
  wait_for_element selector selector_type p := (page_find p selector selector_type, p)
}.

#[export] Instance offline : ai_client.Services unit := {
  chat_completions_create _ _ _ _ := raise (Exn APIError "Connection error.");
  messages_create _ _ _ _ := raise (Exn APIError "Connection error.");
  json_loads _ := Raise (Exn JSONDecodeError "Expecting value: line 1 column 1 (char 0)");
  re_sub _ _ s _ := s
}.

Definition anthropic_settings : Config.Settings := {|
  Config.ai_provider := "anthropic";
  Config.openai_api_key := None;
  Config.anthropic_api_key := Some "sk-test";
  Config.openai_model := "gpt-4";
  Config.anthropic_model := "claude-3-sonnet-20240229";
  Config.azure_openai_endpoint := None;
  Config.azure_openai_api_key := None;
  Config.azure_openai_deployment := None;
  Config.azure_openai_api_version := "2024-02-01";
  Config.headless := true;
  Config.browser_type := "chromium";
  Config.timeout := 30000%Z;
  Config.cache_file := "element_cache.json";
  Config.log_level := "INFO"
|}.

Definition azure_settings : Config.Settings := {|
  Config.ai_provider := "azure_openai";
  Config.openai_api_key := None;
  Config.anthropic_api_key := None;
  Config.openai_model := "gpt-4";
  Config.anthropic_model := "claude-3-sonnet-20240229";
  Config.azure_openai_endpoint := Some "https://unit.openai.azure.com";
  Config.azure_openai_api_key := Some "az-test";
  Config.azure_openai_deployment := Some "gpt4-deploy";
  Config.azure_openai_api_version := "2024-02-01";
  Config.headless := true;
  Config.browser_type := "chromium";
  Config.timeout := 30000%Z;
  Config.cache_file := "element_cache.json";
  Config.log_level := "INFO"
|}.

Definition openai_settings : Config.Settings := {|
  Config.ai_provider := "openai";
  Config.openai_api_key := Some "sk-test";
  Config.anthropic_api_key := None;
  Config.openai_model := "gpt-4";
  Config.anthropic_model := "claude-3-sonnet-20240229";
  Config.azure_openai_endpoint := None;
  Config.azure_openai_api_key := None;
  Config.azure_openai_deployment := None;
  Config.azure_openai_api_version := "2024-02-01";
  Config.headless := true;
  Config.browser_type := "chromium";
  Config.timeout := 30000%Z;
  Config.cache_file := "element_cache.json";
  Config.log_level := "INFO"
|}.

(** An executor on page [p] with an Anthropic client, a fresh cache on a
    writable disk and the services out of reach. *)
Definition anthropic_detector : ai_client.AIElementDetector unit :=
  ai_client.Detector
    (ai_client.Object ai_client.AnthropicClient
       (ai_client.Instance "AnthropicClient"
          (<["model" := ai_client.VStr "claude-3-sonnet-20240229"]>
             (<["client" := ai_client.VClient (ai_client.Anthropic "sk-test")]> ∅)))).

Definition fresh_cache : ElementCache.t :=
  ElementCache.Make (ElementCache.Store ElementCache.NoFile ElementCache.NoFault) ∅.

Definition executor_on (p : page) : TestExecutor.t :=
  TestExecutor.Make anthropic_detector p fresh_cache 0 0 tt.

(** A cache that already holds the login button of [http://x/login]. *)
Definition login_entry : ElementCache.entry :=
  ElementCache.Entry "//button[text()='Login']" "xpath" "http://x/login" "login button" [].

Definition warm_cache : ElementCache.t :=
  ElementCache.Make (ElementCache.Store ElementCache.NoFile ElementCache.NoFault)
    (<[ElementCache._generate_key "http://x/login" "login button" := login_entry]> ∅).

Definition warm_executor_on (p : page) : TestExecutor.t :=
  TestExecutor.Make anthropic_detector p warm_cache 0 0 tt.

Definition step (text : string) (element action expected : option string)
    : cucumber_parser.TestStep :=
  {| cucumber_parser.step_type := "when";
     cucumber_parser.step_text := text;
     cucumber_parser.element_description := element;
     cucumber_parser.action := action;
     cucumber_parser.expected_text := expected |}.

End Doubles.

(** ** More test doubles

    A completion service that answers every request with the text it holds,
    and a decoder that knows two answers. *)

Module Replies.

Inductive canned := Canned (content : string).

Definition reply : M canned string :=
  fun n => let '(Canned content) := n in (Ret content, n, []).

Definition css_answer : ai_client.result :=
  ai_client.Result
    [ai_client.Candidate "div[role='button']" "css" (QArith_base.Qmake 9 10) "role attribute"]
    (Some "div[role='button']") true None.

Definition unsure_answer : ai_client.result :=
  ai_client.Result
    [ai_client.Candidate "#enter" "css" (QArith_base.Qmake 1 10) "guess"]
    (Some "#enter") false None.

Definition decode (content : string) : outcome ai_client.result :=
  if String.eqb content "css" then Ret css_answer
  else if String.eqb content "unsure" then Ret unsure_answer
  else Raise (Exn JSONDecodeError "Expecting value: line 1 column 1 (char 0)").

#[export] Instance canned_services : ai_client.Services canned := {
  ai_client.chat_completions_create _ _ _ _ := reply;
  ai_client.messages_create _ _ _ _ := reply;
  ai_client.json_loads := decode;
  ai_client.re_sub _ _ s _ := s
}.

Definition anthropic_client : ai_client.object canned :=
  ai_client.Object ai_client.AnthropicClient
    (ai_client.Instance "AnthropicClient"
       (<["model" := ai_client.VStr "claude-3-sonnet-20240229"]>
          (<["client" := ai_client.VClient (ai_client.Anthropic "sk-test")]> ∅))).

(** An executor on page [p] whose service answers [content]. *)
Definition executor_answering (content : string) (p : Doubles.page) : TestExecutor.t :=
  TestExecutor.Make (ai_client.Detector anthropic_client) p Doubles.fresh_cache 0 0
    (Canned content).

(** A client class whose [analyze_dom] has a body that returns nothing, and
    an executor on page [p] whose detector holds an instance of it. *)
Definition SilentClient : ai_client.class unit :=
  ai_client.PyClass "SilentClient" (Some (ai_client.AIClient (N:=unit)))
    [("analyze_dom", ai_client.Method false (ai_client.AIClient_analyze_dom (N:=unit)))].

Definition silent_executor_on (p : Doubles.page) : TestExecutor.t :=
  TestExecutor.Make
    (ai_client.Detector
       (ai_client.Object SilentClient (ai_client.Instance "SilentClient" ∅)))
    p Doubles.fresh_cache 0 0 tt.

End Replies.

(** ** Feature texts

    A stand-in for the table of regular expressions that recognises nothing,
    and two feature files. *)

Module Features.

Definition no_patterns (step_text : string)
    : option string * option string * option string :=
  (None, None, None).

Definition plain_step (step_type step_text : string) : cucumber_parser.TestStep :=
  {| cucumber_parser.step_type := step_type;
     cucumber_parser.step_text := step_text;
     cucumber_parser.element_description := None;
     cucumber_parser.action := None;
     cucumber_parser.expected_text := None |}.

Definition login_feature : string := ai_client.lines [
  "Feature: Login";
  EmptyString;
  "  Background:";
  "    Given I open the site";
  EmptyString;
  "  # the happy path";
  "  Scenario: Log in";
  "    When I click login";
  "    Then I see welcome";
  EmptyString;
  "  Scenario: Log out";
  "    When I click logout";
  EmptyString ].

Definition login_scenarios : list cucumber_parser.TestScenario :=
  [ {| cucumber_parser.name := "Log in";
       cucumber_parser.steps :=
         [plain_step "when" "I click login"; plain_step "then" "I see welcome"];
       cucumber_parser.tags := Some [];
       cucumber_parser.background_steps := Some [plain_step "given" "I open the site"] |};
    {| cucumber_parser.name := "Log out";
       cucumber_parser.steps := [plain_step "when" "I click logout"];
       cucumber_parser.tags := Some [];
       cucumber_parser.background_steps := Some [plain_step "given" "I open the site"] |} ].

(** A second [Background:] section after the first scenario. *)
Definition grown_feature : string := ai_client.lines [
  "Background:";
  "Given I open the site";
  "Scenario: Log in";
  "When I click login";
  "Background:";
  "And I accept the cookies";
  "Scenario: Log out";
  "When I click logout" ].

End Features.

(** ** src/cucumber_parser.py: the parser

    [str.split] in the three forms the parser uses. *)

Module PyText.

(** [s.split(sep)] for a one-character separator: the pieces between the
    separators, empty pieces included. *)
Fixpoint split_on (sep : ascii) (s : string) : list string :=
  match s with
  | EmptyString => [EmptyString]
  | String c s' =>
      if Ascii.eqb c sep then EmptyString :: split_on sep s'
      else
        match split_on sep s' with
        | piece :: pieces => String c piece :: pieces
        | [] => [String c EmptyString]
        end
  end.

(** [s.split()]: the maximal runs of characters that are not whitespace. *)
Fixpoint split_whitespace (s : string) : list string :=
  match s with
  | EmptyString => []
  | String c s' =>
      if PyStr.is_space c then split_whitespace s'
      else
        match s' with
        | EmptyString => [String c EmptyString]
        | String c' _ =>
            if PyStr.is_space c' then String c EmptyString :: split_whitespace s'
            else
              match split_whitespace s' with
              | word :: words => String c word :: words
              | [] => [String c EmptyString]
              end
        end
  end.

(** The first run of characters that are not whitespace, and what follows. *)
Fixpoint take_word (s : string) : string * string :=
  match s with
  | EmptyString => (EmptyString, EmptyString)
  | String c s' =>
      if PyStr.is_space c then (EmptyString, s)
      else let '(word, rest) := take_word s' in (String c word, rest)
  end.

(** [s.split(None, 1)]: the first word, and the remainder from its first
    visible character on when there is one. *)
Definition split_first (s : string) : list string :=
  match PyStr.lstrip s with
  | EmptyString => []
  | s1 =>
      let '(word, rest) := take_word s1 in
      match PyStr.lstrip rest with
      | EmptyString => [word]
      | rest' => [word; rest']
      end
  end.

(** [s.split(sep, 1)[1]]: what follows the first separator, [None] standing
    for the [IndexError] when there is none. *)
Fixpoint after_first (sep : ascii) (s : string) : option string :=
  match s with
  | EmptyString => None
  | String c s' => if Ascii.eqb c sep then Some s' else after_first sep s'
  end.

End PyText.

Module CucumberParser.
Import cucumber_parser.

(** [_is_step_line] *)
Definition _is_step_line (line : string) : bool :=
  existsb (fun keyword => PyStr.startswith (PyStr.lower line) keyword)
    ["given"; "when"; "then"; "and"; "but"].

Section Parser.

(** [_extract_action_and_element]: a table of regular expressions tried in
    turn; the regular-expression engine is outside the program. *)
Variable _extract_action_and_element :
  string -> option string * option string * option string.

Definition _parse_step (line : string) : outcome TestStep :=
  match PyText.split_first line with
  | [] => Raise (Exn IndexError "list index out of range")
  | [word] =>
      Ret {| step_type := word; step_text := line; element_description := None;
             action := None; expected_text := None |}
  | word :: text :: _ =>
      let '(action, element_description, expected_text) :=
        _extract_action_and_element text in
      Ret {| step_type := PyStr.lower word; step_text := text;
             element_description := element_description;
             action := action; expected_text := expected_text |}
  end.

(** The local variables of [parse_feature_content]. *)
Record locals := Locals {
  scenarios : list TestScenario;
  current_scenario : option TestScenario;
  current_steps : list TestStep;
  current_tags : list string;
  background : list TestStep;
  in_background : bool
}.

Definition start : locals := Locals [] None [] [] [] false.

(** [if current_scenario and current_steps: ...append...] *)
Definition flush (st : locals) : list TestScenario :=
  match current_scenario st, current_steps st with
  | Some sc, _ :: _ =>
      scenarios st
      ++ [{| name := name sc; steps := current_steps st; tags := tags sc;
             background_steps := background_steps sc |}]
  | _, _ => scenarios st
  end.

Definition is_scenario_header (line : string) : bool :=
  PyStr.startswith (PyStr.lower line) "scenario:"
  || PyStr.startswith (PyStr.lower line) "scenario outline:".

(** One turn of the loop over the lines. *)
Definition parse_line (st : locals) (raw : string) : outcome locals :=
  let line := PyStr.strip raw in
  if negb (PyStr.truthy line) || PyStr.startswith line "#" then Ret st
  else if PyStr.startswith line "@" then
    Ret (Locals (scenarios st) (current_scenario st) (current_steps st)
           (current_tags st ++ PyText.split_whitespace line) (background st)
           (in_background st))
  else if PyStr.startswith (PyStr.lower line) "background:" then
    Ret (Locals (scenarios st) (current_scenario st) (current_steps st)
           (current_tags st) (background st) true)
  else if is_scenario_header line then
    match PyText.after_first ":" line with
    | None => Raise (Exn IndexError "list index out of range")
    | Some title =>
        Ret (Locals (flush st)
               (Some {| name := PyStr.strip title; steps := [];
                        tags := Some (current_tags st);
                        background_steps := Some (background st) |})
               [] [] (background st) false)
    end
  else if _is_step_line line then
    match _parse_step line with
    | Raise e => Raise e
    | Ret step =>
        if in_background st then
          Ret (Locals (scenarios st) (current_scenario st) (current_steps st)
                 (current_tags st) (background st ++ [step]) true)
        else
          Ret (Locals (scenarios st) (current_scenario st) (current_steps st ++ [step])
                 (current_tags st) (background st) false)
    end
  else Ret st.

Fixpoint parse_lines (st : locals) (lines : list string) : outcome locals :=
  match lines with
  | [] => Ret st
  | line :: rest =>
      match parse_line st line with
      | Ret st' => parse_lines st' rest
      | Raise e => Raise e
      end
  end.

Definition parse_feature_content {S} (content : string) : M S (list TestScenario) :=
  match parse_lines start (PyText.split_on (ascii_of_nat 10) content) with
  | Raise e => raise e
  | Ret st =>
      let scenarios := flush st in
      emit (Log INFO ("Parsed " +:+ str_nat (length scenarios) +:+ " scenarios")) ;;
      ret scenarios
  end.

End Parser.

(** [get_all_elements]: the set of the non-empty element descriptions; the
    order of the list built from it is not fixed by the language. *)
Definition step_elements (steps : list TestStep) : gset string :=
  list_to_set
    (omap (fun s => if truthy_opt (element_description s) then element_description s else None)
       steps).

Definition get_all_elements (scenarios : list TestScenario) : gset string :=
  ⋃ (map (fun sc => step_elements (default [] (background_steps sc))
                    ∪ step_elements (steps sc)) scenarios).

(** [get_actions_summary] *)
Definition count_action (actions : gmap string nat) (s : TestStep) : gmap string nat :=
  if truthy_opt (action s) then
    let a := default EmptyString (action s) in
    <[a := default 0 (actions !! a) + 1]> actions
  else actions.

Definition get_actions_summary (scenarios : list TestScenario) : gmap string nat :=
  fold_left
    (fun actions sc =>
       fold_left count_action (steps sc)
         (fold_left count_action (default [] (background_steps sc)) actions))
    scenarios ∅.

End CucumberParser.

(** * Properties *)

Import Doubles.

(** ** Reference values *)

Example md5_empty : MD5.hexdigest EmptyString = "d41d8cd98f00b204e9800998ecf8427e".
Proof. vm_compute. reflexivity. Qed.

Example md5_key :
  MD5.hexdigest "http://x/login::login button" = "47a63ff85bbbe940224da888b021715b".
Proof. vm_compute. reflexivity. Qed.

Example md5_two_blocks :
  MD5.hexdigest "aaaaaaaaaaaaaaaaaaaaaaaaaaaaaaaaaaaaaaaaaaaaaaaaaaaaaaaaaaaaaaaaaaaaaa"
  = "0f5c6c4e740bfcc08c3c26ccb2673d46".
Proof. vm_compute. reflexivity. Qed.

Example generate_login_button :
  XPathHelper.generate_xpath_variations "Login button" =
  [ "//button[text()='Login']";
    "//button[contains(text(),'Login')]";
    "//input[@type='button' and @value='Login']";
    "//input[@type='submit' and @value='Login']";
    "//*[contains(text(),'Login button')]" ].
Proof. vm_compute. reflexivity. Qed.

Example generate_mixed_case :
  XPathHelper.generate_xpath_variations "  Login Button " =
  [ "//button[text()='Login Button']";
    "//button[contains(text(),'Login Button')]";
    "//input[@type='button' and @value='Login Button']";
    "//input[@type='submit' and @value='Login Button']";
    "//*[contains(text(),'Login Button')]" ].
Proof. vm_compute. reflexivity. Qed.

Example generate_plain :
  XPathHelper.generate_xpath_variations "Enter" = [ "//*[contains(text(),'Enter')]" ].
Proof. vm_compute. reflexivity. Qed.

(** ** Strings *)

Module PyStrFacts.
Import PyStr.

Lemma lower_char_idem c : lower_char (lower_char c) = lower_char c.
Proof. destruct c as [[] [] [] [] [] [] [] []]; reflexivity. Qed.

Lemma is_space_lower_char c : is_space (lower_char c) = is_space c.
Proof. destruct c as [[] [] [] [] [] [] [] []]; reflexivity. Qed.

Lemma lower_idem s : lower (lower s) = lower s.
Proof. induction s as [|c s IH]; simpl; [reflexivity|]. now rewrite lower_char_idem, IH. Qed.

Lemma lower_app s1 s2 : lower (s1 +:+ s2) = lower s1 +:+ lower s2.
Proof. induction s1 as [|c s1 IH]; simpl; [reflexivity|]. now rewrite IH. Qed.

Lemma all_space_lower s : all_space (lower s) = all_space s.
Proof.
  induction s as [|c s IH]; simpl; [reflexivity|].
  now rewrite is_space_lower_char, IH.
Qed.

Lemma lstrip_all_space s : all_space s = true -> lstrip s = EmptyString.
Proof.
  induction s as [|c s IH]; simpl; [reflexivity|].
  intros [Hc Hs]%andb_prop. rewrite Hc. auto.
Qed.

Lemma lstrip_app_space pre s : all_space pre = true -> lstrip (pre +:+ s) = lstrip s.
Proof.
  induction pre as [|c pre IH]; simpl; [reflexivity|].
  intros [Hc Hs]%andb_prop. rewrite Hc. auto.
Qed.

Lemma rstrip_all_space s : all_space s = true -> rstrip s = EmptyString.
Proof.
  induction s as [|c s IH]; simpl; [reflexivity|].
  intros [Hc Hs]%andb_prop. rewrite (IH Hs), Hc. reflexivity.
Qed.

Lemma rstrip_app_space s post : all_space post = true -> rstrip (s +:+ post) = rstrip s.
Proof.
  intros Hpost. induction s as [|c s IH]; simpl.
  - now apply rstrip_all_space.
  - now rewrite IH.
Qed.

(** After [lstrip], a string is empty or starts with a visible character;
    appending whitespace then does not change what [lstrip] leaves of it,
    up to that whitespace. *)
Lemma lstrip_app_r s post :
  all_space post = true ->
  rstrip (lstrip (s +:+ post)) = rstrip (lstrip s).
Proof.
  intros Hpost. induction s as [|c s IH]; simpl.
  - change (EmptyString +:+ post) with post.
    rewrite (lstrip_all_space _ Hpost). reflexivity.
  - destruct (is_space c); [exact IH|].
    change (String c (s +:+ post)) with (String c s +:+ post).
    now apply rstrip_app_space.
Qed.

Lemma strip_padding pre s post :
  all_space pre = true -> all_space post = true ->
  strip (pre +:+ s +:+ post) = strip s.
Proof.
  intros Hpre Hpost. unfold strip.
  rewrite (lstrip_app_space pre _ Hpre). now apply lstrip_app_r.
Qed.

Lemma length_append (s1 s2 : string) :
  String.length (s1 +:+ s2) = String.length s1 + String.length s2.
Proof. induction s1 as [|c s1 IH]; simpl; [reflexivity|]. now rewrite IH. Qed.

Lemma append_inj_l (s1 s2 t : string) : s1 +:+ t = s2 +:+ t -> s1 = s2.
Proof.
  revert s2. induction s1 as [|c s1 IH]; intros [|c2 s2] Heq; simpl in Heq.
  - reflexivity.
  - apply (f_equal String.length) in Heq.
    change (String.length t = String.length (String c2 s2 +:+ t)) in Heq.
    rewrite length_append in Heq. simpl in Heq. lia.
  - apply (f_equal String.length) in Heq.
    change (String.length (String c s1 +:+ t) = String.length t) in Heq.
    rewrite length_append in Heq. simpl in Heq. lia.
  - injection Heq as -> Heq. f_equal. now apply IH.
Qed.

Lemma append_inj_r (t s1 s2 : string) : t +:+ s1 = t +:+ s2 -> s1 = s2.
Proof.
  induction t as [|c t IH]; intros Heq; [exact Heq|].
  change (String c (t +:+ s1) = String c (t +:+ s2)) in Heq.
  injection Heq as Heq. auto.
Qed.

Lemma append_assoc (s1 s2 s3 : string) : (s1 +:+ s2) +:+ s3 = s1 +:+ (s2 +:+ s3).
Proof.
  induction s1 as [|c s1 IH]; [reflexivity|].
  change (String c ((s1 +:+ s2) +:+ s3) = String c (s1 +:+ (s2 +:+ s3))).
  now rewrite IH.
Qed.

End PyStrFacts.

(** ** The heuristic generator *)

Module XPathFacts.
Import XPathHelper.

Lemma generate_snoc d :
  exists front, generate_xpath_variations d = front ++ [element_by_text (PyStr.strip d)].
Proof. unfold generate_xpath_variations. eexists. reflexivity. Qed.

Lemma generate_nonempty d : generate_xpath_variations d <> [].
Proof. destruct (generate_snoc d) as [front ->]. now destruct front. Qed.

End XPathFacts.

(** C5. [generate_xpath_variations "Login button"] starts with the exact-text
    button selector followed by the contains-text button selector and ends
    with the generic selector; for every description the generic "any element
    containing this text" selector, built on the stripped description, is the
    last element.  The generator is a function of its argument alone. *)
Theorem C5_heuristic_ordering :
  (exists middle,
     XPathHelper.generate_xpath_variations "Login button" =
     XPathHelper.button_by_text "Login"
       :: XPathHelper.button_by_partial_text "Login"
       :: middle ++ [XPathHelper.element_by_text "Login button"])
  /\ (forall d, exists front,
        XPathHelper.generate_xpath_variations d =
        front ++ [XPathHelper.element_by_text (PyStr.strip d)])
  /\ (forall d,
        last (XPathHelper.generate_xpath_variations d) =
        Some (XPathHelper.element_by_text (PyStr.strip d))).
Proof.
  split; [|split].
  - eexists [_; _]. vm_compute. reflexivity.
  - apply XPathFacts.generate_snoc.
  - intros d. destruct (XPathFacts.generate_snoc d) as [front ->].
    apply last_snoc.
Qed.

(** ** The effect monad *)

Create HintDb py_monad.
#[export] Hint Unfold bind ret raise try_except emit get_state modify zoom : py_monad.

Ltac run_py := autounfold with py_monad; simpl.

(** ** The element cache *)

Module ElementCacheFacts.
Import ElementCache.

Lemma get_spec url d self :
  get url d self =
  (Ret (cache self !! _generate_key url d), self,
   [Log INFO (match cache self !! _generate_key url d with
              | Some _ => "Cache hit for: "
              | None => "Cache miss for: "
              end +:+ d)]).
Proof.
  unfold get. run_py. destruct (cache self !! _generate_key url d); reflexivity.
Qed.

Lemma save_cache_spec self :
  save_cache self =
  match write_fault (cache_file self) with
  | NoFault =>
      (Ret tt, Make (Store (Stored (cache self)) NoFault) (cache self),
       [Persist true;
        Log DEBUG ("Saved cache with " +:+ str_nat (size (cache self)) +:+ " entries")])
  | OpenFails =>
      (Ret tt, self, [Persist false; Log ERROR "Error saving cache: Permission denied"])
  | DumpFails =>
      (Ret tt, Make (Store Garbled DumpFails) (cache self),
       [Persist false; Log ERROR "Error saving cache: No space left on device"])
  end.
Proof.
  destruct self as [[c f] tb]. unfold save_cache, on_file, write_json. run_py.
  destruct f; reflexivity.
Qed.

(** What [set] returns, in terms of the [save_cache] it ends with. *)
Lemma set_spec url d sel ty md self :
  let table := <[_generate_key url d := Entry sel ty url d (default [] md)]> (cache self) in
  let saved := save_cache (Make (cache_file self) table) in
  set url d sel ty md self =
  (Ret tt, snd (fst saved),
   snd saved ++ [Log INFO ("Cached selector for: " +:+ d +:+ " -> " +:+ sel)]).
Proof.
  intros table saved. unfold set, set_table. run_py. fold table.
  subst saved. rewrite save_cache_spec. simpl.
  destruct (write_fault (cache_file self)); reflexivity.
Qed.

Lemma set_table_after url d sel ty md self :
  cache (snd (fst (set url d sel ty md self))) =
  <[_generate_key url d := Entry sel ty url d (default [] md)]> (cache self).
Proof.
  rewrite set_spec. simpl. rewrite save_cache_spec. simpl.
  destruct (write_fault (cache_file self)); reflexivity.
Qed.

Lemma load_cache_spec self :
  load_cache self =
  match content (obj_file self) with
  | Stored table =>
      (Ret tt, Obj (obj_file self) (Table table),
       [Log INFO ("Loaded cache with " +:+ str_nat (size table) +:+ " entries")])
  | Foreign v =>
      match len v with
      | Ret n =>
          (Ret tt, Obj (obj_file self) (Other v),
           [Log INFO ("Loaded cache with " +:+ str_nat n +:+ " entries")])
      | Raise e =>
          (Ret tt, Obj (obj_file self) (Table ∅),
           [Log ERROR ("Error loading cache: " +:+ message e)])
      end
  | NoFile =>
      (Ret tt, Obj (obj_file self) (Table ∅),
       [Log INFO "No cache file found, starting fresh"])
  | Unreadable =>
      (Ret tt, Obj (obj_file self) (Table ∅),
       [Log ERROR "Error loading cache: Permission denied"])
  | Garbled =>
      (Ret tt, Obj (obj_file self) (Table ∅),
       [Log ERROR "Error loading cache: Expecting value"])
  end.
Proof.
  destruct self as [[c f] doc].
  unfold load_cache, on_obj_file, exists_, read_json, set_cache, len_cache.
  autounfold with py_monad. cbn [obj_file obj_cache content fst snd].
  destruct c as [| | |table|v]; try reflexivity.
  cbn. destruct (len v); reflexivity.
Qed.

End ElementCacheFacts.

(** ** The cache key *)

(** C6. Distinct pairs can share a key with certainty.  [url] and
    [description] are joined by two colons without escaping, so wherever
    the separator occurs in the URL or in the description two pairs are
    hashed from one string: [("http://x/a::b", "c")] and
    [("http://x/a", "b::c")], which differ in both components, get the same
    key, and not by a collision of the hash.  The same holds for every URL
    in place of [http://x/a].  In the cache the two pairs are one slot:
    after [set] for the first pair, [get] for the second returns the first
    pair's entry. *)
Theorem C6_separator_makes_pairs_collide :
  ("http://x/a::b", PyStr.strip (PyStr.lower "c")) <>
  ("http://x/a", PyStr.strip (PyStr.lower "b::c"))
  /\ ElementCache.key_input "http://x/a::b" "c" = "http://x/a::b::c"
  /\ ElementCache.key_input "http://x/a" "b::c" = "http://x/a::b::c"
  /\ ElementCache._generate_key "http://x/a::b" "c" =
     ElementCache._generate_key "http://x/a" "b::c"
  /\ (forall url,
        ElementCache._generate_key (url +:+ "::b") "c" =
        ElementCache._generate_key url "b::c")
  /\ (forall self sel ty md,
        let self' :=
          snd (fst (ElementCache.set "http://x/a::b" "c" sel ty md self)) in
        fst (fst (ElementCache.get "http://x/a" "b::c" self')) =
        Ret (Some (ElementCache.Entry sel ty "http://x/a::b" "c" (default [] md)))).
Proof.
  assert (Hkey : forall url,
             ElementCache._generate_key (url +:+ "::b") "c" =
             ElementCache._generate_key url "b::c").
  { intros url. unfold ElementCache._generate_key, ElementCache.key_input. f_equal.
    change (PyStr.strip (PyStr.lower "c")) with "c".
    change (PyStr.strip (PyStr.lower "b::c")) with "b::c".
    now rewrite PyStrFacts.append_assoc. }
  split; [discriminate|]. split; [reflexivity|]. split; [reflexivity|].
  split; [exact (Hkey "http://x/a")|]. split; [exact Hkey|].
  intros self sel ty md self'. subst self'.
  rewrite ElementCacheFacts.get_spec. cbn [fst].
  rewrite ElementCacheFacts.set_table_after.
  rewrite <- (Hkey "http://x/a").
  change ("http://x/a" +:+ "::b") with "http://x/a::b".
  now rewrite lookup_insert_eq.
Qed.

(** C8. A cache file that holds a JSON list or a JSON string is fatal to
    [get].  Such a file is read and decoded without an exception, so the
    handler of [load_cache] is not entered: the object is built, the only
    record is the information record with the length of the document, and
    [self.cache] is the list or the string itself, not an empty table.
    Every [get] on that object then raises an [AttributeError], whatever the
    key.  The file holding the empty list is the smallest such input. *)
Theorem C8_foreign_document_breaks_get :
  (forall items fault,
     let st := ElementCache.Store (ElementCache.Foreign (ElementCache.JArray items)) fault in
     let self := ElementCache.Obj st (ElementCache.Other (ElementCache.JArray items)) in
     ElementCache.__init__ st =
     (Ret self, [Log INFO ("Loaded cache with " +:+ str_nat (length items) +:+ " entries")])
     /\ forall url d,
          ElementCache.get_loaded url d self =
          (Raise (Exn AttributeError "'list' object has no attribute 'get'"), self, []))
  /\ (forall text fault,
        let st := ElementCache.Store (ElementCache.Foreign (ElementCache.JString text)) fault in
        let self := ElementCache.Obj st (ElementCache.Other (ElementCache.JString text)) in
        ElementCache.__init__ st =
        (Ret self,
         [Log INFO ("Loaded cache with " +:+ str_nat (String.length text) +:+ " entries")])
        /\ forall url d,
             ElementCache.get_loaded url d self =
             (Raise (Exn AttributeError "'str' object has no attribute 'get'"), self, []))
  /\ (let st :=
        ElementCache.Store (ElementCache.Foreign (ElementCache.JArray []))
          ElementCache.NoFault in
      exists self,
        ElementCache.__init__ st = (Ret self, [Log INFO "Loaded cache with 0 entries"])
        /\ ElementCache.obj_cache self <> ElementCache.Table ∅
        /\ fst (fst (ElementCache.get_loaded "http://x/login" "login button" self)) =
           Raise (Exn AttributeError "'list' object has no attribute 'get'")).
Proof.
  split; [|split].
  - intros items fault st self. split; [|reflexivity].
    unfold ElementCache.__init__. rewrite ElementCacheFacts.load_cache_spec. reflexivity.
  - intros text fault st self. split; [|reflexivity].
    unfold ElementCache.__init__. rewrite ElementCacheFacts.load_cache_spec. reflexivity.
  - cbv zeta. eexists. split; [|split].
    + unfold ElementCache.__init__. rewrite ElementCacheFacts.load_cache_spec. reflexivity.
    + discriminate.
    + reflexivity.
Qed.

(** ** The AI clients *)

Module AIClientFacts.
Import ai_client.

Section Facts.
Context {N : Type} `{Services N}.

Lemma OpenAIClient_abstract : abstractmethods (N:=N) OpenAIClient = ["analyze_dom"].
Proof. vm_compute. reflexivity. Qed.

Lemma AzureOpenAIClient_concrete : abstractmethods (N:=N) AzureOpenAIClient = [].
Proof. vm_compute. reflexivity. Qed.

Lemma AnthropicClient_concrete : abstractmethods (N:=N) AnthropicClient = [].
Proof. vm_compute. reflexivity. Qed.

Lemma new_OpenAIClient args :
  new (N:=N) OpenAIClient args =
  Raise (Exn TypeError
    "Can't instantiate abstract class OpenAIClient with abstract method analyze_dom").
Proof. unfold new. rewrite OpenAIClient_abstract. reflexivity. Qed.

Lemma new_AzureOpenAIClient args obj :
  new (N:=N) AzureOpenAIClient args = Ret obj ->
  exists api_key endpoint deployment api_version,
    args = [api_key; endpoint; deployment; api_version]
    /\ obj = Object AzureOpenAIClient
               (Instance "AzureOpenAIClient"
                  (<["deployment" := VStr deployment]>
                     (<["client" := VClient (AzureOpenAI api_key endpoint api_version)]> ∅))).
Proof.
  unfold new. rewrite AzureOpenAIClient_concrete.
  change (getattr_class AzureOpenAIClient "__init__")
    with (Some (Init (N:=N) AzureOpenAIClient___init__)).
  destruct args as [|a [|b [|c [|d [|e args]]]]]; simpl; try discriminate.
  intros [= <-]. now exists a, b, c, d.
Qed.

(** The method an Azure client answers [analyze_dom] with is the second
    definition of the class body. *)
Lemma AzureOpenAIClient_method :
  getattr_class AzureOpenAIClient "analyze_dom" =
  Some (Method (N:=N) false AzureOpenAIClient_analyze_dom_2).
Proof. reflexivity. Qed.

Lemma azure_has_no_model deployment client :
  getattr
    (Instance "AzureOpenAIClient"
       (<["deployment" := VStr deployment]> (<["client" := client]> ∅))) "model" =
  Raise (Exn AttributeError "'AzureOpenAIClient' object has no attribute 'model'").
Proof. reflexivity. Qed.

Lemma azure_has_client deployment client :
  getattr
    (Instance "AzureOpenAIClient"
       (<["deployment" := VStr deployment]> (<["client" := client]> ∅))) "client" =
  Ret client.
Proof. reflexivity. Qed.

End Facts.
End AIClientFacts.

(** C9. The configured provider defaults to "openai".  With that provider
    and an API key set, building the detector raises a [TypeError]:
    [OpenAIClient] inherits the abstract [analyze_dom] of [AIClient] and does
    not define it, so the class cannot be instantiated, whatever the
    arguments.  Without a key a [ValueError] is raised, so no detector is
    ever built for this provider. *)
Theorem C9_openai_client_cannot_be_built :
  Config.ai_provider Config.defaults = "openai"
  /\ (forall (N : Type) (S : ai_client.Services N),
        ai_client.abstractmethods (N:=N) ai_client.OpenAIClient = ["analyze_dom"])
  /\ (forall (N : Type) (S : ai_client.Services N) (settings : Config.Settings),
        Config.ai_provider settings = "openai" ->
        truthy_opt (Config.openai_api_key settings) = true ->
        exists msg,
          ai_client.AIElementDetector___init__ (N:=N) settings = Raise (Exn TypeError msg))
  /\ (forall (N : Type) (S : ai_client.Services N) (settings : Config.Settings),
        Config.ai_provider settings = "openai" ->
        exists e, ai_client.AIElementDetector___init__ (N:=N) settings = Raise e).
Proof.
  split; [reflexivity|]. split; [intros; apply AIClientFacts.OpenAIClient_abstract|].
  split.
  - intros N S settings Hprov Hkey.
    unfold ai_client.AIElementDetector___init__, ai_client._initialize_client.
    rewrite Hprov, Hkey. simpl. rewrite AIClientFacts.new_OpenAIClient. eauto.
  - intros N S settings Hprov.
    unfold ai_client.AIElementDetector___init__, ai_client._initialize_client.
    rewrite Hprov. simpl.
    destruct (truthy_opt (Config.openai_api_key settings)); simpl.
    + rewrite AIClientFacts.new_OpenAIClient. eauto.
    + eauto.
Qed.

Lemma C9_openai_client_cannot_be_built_witness :
  exists msg,
    ai_client.AIElementDetector___init__ (N:=unit) Doubles.openai_settings =
    Raise (Exn TypeError msg).
Proof.
  destruct C9_openai_client_cannot_be_built as (_ & _ & Hkey & _).
  apply (Hkey unit Doubles.offline Doubles.openai_settings); reflexivity.
Defined.

(** C10. An Azure client, however it was built, answers every [analyze_dom]
    call with the failure record: the method in force is the second
    definition of the class body, which reads [self.model], an attribute
    [__init__] never sets.  The [AttributeError] is raised inside the [try],
    before any request is sent, and the general handler turns it into the
    failure record.  The detector then falls back on the heuristic
    candidates and promotes the first of them. *)
Theorem C10_azure_analysis_always_fails :
  forall (N : Type) (S : ai_client.Services N) (args : list string)
         (obj : ai_client.object N) (html_content element_description url : string) (n : N),
    ai_client.new ai_client.AzureOpenAIClient args = Ret obj ->
    let error := "'AzureOpenAIClient' object has no attribute 'model'" in
    ai_client.call_analyze_dom obj html_content element_description url n =
    (Ret (Some (ai_client.Result [] None false (Some error))), n,
     [Log ERROR ("OpenAI API error: " +:+ error)])
    /\ exists first rest,
         XPathHelper.generate_xpath_variations element_description = first :: rest
         /\ ai_client.find_element_selector (ai_client.Detector obj) html_content
              element_description url n =
            (Ret (ai_client.Result
                    (map ai_client.fallback_candidate
                       (XPathHelper.generate_xpath_variations element_description))
                    (Some first) true (Some error)),
             n,
             [Log INFO ("Analyzing element: " +:+ element_description);
              Analyze element_description url;
              Log ERROR ("OpenAI API error: " +:+ error);
              Generate element_description]).
Proof.
  intros N S args obj html desc url n Hnew error.
  apply AIClientFacts.new_AzureOpenAIClient in Hnew
    as (api_key & endpoint & deployment & api_version & -> & ->).
  assert (Hcall : forall html,
    ai_client.call_analyze_dom
      (ai_client.Object ai_client.AzureOpenAIClient
         (ai_client.Instance "AzureOpenAIClient"
            (<["deployment" := ai_client.VStr deployment]>
               (<["client" := ai_client.VClient
                                 (ai_client.AzureOpenAI api_key endpoint api_version)]> ∅))))
      html desc url n =
    (Ret (Some (ai_client.Result [] None false (Some error))), n,
     [Log ERROR ("OpenAI API error: " +:+ error)])).
  { reflexivity. }
  split; [apply Hcall|].
  destruct (XPathHelper.generate_xpath_variations desc) as [|first rest] eqn:Hgen.
  { destruct (XPathFacts.generate_snoc desc) as [front Hfront].
    rewrite Hgen in Hfront. destruct front; discriminate. }
  exists first, rest. split; [reflexivity|].
  unfold ai_client.find_element_selector. autounfold with py_monad.
  cbn [ai_client.client]. rewrite Hcall. simpl.
  unfold ai_client._add_fallback_selectors. run_py. rewrite Hgen. reflexivity.
Qed.

(** ** Element resolution *)

Module ResolutionFacts.
Import TestExecutor.

Section Facts.
Context {B N : Type} `{PlaywrightController B} `{ai_client.Services N}.

Abbreviation executor := (TestExecutor.t (B:=B) (N:=N)).

Lemma with_cache_id (self : executor) : with_cache self (element_cache self) = self.
Proof. now destruct self. Qed.

Lemma on_cache_get url d (self : executor) :
  on_cache (ElementCache.get url d) self =
  (Ret (ElementCache.cache (element_cache self) !! ElementCache._generate_key url d),
   self,
   [Log INFO (match ElementCache.cache (element_cache self)
                      !! ElementCache._generate_key url d with
              | Some _ => "Cache hit for: "
              | None => "Cache miss for: "
              end +:+ d)]).
Proof.
  unfold on_cache, zoom. rewrite ElementCacheFacts.get_spec. now destruct self.
Qed.

Lemma on_cache_set url d sel ty (self : executor) :
  on_cache (ElementCache.set url d sel ty None) self =
  (Ret tt,
   with_cache self (snd (fst (ElementCache.set url d sel ty None (element_cache self)))),
   snd (ElementCache.set url d sel ty None (element_cache self))).
Proof.
  unfold on_cache, zoom. rewrite ElementCacheFacts.set_spec. reflexivity.
Qed.

(** The loop over the candidates when none of them is on the page. *)
Lemma try_variations_none url d xs (self : executor) :
  Forall (fun xpath => exists_on_page self xpath = false) xs ->
  try_variations url d xs self = (Ret None, self, probes xs).
Proof.
  induction 1 as [|x xs Hx _ IH]; [reflexivity|].
  simpl. unfold bind at 1. unfold probe at 1. run_py.
  unfold exists_on_page in Hx. rewrite Hx. rewrite IH. reflexivity.
Qed.

(** The loop when [x] is the first candidate on the page. *)
Lemma try_variations_found url d pre x post (self : executor) :
  Forall (fun xpath => exists_on_page self xpath = false) pre ->
  exists_on_page self x = true ->
  try_variations url d (pre ++ x :: post) self =
  (Ret (Some (Selector x "xpath")),
   with_cache self
     (snd (fst (ElementCache.set url d x "xpath" None (element_cache self)))),
   probes (pre ++ [x])
   ++ Log INFO ("Found element with pattern: " +:+ x)
      :: snd (ElementCache.set url d x "xpath" None (element_cache self))).
Proof.
  intros Hpre Hx. induction Hpre as [|y pre Hy _ IH].
  - simpl. unfold bind at 1. unfold probe at 1. run_py.
    unfold exists_on_page in Hx. rewrite Hx.
    unfold bind, emit, ret. rewrite on_cache_set. simpl.
    now rewrite app_nil_r.
  - simpl. unfold bind at 1. unfold probe at 1. run_py.
    unfold exists_on_page in Hy. rewrite Hy. rewrite IH. reflexivity.
Qed.

(** A list with an element on the page splits at the first such element. *)
Lemma first_on_page (self : executor) xs x :
  In x xs -> exists_on_page self x = true ->
  exists pre y post,
    xs = pre ++ y :: post
    /\ Forall (fun xpath => exists_on_page self xpath = false) pre
    /\ exists_on_page self y = true.
Proof.
  induction xs as [|z xs IH]; [contradiction|].
  intros Hin Hx. destruct (exists_on_page self z) eqn:Hz.
  - exists [], z, xs. auto.
  - destruct Hin as [-> | Hin]; [congruence|].
    destruct (IH Hin Hx) as (pre & y & post & -> & Hpre & Hy).
    exists (z :: pre), y, post. auto.
Qed.

Lemma resolve_hit d (self : executor) e :
  ElementCache.cache (element_cache self)
    !! ElementCache._generate_key (page_url self) d = Some e ->
  _get_element_selector d self =
  (Ret (Some (Selector (ElementCache.selector e) (ElementCache.selector_type e)), CACHE),
   with_hit self,
   [Log INFO ("Cache hit for: " +:+ d); Log INFO ("Using cached selector for: " +:+ d)]).
Proof.
  intros Hhit. unfold _get_element_selector, bind, get_state. cbv beta iota.
  rewrite on_cache_get. fold (page_url self). rewrite Hhit. reflexivity.
Qed.

Lemma resolve_heuristic d pre x post (self : executor) :
  ElementCache.cache (element_cache self)
    !! ElementCache._generate_key (page_url self) d = None ->
  XPathHelper.generate_xpath_variations d = pre ++ x :: post ->
  Forall (fun xpath => exists_on_page self xpath = false) pre ->
  exists_on_page self x = true ->
  _get_element_selector d self =
  (Ret (Some (Selector x "xpath"), HEURISTIC),
   with_cache self
     (snd (fst (ElementCache.set (page_url self) d x "xpath" None (element_cache self)))),
   Log INFO ("Cache miss for: " +:+ d) :: Generate d
   :: probes (pre ++ [x])
   ++ Log INFO ("Found element with pattern: " +:+ x)
      :: snd (ElementCache.set (page_url self) d x "xpath" None (element_cache self))).
Proof.
  intros Hmiss Hgen Hpre Hx.
  unfold _get_element_selector, bind, get_state. cbv beta iota.
  rewrite on_cache_get. fold (page_url self). rewrite Hmiss. cbv beta iota.
  unfold emit at 1. cbv beta iota.
  rewrite Hgen, (try_variations_found _ _ _ _ _ _ Hpre Hx). simpl.
  now rewrite app_nil_r.
Qed.

Lemma resolve_ai_tier d (self : executor) :
  ElementCache.cache (element_cache self)
    !! ElementCache._generate_key (page_url self) d = None ->
  Forall (fun xpath => exists_on_page self xpath = false)
    (XPathHelper.generate_xpath_variations d) ->
  _get_element_selector d self =
  let '(r, n, t_ai) :=
    ai_client.find_element_selector (ai_detector self) (page_html self) d (page_url self)
      (remote self) in
  match r with
  | Raise e => (Raise e, with_ai_call self n, heuristic_prefix d ++ t_ai)
  | Ret a =>
      let selector := default EmptyString (ai_client.best_selector a) in
      if ai_client.success a && truthy_opt (ai_client.best_selector a) then
        if find_element (playwright_controller self) selector (inferred_type selector) then
          (Ret (Some (Selector selector (inferred_type selector)), AI),
           with_cache (with_ai_call self n)
             (snd (fst (ElementCache.set (page_url self) d selector
                          (inferred_type selector) None (element_cache self)))),
           heuristic_prefix d ++ t_ai
           ++ Probe selector (inferred_type selector)
              :: snd (ElementCache.set (page_url self) d selector
                        (inferred_type selector) None (element_cache self)))
        else
          (Ret (None, NONE), with_ai_call self n,
           heuristic_prefix d ++ t_ai
           ++ [Probe selector (inferred_type selector);
               Log ERROR ("Could not find selector for: " +:+ d)])
      else
        (Ret (None, NONE), with_ai_call self n,
         heuristic_prefix d ++ t_ai ++ [Log ERROR ("Could not find selector for: " +:+ d)])
  end.
Proof.
  intros Hmiss Hnone.
  unfold _get_element_selector, bind, get_state. cbv beta iota.
  rewrite on_cache_get. fold (page_url self). rewrite Hmiss. cbv beta iota.
  unfold emit at 1. cbv beta iota.
  rewrite (try_variations_none _ _ _ _ Hnone).
  unfold emit at 1, count_ai_call, modify, on_remote, zoom. cbv beta iota.
  cbn [ai_detector playwright_controller remote element_cache cache_hits ai_calls].
  fold (page_html self).
  destruct (ai_client.find_element_selector (ai_detector self) (page_html self) d
              (page_url self) (remote self)) as [[[a|e] n] t_ai].
  2:{ unfold heuristic_prefix, with_ai_call. simpl. rewrite <- !app_assoc. reflexivity. }
  destruct (ai_client.success a && truthy_opt (ai_client.best_selector a)) eqn:Hok.
  - fold (inferred_type (default EmptyString (ai_client.best_selector a))).
    unfold probe, bind, get_state, emit, ret. cbv beta iota.
    cbn [ai_detector playwright_controller remote element_cache cache_hits ai_calls].
    destruct (find_element (playwright_controller self) _ _) eqn:Hfound.
    + rewrite on_cache_set. unfold heuristic_prefix, with_ai_call, with_cache. simpl.
      rewrite <- !app_assoc. simpl. rewrite !app_nil_r. reflexivity.
    + unfold not_found, bind, emit, ret, heuristic_prefix, with_ai_call. simpl.
      rewrite <- !app_assoc. reflexivity.
  - unfold not_found, bind, emit, ret, heuristic_prefix, with_ai_call. simpl.
    rewrite <- !app_assoc. reflexivity.
Qed.

End Facts.
End ResolutionFacts.

Module TraceFacts.

Lemma no_analyze_app (t1 t2 : list event) :
  existsb is_analyze t1 = false -> existsb is_analyze t2 = false ->
  existsb is_analyze (t1 ++ t2) = false.
Proof. intros H1 H2. now rewrite existsb_app, H1, H2. Qed.

Lemma no_analyze_probes xs : existsb is_analyze (TestExecutor.probes xs) = false.
Proof. induction xs as [|x xs IH]; [reflexivity | exact IH]. Qed.

(** [ElementCache.set] writes the file and logs; it does nothing else. *)
Lemma set_events url d sel ty md c :
  existsb is_analyze (snd (ElementCache.set url d sel ty md c)) = false
  /\ existsb is_probe (snd (ElementCache.set url d sel ty md c)) = false
  /\ existsb is_generate (snd (ElementCache.set url d sel ty md c)) = false.
Proof.
  rewrite ElementCacheFacts.set_spec. simpl. rewrite ElementCacheFacts.save_cache_spec.
  simpl. destruct (ElementCache.write_fault (ElementCache.cache_file c)); auto.
Qed.

End TraceFacts.

(** C1. When the cache holds an entry for the current URL and the
    description, the resolution returns the selector and type of that entry
    from the cache tier.  Its whole trace is two log records: no DOM probe, no
    run of the heuristic generator, no request to the AI detector.  Only the
    hit counter changes, so a second call in succession returns the same
    selector, again with these two log records alone. *)
Theorem C1_cache_hit_short_circuits :
  forall (B N : Type) (PC : PlaywrightController B) (S : ai_client.Services N)
         (self : TestExecutor.t) (d : string) (e : ElementCache.entry),
    ElementCache.cache (TestExecutor.element_cache self)
      !! ElementCache._generate_key (TestExecutor.page_url self) d = Some e ->
    let answer :=
      (Some (TestExecutor.Selector (ElementCache.selector e) (ElementCache.selector_type e)),
       TestExecutor.CACHE) in
    let trace :=
      [Log INFO ("Cache hit for: " +:+ d); Log INFO ("Using cached selector for: " +:+ d)] in
    TestExecutor._get_element_selector d self =
      (Ret answer, TestExecutor.with_hit self, trace)
    /\ TestExecutor._get_element_selector d (TestExecutor.with_hit self) =
      (Ret answer, TestExecutor.with_hit (TestExecutor.with_hit self), trace)
    /\ TestExecutor.element_cache (TestExecutor.with_hit self) = TestExecutor.element_cache self
    /\ TestExecutor.ai_calls (TestExecutor.with_hit self) = TestExecutor.ai_calls self
    /\ TestExecutor.remote (TestExecutor.with_hit self) = TestExecutor.remote self.
Proof.
  intros B N PC S self d e Hhit answer trace.
  split; [now apply ResolutionFacts.resolve_hit|].
  split; [now apply ResolutionFacts.resolve_hit|].
  auto.
Qed.

(** C4. On a cache miss the candidates are probed in the order of the
    generator, up to and including the first one on the page; that candidate
    is returned from the heuristic tier, after [set] has stored it in the
    cache under the key of the pair.  The AI detector is not called: the call
    counter and the remote state are as before and the trace has no request
    to it. *)
Theorem C4_heuristic_tier_short_circuits :
  forall (B N : Type) (PC : PlaywrightController B) (S : ai_client.Services N)
         (self : TestExecutor.t) (d : string) (pre : list string) (x : string)
         (post : list string),
    ElementCache.cache (TestExecutor.element_cache self)
      !! ElementCache._generate_key (TestExecutor.page_url self) d = None ->
    XPathHelper.generate_xpath_variations d = pre ++ x :: post ->
    Forall (fun xpath => TestExecutor.exists_on_page self xpath = false) pre ->
    TestExecutor.exists_on_page self x = true ->
    exists self' stored,
      TestExecutor._get_element_selector d self =
        (Ret (Some (TestExecutor.Selector x "xpath"), TestExecutor.HEURISTIC), self',
         Log INFO ("Cache miss for: " +:+ d) :: Generate d
         :: TestExecutor.probes (pre ++ [x])
         ++ Log INFO ("Found element with pattern: " +:+ x) :: stored)
      /\ existsb is_probe stored = false
      /\ existsb is_analyze stored = false
      /\ ElementCache.cache (TestExecutor.element_cache self')
           !! ElementCache._generate_key (TestExecutor.page_url self) d =
         Some (ElementCache.Entry x "xpath" (TestExecutor.page_url self) d [])
      /\ TestExecutor.ai_calls self' = TestExecutor.ai_calls self
      /\ TestExecutor.remote self' = TestExecutor.remote self
      /\ TestExecutor.playwright_controller self' = TestExecutor.playwright_controller self.
Proof.
  intros B N PC S self d pre x post Hmiss Hgen Hpre Hx.
  eexists. eexists. split.
  { apply (ResolutionFacts.resolve_heuristic d pre x post self Hmiss Hgen Hpre Hx). }
  destruct (TraceFacts.set_events (TestExecutor.page_url self) d x "xpath" None
              (TestExecutor.element_cache self)) as (Ha & Hp & _).
  split; [exact Hp|]. split; [exact Ha|].
  split; [|auto].
  cbn [TestExecutor.with_cache TestExecutor.element_cache].
  rewrite ElementCacheFacts.set_table_after. apply lookup_insert_eq.
Qed.

(** C3. When the generic "contains text" selector of the description matches
    on the page, the resolution returns a selector, from the cache or from
    the heuristic tier, whatever the AI client and the services behind it do:
    the detector is not called at all. *)
Theorem C3_generic_selector_guarantees_resolution :
  forall (B N : Type) (PC : PlaywrightController B) (S : ai_client.Services N)
         (self : TestExecutor.t) (d : string),
    TestExecutor.exists_on_page self (XPathHelper.element_by_text (PyStr.strip d)) = true ->
    exists sel src self' trace,
      TestExecutor._get_element_selector d self = (Ret (Some sel, src), self', trace)
      /\ src <> TestExecutor.NONE
      /\ existsb is_analyze trace = false
      /\ TestExecutor.ai_calls self' = TestExecutor.ai_calls self
      /\ TestExecutor.remote self' = TestExecutor.remote self.
Proof.
  intros B N PC S self d Hgeneric.
  destruct (ElementCache.cache (TestExecutor.element_cache self)
              !! ElementCache._generate_key (TestExecutor.page_url self) d) as [e|] eqn:Hc.
  - do 4 eexists. split; [apply (ResolutionFacts.resolve_hit d self e Hc)|].
    repeat split; try reflexivity. discriminate.
  - destruct (XPathFacts.generate_snoc d) as [front Hfront].
    destruct (ResolutionFacts.first_on_page self
                (XPathHelper.generate_xpath_variations d)
                (XPathHelper.element_by_text (PyStr.strip d)))
      as (pre & y & post & Hgen & Hpre & Hy); [|exact Hgeneric|].
    { rewrite Hfront. apply in_or_app. right. now left. }
    do 4 eexists.
    split; [apply (ResolutionFacts.resolve_heuristic d pre y post self Hc Hgen Hpre Hy)|].
    split; [discriminate|]. split; [|auto].
    destruct (TraceFacts.set_events (TestExecutor.page_url self) d y "xpath" None
                (TestExecutor.element_cache self)) as (Ha & _).
    simpl. apply TraceFacts.no_analyze_app; [apply TraceFacts.no_analyze_probes|].
    simpl. exact Ha.
Qed.

(** ** The detector's fallback *)

Module DetectorFacts.
Import ai_client.

Lemma generate_all_xpath d :
  Forall (fun xpath => PyStr.startswith xpath "//" = true)
    (XPathHelper.generate_xpath_variations d).
Proof.
  unfold XPathHelper.generate_xpath_variations.
  destruct (PyStr.contains "button" _), (PyStr.contains "link" _),
    (PyStr.contains "input" _ || PyStr.contains "field" _);
    repeat constructor.
Qed.

Lemma xpath_truthy s : PyStr.startswith s "//" = true -> PyStr.truthy s = true.
Proof. destruct s; [discriminate | reflexivity]. Qed.

Lemma xpath_inferred s : PyStr.startswith s "//" = true -> TestExecutor.inferred_type s = "xpath".
Proof. unfold TestExecutor.inferred_type. now intros ->. Qed.

Section Facts.
Context {N : Type} `{Services N}.

Lemma add_fallback_spec (r : result) d first rest (n : N) :
  XPathHelper.generate_xpath_variations d = first :: rest ->
  _add_fallback_selectors r d n =
  (Ret (Result (selectors r ++ map fallback_candidate (first :: rest))
          (if truthy_opt (best_selector r) then best_selector r else Some first)
          (if truthy_opt (best_selector r) then success r else true)
          (error r)),
   n, [Generate d]).
Proof.
  intros Hgen. unfold _add_fallback_selectors. run_py. rewrite Hgen. simpl.
  destruct (truthy_opt (best_selector r)); reflexivity.
Qed.

Lemma find_element_selector_spec det html d url (n n' : N) answer t_ai first rest :
  XPathHelper.generate_xpath_variations d = first :: rest ->
  call_analyze_dom (client det) (_clean_html html) d url n = (Ret (Some answer), n', t_ai) ->
  find_element_selector det html d url n =
  if negb (success answer) || negb (truthy_opt (best_selector answer)) then
    (Ret (Result (selectors answer ++ map fallback_candidate (first :: rest))
            (if truthy_opt (best_selector answer) then best_selector answer else Some first)
            (if truthy_opt (best_selector answer) then success answer else true)
            (error answer)),
     n',
     Log INFO ("Analyzing element: " +:+ d) :: Analyze d url :: t_ai ++ [Generate d])
  else
    (Ret answer, n', Log INFO ("Analyzing element: " +:+ d) :: Analyze d url :: t_ai).
Proof.
  intros Hgen Hcall. unfold find_element_selector, bind, emit. cbv beta iota.
  rewrite Hcall. cbv beta iota.
  destruct (negb (success answer) || negb (truthy_opt (best_selector answer))).
  - rewrite (add_fallback_spec answer d first rest n' Hgen). reflexivity.
  - unfold ret. simpl. now rewrite app_nil_r.
Qed.

End Facts.
End DetectorFacts.

(** C2 (as the code has it).  On a cache miss with every heuristic candidate
    absent from the page, when the AI analysis yields no selector that
    validates, the resolution returns [None] from the last tier.  When the
    analysis names no best selector, the detector does re-run the heuristic
    generator, appends its candidates at confidence 0.5 and promotes the first
    of them to best selector with [success] set; the executor then probes that
    selector like any other answer of the detector, and the probe fails as it
    did in the heuristic tier.  The regenerated list is never empty. *)
Theorem C2_fallback_candidate_is_validated :
  forall (B N : Type) (PC : PlaywrightController B) (S : ai_client.Services N)
         (self : TestExecutor.t) (d : string) (answer : ai_client.result) (n' : N)
         (t_ai : list event),
    ElementCache.cache (TestExecutor.element_cache self)
      !! ElementCache._generate_key (TestExecutor.page_url self) d = None ->
    Forall (fun xpath => TestExecutor.exists_on_page self xpath = false)
      (XPathHelper.generate_xpath_variations d) ->
    ai_client.call_analyze_dom (ai_client.client (TestExecutor.ai_detector self))
      (ai_client._clean_html (TestExecutor.page_html self)) d (TestExecutor.page_url self)
      (TestExecutor.remote self) = (Ret (Some answer), n', t_ai) ->
    (ai_client.success answer && truthy_opt (ai_client.best_selector answer) = true ->
     find_element (TestExecutor.playwright_controller self)
       (default EmptyString (ai_client.best_selector answer))
       (TestExecutor.inferred_type (default EmptyString (ai_client.best_selector answer)))
     = false) ->
    exists first rest trace,
      XPathHelper.generate_xpath_variations d = first :: rest
      /\ TestExecutor._get_element_selector d self =
         (Ret (None, TestExecutor.NONE), TestExecutor.with_ai_call self n', trace)
      /\ (truthy_opt (ai_client.best_selector answer) = false ->
          ai_client.find_element_selector (TestExecutor.ai_detector self)
            (TestExecutor.page_html self) d (TestExecutor.page_url self)
            (TestExecutor.remote self) =
          (Ret (ai_client.Result
                  (ai_client.selectors answer
                   ++ map ai_client.fallback_candidate (first :: rest))
                  (Some first) true (ai_client.error answer)),
           n',
           Log INFO ("Analyzing element: " +:+ d)
           :: Analyze d (TestExecutor.page_url self) :: t_ai ++ [Generate d])
          /\ trace =
             TestExecutor.heuristic_prefix d
             ++ (Log INFO ("Analyzing element: " +:+ d)
                 :: Analyze d (TestExecutor.page_url self) :: t_ai ++ [Generate d])
             ++ [Probe first "xpath"; Log ERROR ("Could not find selector for: " +:+ d)]).
Proof.
  intros B N PC S self d answer n' t_ai Hmiss Hnone Hcall Hinvalid.
  destruct (XPathHelper.generate_xpath_variations d) as [|first rest] eqn:Hgen.
  { now destruct (XPathFacts.generate_nonempty d). }
  assert (Hxpath : PyStr.startswith first "//" = true).
  { pose proof (DetectorFacts.generate_all_xpath d) as Hall. rewrite Hgen in Hall.
    now inversion Hall. }
  assert (Hfirst : TestExecutor.exists_on_page self first = false) by now inversion Hnone.
  pose proof (DetectorFacts.find_element_selector_spec _ _ _ _ _ _ _ _ _ _ Hgen Hcall) as Hfind.
  pose proof (ResolutionFacts.resolve_ai_tier d self Hmiss) as Hres.
  rewrite Hgen in Hres. specialize (Hres Hnone).
  unfold TestExecutor.exists_on_page in Hfirst.
  exists first, rest.
  destruct (ai_client.success answer) eqn:Hs;
    destruct (truthy_opt (ai_client.best_selector answer)) eqn:Hb;
    simpl in Hfind; rewrite Hfind in Hres; cbv beta iota zeta in Hres;
    cbn [ai_client.success ai_client.best_selector default from_option id truthy_opt] in Hres;
    rewrite ?Hs, ?Hb in Hres;
    rewrite ?(DetectorFacts.xpath_truthy _ Hxpath),
            ?(DetectorFacts.xpath_inferred _ Hxpath) in Hres;
    cbn [andb] in Hres; rewrite ?(Hinvalid eq_refl), ?Hfirst in Hres;
    (eexists; split; [reflexivity|]; split; [exact Hres|]);
    try discriminate.
  all: intros _; split; [exact Hfind|].
  all: unfold TestExecutor.heuristic_prefix; simpl; rewrite <- !app_assoc; reflexivity.
Qed.

(** C2, as stated, fails: with an empty cache, a page on which no candidate
    matches and the AI services unreachable, the regenerated list starts with
    the exact-text button selector, and the resolution returns [None] rather
    than that selector. *)
Lemma C2_counterexample :
  let self := executor_on (Page "http://x/login" "<html/>" []) in
  let d := "Login button" in
  ElementCache.cache (TestExecutor.element_cache self)
    !! ElementCache._generate_key (TestExecutor.page_url self) d = None
  /\ Forall (fun xpath => TestExecutor.exists_on_page self xpath = false)
       (XPathHelper.generate_xpath_variations d)
  /\ fst (fst (ai_client.call_analyze_dom (ai_client.client (TestExecutor.ai_detector self))
                 (ai_client._clean_html (TestExecutor.page_html self)) d
                 (TestExecutor.page_url self) (TestExecutor.remote self))) =
     Ret (Some (ai_client.Result [] None false (Some "Connection error.")))
  /\ head (XPathHelper.generate_xpath_variations d) = Some "//button[text()='Login']"
  /\ fst (fst (TestExecutor._get_element_selector d self)) = Ret (None, TestExecutor.NONE)
  /\ forall src,
       fst (fst (TestExecutor._get_element_selector d self)) <>
       Ret (Some (TestExecutor.Selector "//button[text()='Login']" "xpath"), src).
Proof.
  intros self d. split; [reflexivity|]. split; [repeat constructor|].
  split; [reflexivity|]. split; [reflexivity|].
  assert (Hrun : fst (fst (TestExecutor._get_element_selector d self)) =
                 Ret (None, TestExecutor.NONE)) by (vm_compute; reflexivity).
  split; [exact Hrun|]. intros src. rewrite Hrun. discriminate.
Qed.

Lemma C2_fallback_candidate_is_validated_witness :
  exists first rest trace,
    XPathHelper.generate_xpath_variations "Login button" = first :: rest
    /\ TestExecutor._get_element_selector "Login button"
         (executor_on (Page "http://x/login" "<html/>" [])) =
       (Ret (None, TestExecutor.NONE),
        TestExecutor.with_ai_call (executor_on (Page "http://x/login" "<html/>" [])) tt,
        trace).
Proof.
  destruct (C2_fallback_candidate_is_validated page unit static_page offline
              (executor_on (Page "http://x/login" "<html/>" [])) "Login button"
              (ai_client.Result [] None false (Some "Connection error.")) tt
              [Log ERROR "Anthropic API error: Connection error."])
    as (first & rest & trace & Hgen & Hres & _).
  - reflexivity.
  - repeat constructor.
  - reflexivity.
  - discriminate.
  - exists first, rest, trace. split; [exact Hgen | exact Hres].
Defined.

(** ** Scenario execution *)

Module ScenarioFacts.
Import cucumber_parser TestExecutor.

Section Facts.
Context {B N : Type} `{PlaywrightController B} `{ai_client.Services N}.
Variable run_step : TestStep -> M (TestExecutor.t (B:=B) (N:=N)) bool.

Lemma Tally_ext a b c d a' b' c' :
  a = a' -> b = b' -> c = c' -> Tally a b c d = Tally a' b' c' d.
Proof. now intros -> -> ->. Qed.

Ltac tally_eq := do 3 f_equal; apply Tally_ext; lia.

Lemma background_loop_cons step rest self c b self1 t1 :
  run_step step self = (Ret b, self1, t1) ->
  background_loop run_step (step :: rest) (self, c) =
  let '(r, s2, t2) :=
    background_loop run_step rest
      (self1, count_step ("Background: " +:+ step_text step) b c) in
  (r, s2, t1 ++ t2).
Proof.
  intros Hrun. simpl. unfold bind at 1, on_self, zoom. simpl. rewrite Hrun.
  unfold bind at 1, on_tally, modify. simpl.
  destruct (background_loop run_step rest _) as [[r s2] t2]. reflexivity.
Qed.

Lemma scenario_loop_pass step rest self c self1 t1 :
  run_step step self = (Ret true, self1, t1) ->
  scenario_loop run_step (step :: rest) (self, c) =
  let '(r, s2, t2) :=
    scenario_loop run_step rest (self1, count_step (step_text step) true c) in
  (r, s2, t1 ++ t2).
Proof.
  intros Hrun. simpl. unfold bind at 1, on_self, zoom. simpl. rewrite Hrun.
  unfold bind at 1, on_tally, modify. simpl.
  destruct (scenario_loop run_step rest _) as [[r s2] t2]. reflexivity.
Qed.

Lemma scenario_loop_fail step rest self c self1 t1 :
  run_step step self = (Ret false, self1, t1) ->
  scenario_loop run_step (step :: rest) (self, c) =
  (Ret tt, (self1, count_step (step_text step) false c), t1).
Proof.
  intros Hrun. simpl. unfold bind at 1, on_self, zoom. simpl. rewrite Hrun.
  unfold bind, on_tally, modify, ret. simpl. now rewrite app_nil_r.
Qed.

Lemma background_loop_runs bg self bs self1 t1 c :
  runs run_step bg self bs self1 t1 ->
  background_loop run_step bg (self, c) =
  (Ret tt,
   (self1, count_steps (map (fun s => "Background: " +:+ step_text s) bg) bs c), t1).
Proof.
  intros Hruns. revert c. induction Hruns as [self|step rest self b self1 t1 bs self2 t2 Hrun _ IH];
    intros c; [reflexivity|].
  rewrite (background_loop_cons _ _ _ _ _ _ _ Hrun), IH. reflexivity.
Qed.

Lemma count_steps_executed labels bs c :
  length labels = length bs ->
  executed (count_steps labels bs c) = executed c + length bs
  /\ failed_count (count_steps labels bs c) =
     failed_count c + length (List.filter negb bs)
  /\ passed_count (count_steps labels bs c) =
     passed_count c + length (List.filter (fun b : bool => b) bs).
Proof.
  revert bs c. induction labels as [|l labels IH]; intros [|b bs] c Hlen;
    simpl in *; try lia.
  destruct (IH bs (count_step l b c)) as (He & Hf & Hp); [lia|].
  rewrite He, Hf, Hp. destruct b; simpl; lia.
Qed.

Lemma runs_length steps self bs self1 t1 :
  runs run_step steps self bs self1 t1 -> length bs = length steps.
Proof. induction 1; simpl; congruence. Qed.

Lemma scenario_loop_stops pre step post self self1 t1 self2 t2 c :
  runs run_step pre self (repeat true (length pre)) self1 t1 ->
  run_step step self1 = (Ret false, self2, t2) ->
  scenario_loop run_step (pre ++ step :: post) (self, c) =
  (Ret tt,
   (self2,
    Tally (executed c + length pre + 1) (passed_count c + length pre)
      (failed_count c + 1) (failed_list c ++ [step_text step])),
   t1 ++ t2).
Proof.
  intros Hruns Hfail.
  remember (repeat true (length pre)) as bs eqn:Hbs. revert c Hbs Hfail.
  induction Hruns as [self|s rest self b self1 t1 bs self3 t3 Hrun _ IH];
    intros c Hbs Hfail.
  - cbn [app length]. rewrite (scenario_loop_fail _ _ _ _ _ _ Hfail). unfold count_step.
    simpl. tally_eq.
  - simpl in Hbs. injection Hbs as -> Hbs.
    cbn [app length]. rewrite (scenario_loop_pass _ _ _ _ _ _ Hrun), (IH _ Hbs Hfail). simpl.
    rewrite <- app_assoc. tally_eq.
Qed.

Lemma scenario_loop_all_pass steps self self1 t1 c :
  runs run_step steps self (repeat true (length steps)) self1 t1 ->
  scenario_loop run_step steps (self, c) =
  (Ret tt,
   (self1,
    Tally (executed c + length steps) (passed_count c + length steps)
      (failed_count c) (failed_list c)),
   t1).
Proof.
  intros Hruns.
  remember (repeat true (length steps)) as bs eqn:Hbs. revert c Hbs.
  induction Hruns as [self|s rest self b self1 t1 bs self3 t3 Hrun _ IH]; intros c Hbs.
  - simpl. destruct c. unfold ret. simpl. tally_eq.
  - simpl in Hbs. injection Hbs as -> Hbs.
    rewrite (scenario_loop_pass _ _ _ _ _ _ Hrun), (IH _ Hbs). simpl.
    tally_eq.
Qed.

Lemma execute_scenario_returns scenario self :
  exists r self' t,
    execute_scenario_with run_step scenario self = (Ret r, self', t)
    /\ (passed r = true <-> steps_failed r = 0 /\ error_message r = None).
Proof.
  unfold execute_scenario_with.
  destruct (guarded_body run_step scenario (self, Tally 0 0 0 [])) as [[r [self' c]] t] eqn:Hg.
  assert (exists m, r = Ret m) as [m ->].
  { unfold guarded_body, try_except in Hg.
    destruct (bind _ _ _) as [[[a|e] s1] t1].
    - injection Hg as <- _ _. eauto.
    - unfold bind, emit, ret in Hg. simpl in Hg. injection Hg as <- _ _. eauto. }
  do 3 eexists. split; [reflexivity|]. simpl.
  rewrite andb_true_iff, Nat.eqb_eq. destruct m; intuition congruence.
Qed.

Lemma scenario_loop_raise step rest self c e self1 t1 :
  run_step step self = (Raise e, self1, t1) ->
  scenario_loop run_step (step :: rest) (self, c) = (Raise e, (self1, c), t1).
Proof.
  intros Hrun. cbn [scenario_loop]. unfold bind at 1, on_self, zoom. cbn [fst snd].
  now rewrite Hrun.
Qed.

Lemma scenario_loop_raises pre step post self self1 t1 e self2 t2 c :
  runs run_step pre self (repeat true (length pre)) self1 t1 ->
  run_step step self1 = (Raise e, self2, t2) ->
  scenario_loop run_step (pre ++ step :: post) (self, c) =
  (Raise e,
   (self2,
    Tally (executed c + length pre) (passed_count c + length pre) (failed_count c)
      (failed_list c)),
   t1 ++ t2).
Proof.
  intros Hruns Hraise.
  remember (repeat true (length pre)) as bs eqn:Hbs. revert c Hbs Hraise.
  induction Hruns as [self|s rest self b self1 t1 bs self3 t3 Hrun _ IH];
    intros c Hbs Hraise.
  - cbn [app length]. rewrite (scenario_loop_raise _ _ _ _ _ _ _ Hraise).
    destruct c. cbn. do 3 f_equal. apply Tally_ext; lia.
  - simpl in Hbs. injection Hbs as -> Hbs. cbn [app length].
    rewrite (scenario_loop_pass _ _ _ _ _ _ Hrun),
      (IH _ Hbs Hraise). simpl.
    rewrite <- app_assoc. do 3 f_equal. apply Tally_ext; lia.
Qed.

Lemma no_failure_iff_all_pass (bs : list bool) :
  Nat.eqb (length (List.filter negb bs)) 0 = forallb (fun b : bool => b) bs.
Proof. induction bs as [|[] bs IH]; cbn; auto. Qed.

Lemma background_loop_raises pre step post self bs self1 t1 e self2 t2 c :
  runs run_step pre self bs self1 t1 ->
  run_step step self1 = (Raise e, self2, t2) ->
  background_loop run_step (pre ++ step :: post) (self, c) =
  (Raise e,
   (self2, count_steps (map (fun s => "Background: " +:+ step_text s) pre) bs c),
   t1 ++ t2).
Proof.
  intros Hruns Hraise. revert c.
  induction Hruns as [self|s rest self b self1 t1 bs self3 t3 Hrun _ IH]; intros c.
  - cbn [app background_loop]. unfold bind at 1, on_self, zoom. cbn [fst snd].
    now rewrite Hraise.
  - cbn [app]. rewrite (background_loop_cons _ _ _ _ _ _ _ Hrun).
    rewrite (IH Hraise). cbn. now rewrite app_assoc.
Qed.

Lemma failed_list_count_steps labels bs c :
  failed_list (count_steps labels bs c) =
  failed_list c ++ map fst (List.filter (fun p => negb (snd p)) (combine labels bs)).
Proof.
  revert bs c. induction labels as [|l labels IH]; intros [|b bs] c; cbn;
    try (now rewrite app_nil_r).
  rewrite IH. destruct b; cbn; [reflexivity|]. now rewrite <- app_assoc.
Qed.

Lemma background_phase scenario self bs self1 t1 c :
  runs run_step (default [] (background_steps scenario)) self bs self1 t1 ->
  match background_steps scenario with
  | Some ((_ :: _) as bg) => background_loop run_step bg
  | _ => ret tt
  end (self, c) =
  (Ret tt,
   (self1,
    count_steps
      (map (fun s => "Background: " +:+ step_text s) (default [] (background_steps scenario)))
      bs c),
   t1).
Proof.
  intros Hruns. destruct (background_steps scenario) as [[|s0 l]|]; cbn in Hruns.
  - inversion Hruns; subst. reflexivity.
  - exact (background_loop_runs _ _ _ _ _ _ Hruns).
  - inversion Hruns; subst. reflexivity.
Qed.

Lemma execute_of_guarded scenario self m self' c t :
  guarded_body run_step scenario (self, Tally 0 0 0 []) = (Ret m, (self', c), t) ->
  execute_scenario_with run_step scenario self =
  (Ret {| scenario_name := name scenario;
          passed := Nat.eqb (failed_count c) 0
                    && match m with None => true | Some _ => false end;
          steps_executed := executed c;
          steps_passed := passed_count c;
          steps_failed := failed_count c;
          error_message := m;
          failed_steps := failed_list c |},
   self', Log INFO ("Executing scenario: " +:+ name scenario) :: t).
Proof. intros Hg. unfold execute_scenario_with. now rewrite Hg. Qed.

(** The counters after the background steps. *)
Lemma background_tally (bg : list TestStep) bs :
  length bs = length bg ->
  let c := count_steps (map (fun s => "Background: " +:+ step_text s) bg) bs (Tally 0 0 0 []) in
  executed c = length bg
  /\ passed_count c = length (List.filter (fun b : bool => b) bs)
  /\ failed_count c = length (List.filter negb bs)
  /\ failed_list c =
     map fst (List.filter (fun p => negb (snd p))
                (combine (map (fun s => "Background: " +:+ step_text s) bg) bs)).
Proof.
  intros Hlen c. subst c.
  destruct (count_steps_executed
              (map (fun s => "Background: " +:+ step_text s) bg) bs (Tally 0 0 0 []))
    as (He & Hf & Hp); [now rewrite length_map|].
  rewrite He, Hf, Hp, failed_list_count_steps. cbn. rewrite Hlen. auto.
Qed.

Lemma result_ext n p e pa f m l p' e' pa' f' l' :
  p = p' -> e = e' -> pa = pa' -> f = f' -> l = l' ->
  {| scenario_name := n; passed := p; steps_executed := e; steps_passed := pa;
     steps_failed := f; error_message := m; failed_steps := l |} =
  {| scenario_name := n; passed := p'; steps_executed := e'; steps_passed := pa';
     steps_failed := f'; error_message := m; failed_steps := l' |}.
Proof. now intros -> -> -> -> ->. Qed.

Section Background.
Variables (scenario : TestScenario) (self self1 : TestExecutor.t (B:=B) (N:=N)).
Variables (bs : list bool) (t1 : list event).
Hypothesis Hbg : runs run_step (default [] (background_steps scenario)) self bs self1 t1.

Let bg := default [] (background_steps scenario).
Let labels := map (fun s => "Background: " +:+ step_text s) bg.
Let bg_failed := map fst (List.filter (fun p => negb (snd p)) (combine labels bs)).
Let started := Log INFO ("Executing scenario: " +:+ name scenario).

Lemma main_step_fails pre step post self2 t2 self3 t3 :
  steps scenario = pre ++ step :: post ->
  runs run_step pre self1 (repeat true (length pre)) self2 t2 ->
  run_step step self2 = (Ret false, self3, t3) ->
  execute_scenario_with run_step scenario self =
  (Ret {| scenario_name := name scenario;
          passed := false;
          steps_executed := length bg + length pre + 1;
          steps_passed := length (List.filter (fun b : bool => b) bs) + length pre;
          steps_failed := length (List.filter negb bs) + 1;
          error_message := None;
          failed_steps := bg_failed ++ [step_text step] |},
   self3, started :: t1 ++ t2 ++ t3).
Proof.
  intros Hsteps Hpre Hfail.
  destruct (background_tally bg bs (runs_length _ _ _ _ _ Hbg))
    as (He & Hp & Hf & Hl).
  erewrite execute_of_guarded.
  2:{ unfold guarded_body, try_except. unfold bind at 1.
      rewrite (background_phase scenario self bs self1 t1 _ Hbg). unfold bind at 1.
      rewrite Hsteps, (scenario_loop_stops _ _ _ _ _ _ _ _ _ Hpre Hfail).
      unfold ret. cbn. rewrite app_nil_r. reflexivity. }
  cbn [executed passed_count failed_count failed_list].
  unfold bg_failed, labels, started, bg in *. rewrite He, Hp, Hf, Hl.
  do 3 f_equal. apply result_ext; try reflexivity.
  rewrite andb_true_r. apply Nat.eqb_neq. lia.
Qed.

Lemma main_steps_pass self2 t2 :
  runs run_step (steps scenario) self1 (repeat true (length (steps scenario))) self2 t2 ->
  execute_scenario_with run_step scenario self =
  (Ret {| scenario_name := name scenario;
          passed := forallb (fun b : bool => b) bs;
          steps_executed := length bg + length (steps scenario);
          steps_passed :=
            length (List.filter (fun b : bool => b) bs) + length (steps scenario);
          steps_failed := length (List.filter negb bs);
          error_message := None;
          failed_steps := bg_failed |},
   self2, started :: t1 ++ t2).
Proof.
  intros Hmain.
  destruct (background_tally bg bs (runs_length _ _ _ _ _ Hbg))
    as (He & Hp & Hf & Hl).
  erewrite execute_of_guarded.
  2:{ unfold guarded_body, try_except. unfold bind at 1.
      rewrite (background_phase scenario self bs self1 t1 _ Hbg). unfold bind at 1.
      rewrite (scenario_loop_all_pass _ _ _ _ _ Hmain).
      unfold ret. cbn. rewrite app_nil_r. reflexivity. }
  cbn [executed passed_count failed_count failed_list].
  unfold bg_failed, labels, started, bg in *. rewrite He, Hp, Hf, Hl.
  do 3 f_equal. apply result_ext; try reflexivity.
  rewrite andb_true_r. apply no_failure_iff_all_pass.
Qed.

Lemma main_step_raises pre step post self2 t2 self3 t3 e :
  steps scenario = pre ++ step :: post ->
  runs run_step pre self1 (repeat true (length pre)) self2 t2 ->
  run_step step self2 = (Raise e, self3, t3) ->
  execute_scenario_with run_step scenario self =
  (Ret {| scenario_name := name scenario;
          passed := false;
          steps_executed := length bg + length pre;
          steps_passed := length (List.filter (fun b : bool => b) bs) + length pre;
          steps_failed := length (List.filter negb bs);
          error_message := Some (message e);
          failed_steps := bg_failed |},
   self3,
   started :: t1 ++ t2 ++ t3 ++ [Log ERROR ("Scenario execution failed: " +:+ message e)]).
Proof.
  intros Hsteps Hpre Hraise.
  destruct (background_tally bg bs (runs_length _ _ _ _ _ Hbg))
    as (He & Hp & Hf & Hl).
  erewrite execute_of_guarded.
  2:{ unfold guarded_body, try_except. unfold bind at 1.
      rewrite (background_phase scenario self bs self1 t1 _ Hbg). unfold bind at 1.
      rewrite Hsteps,
        (scenario_loop_raises _ _ _ _ _ _ _ _ _ _ Hpre Hraise).
      unfold bind, emit, ret. cbn. reflexivity. }
  cbn [executed passed_count failed_count failed_list].
  unfold bg_failed, labels, started, bg in *. rewrite He, Hp, Hf, Hl.
  rewrite andb_false_r, <- !app_assoc. reflexivity.
Qed.

End Background.

Lemma background_step_raises scenario pre step post self bs self1 t1 e self2 t2 :
  default [] (background_steps scenario) = pre ++ step :: post ->
  runs run_step pre self bs self1 t1 ->
  run_step step self1 = (Raise e, self2, t2) ->
  execute_scenario_with run_step scenario self =
  (Ret {| scenario_name := name scenario;
          passed := false;
          steps_executed := length pre;
          steps_passed := length (List.filter (fun b : bool => b) bs);
          steps_failed := length (List.filter negb bs);
          error_message := Some (message e);
          failed_steps :=
            map fst (List.filter (fun p => negb (snd p))
                       (combine (map (fun s => "Background: " +:+ step_text s) pre) bs)) |},
   self2,
   Log INFO ("Executing scenario: " +:+ name scenario)
   :: t1 ++ t2 ++ [Log ERROR ("Scenario execution failed: " +:+ message e)]).
Proof.
  intros Hbg Hpre Hraise.
  destruct (background_tally pre bs (runs_length _ _ _ _ _ Hpre))
    as (He & Hp & Hf & Hl).
  erewrite execute_of_guarded.
  2:{ unfold guarded_body, try_except. unfold bind at 1.
      assert (Hloop :
                match background_steps scenario with
                | Some ((_ :: _) as bg) => background_loop run_step bg
                | _ => ret tt
                end = background_loop run_step (pre ++ step :: post)).
      { destruct (background_steps scenario) as [[|s0 l]|]; cbn in Hbg.
        - now destruct pre.
        - now rewrite Hbg.
        - now destruct pre. }
      rewrite Hloop, (background_loop_raises _ _ _ _ _ _ _ _ _ _ _ Hpre Hraise).
      unfold bind, emit, ret. cbn. reflexivity. }
  cbn [executed passed_count failed_count failed_list].
  rewrite He, Hp, Hf, Hl. rewrite andb_false_r, <- !app_assoc. reflexivity.
Qed.

(** Every run of a list of steps is of one kind: each step returns, or the
    steps before some step return and that step raises. *)
Lemma runs_or_raises steps self :
  (exists bs self1 t1, runs run_step steps self bs self1 t1)
  \/ (exists pre step post bs self1 t1 e self2 t2,
        steps = pre ++ step :: post
        /\ runs run_step pre self bs self1 t1
        /\ run_step step self1 = (Raise e, self2, t2)).
Proof.
  revert self. induction steps as [|s rest IH]; intros self.
  - left. exists [], self, []. constructor.
  - destruct (run_step s self) as [[[b|e] s1] t1] eqn:Hrun.
    + destruct (IH s1) as [(bs & s2 & t2 & Hruns)
                          | (pre & step & post & bs & s2 & t2 & e & s3 & t3 & -> & Hruns & Hraise)].
      * left. exists (b :: bs), s2, (t1 ++ t2). econstructor; eassumption.
      * right. exists (s :: pre), step, post, (b :: bs), s2, (t1 ++ t2), e, s3, t3.
        split; [reflexivity|]. split; [econstructor; eassumption | exact Hraise].
    + right. exists [], s, rest, [], self, [], e, s1, t1.
      split; [reflexivity|]. split; [constructor | exact Hrun].
Qed.

(** The main steps: all pass, or the steps before some step pass and that
    step returns [False] or raises. *)
Lemma main_cases steps self :
  (exists self1 t1, runs run_step steps self (repeat true (length steps)) self1 t1)
  \/ (exists pre step post self1 t1 self2 t2,
        steps = pre ++ step :: post
        /\ runs run_step pre self (repeat true (length pre)) self1 t1
        /\ (run_step step self1 = (Ret false, self2, t2)
            \/ exists e, run_step step self1 = (Raise e, self2, t2))).
Proof.
  revert self. induction steps as [|s rest IH]; intros self.
  - left. exists self, []. constructor.
  - destruct (run_step s self) as [[[[|]|e] s1] t1] eqn:Hrun.
    + destruct (IH s1) as [(s2 & t2 & Hruns)
                          | (pre & step & post & s2 & t2 & s3 & t3 & -> & Hruns & Hlast)].
      * left. exists s2, (t1 ++ t2). cbn. econstructor; eassumption.
      * right. exists (s :: pre), step, post, s2, (t1 ++ t2), s3, t3.
        split; [reflexivity|]. split; [cbn; econstructor; eassumption | exact Hlast].
    + right. exists [], s, rest, self, [], s1, t1.
      split; [reflexivity|]. split; [constructor | left; exact Hrun].
    + right. exists [], s, rest, self, [], s1, t1.
      split; [reflexivity|]. split; [constructor | right; eauto].
Qed.

Lemma forallb_id_repeat (bs : list bool) :
  forallb (fun b : bool => b) bs = true -> bs = repeat true (length bs).
Proof. induction bs as [|[] bs IH]; cbn; [auto| |discriminate]. intros Hall. now rewrite <- IH. Qed.

Lemma forallb_repeat_true n : forallb (fun b : bool => b) (repeat true n) = true.
Proof. induction n; cbn; auto. Qed.

(** A scenario is reported passed exactly when every step of the background
    and of the scenario ran and returned [True]. *)
Lemma passed_iff_all_steps_pass scenario self r self' t :
  execute_scenario_with run_step scenario self = (Ret r, self', t) ->
  passed r = true <->
  exists self1 t1 self2 t2,
    runs run_step (default [] (background_steps scenario)) self
      (repeat true (length (default [] (background_steps scenario)))) self1 t1
    /\ runs run_step (steps scenario) self1
         (repeat true (length (steps scenario))) self2 t2.
Proof.
  intros Hrun. split.
  - intros Hpassed.
    destruct (runs_or_raises (default [] (background_steps scenario)) self)
      as [(bs & s1 & t1 & Hbg)
         | (pre & step & post & bs & s1 & t1 & e & s2 & t2 & Hsplit & Hpre & Hraise)].
    + destruct (main_cases (steps scenario) s1)
        as [(s2 & t2 & Hmain)
           | (pre & step & post & s2 & t2 & s3 & t3 & Hsplit & Hpre & [Hfail | [e Hraise]])].
      * rewrite (main_steps_pass scenario self s1 bs t1 Hbg s2 t2 Hmain) in Hrun.
        injection Hrun as <- _ _. cbn in Hpassed.
        apply forallb_id_repeat in Hpassed.
        rewrite (runs_length _ _ _ _ _ Hbg) in Hpassed. rewrite Hpassed in Hbg.
        exists s1, t1, s2, t2. auto.
      * rewrite (main_step_fails scenario self s1 bs t1 Hbg _ _ _ _ _ _ _ Hsplit Hpre Hfail)
          in Hrun.
        injection Hrun as <- _ _. discriminate.
      * rewrite (main_step_raises scenario self s1 bs t1 Hbg _ _ _ _ _ _ _ _ Hsplit Hpre Hraise)
          in Hrun.
        injection Hrun as <- _ _. discriminate.
    + rewrite (background_step_raises scenario _ _ _ _ _ _ _ _ _ _ Hsplit Hpre Hraise) in Hrun.
      injection Hrun as <- _ _. discriminate.
  - intros (s1 & t1 & s2 & t2 & Hbg & Hmain).
    rewrite (main_steps_pass scenario self s1 _ t1 Hbg s2 t2 Hmain) in Hrun.
    injection Hrun as <- _ _. cbn. apply forallb_repeat_true.
Qed.

End Facts.
End ScenarioFacts.

(** C7. [execute_scenario], with any step runner in place of
    [self._execute_step], on a scenario whose background steps return the
    results [bs].  Every background step is run, whatever the earlier ones
    returned, and each [False] is counted and listed under its
    "Background:" label.  Then:
    - if a main step returns [False] after main steps that passed, the call
      returns with the state and the trace that step left, so the steps
      after it are not run; the result counts the background steps and the
      main steps up to and including this one, one more failure than the
      background had, and is reported failed;
    - if every main step passes, all steps are counted and the scenario is
      reported passed exactly when every background step passed;
    - if a main step raises, the exception is caught, its message is the
      error message, and the scenario is reported failed whatever the
      counters say.
    For every scenario and state the call returns, and the result is passed
    exactly when it counts no failed step and carries no error message,
    which is exactly when every background step and every main step was run
    and returned [True]. *)
Theorem C7_scenario_control_flow :
  forall (B N : Type) (PC : PlaywrightController B) (S : ai_client.Services N)
         (run_step : cucumber_parser.TestStep -> M (TestExecutor.t (B:=B) (N:=N)) bool)
         (scenario : cucumber_parser.TestScenario) (self self1 : TestExecutor.t)
         (bs : list bool) (t1 : list event),
    let bg := default [] (cucumber_parser.background_steps scenario) in
    let labels := map (fun s => "Background: " +:+ cucumber_parser.step_text s) bg in
    let bg_failed := map fst (List.filter (fun p => negb (snd p)) (combine labels bs)) in
    let started := Log INFO ("Executing scenario: " +:+ cucumber_parser.name scenario) in
    TestExecutor.runs run_step bg self bs self1 t1 ->
    (forall pre step post self2 t2 self3 t3,
       cucumber_parser.steps scenario = pre ++ step :: post ->
       TestExecutor.runs run_step pre self1 (repeat true (length pre)) self2 t2 ->
       run_step step self2 = (Ret false, self3, t3) ->
       TestExecutor.execute_scenario_with run_step scenario self =
       (Ret {| TestExecutor.scenario_name := cucumber_parser.name scenario;
               TestExecutor.passed := false;
               TestExecutor.steps_executed := length bg + length pre + 1;
               TestExecutor.steps_passed :=
                 length (List.filter (fun b : bool => b) bs) + length pre;
               TestExecutor.steps_failed := length (List.filter negb bs) + 1;
               TestExecutor.error_message := None;
               TestExecutor.failed_steps :=
                 bg_failed ++ [cucumber_parser.step_text step] |},
        self3, started :: t1 ++ t2 ++ t3))
    /\ (forall self2 t2,
          TestExecutor.runs run_step (cucumber_parser.steps scenario) self1
            (repeat true (length (cucumber_parser.steps scenario))) self2 t2 ->
          TestExecutor.execute_scenario_with run_step scenario self =
          (Ret {| TestExecutor.scenario_name := cucumber_parser.name scenario;
                  TestExecutor.passed := forallb (fun b : bool => b) bs;
                  TestExecutor.steps_executed :=
                    length bg + length (cucumber_parser.steps scenario);
                  TestExecutor.steps_passed :=
                    length (List.filter (fun b : bool => b) bs)
                    + length (cucumber_parser.steps scenario);
                  TestExecutor.steps_failed := length (List.filter negb bs);
                  TestExecutor.error_message := None;
                  TestExecutor.failed_steps := bg_failed |},
           self2, started :: t1 ++ t2))
    /\ (forall pre step post self2 t2 self3 t3 e,
          cucumber_parser.steps scenario = pre ++ step :: post ->
          TestExecutor.runs run_step pre self1 (repeat true (length pre)) self2 t2 ->
          run_step step self2 = (Raise e, self3, t3) ->
          exists r t,
            TestExecutor.execute_scenario_with run_step scenario self = (Ret r, self3, t)
            /\ TestExecutor.passed r = false
            /\ TestExecutor.error_message r = Some (message e)
            /\ TestExecutor.steps_failed r = length (List.filter negb bs))
    /\ (forall scenario' self',
          exists r self'' t,
            TestExecutor.execute_scenario_with run_step scenario' self' = (Ret r, self'', t)
            /\ (TestExecutor.passed r = true <->
                TestExecutor.steps_failed r = 0 /\ TestExecutor.error_message r = None)
            /\ (TestExecutor.passed r = true <->
                exists self1' t1' self2 t2,
                  let bg' := default [] (cucumber_parser.background_steps scenario') in
                  TestExecutor.runs run_step bg' self' (repeat true (length bg')) self1' t1'
                  /\ TestExecutor.runs run_step (cucumber_parser.steps scenario') self1'
                       (repeat true (length (cucumber_parser.steps scenario'))) self2 t2)).
Proof.
  intros B N PC S run_step scenario self self1 bs t1 bg labels bg_failed started Hbg.
  split; [|split; [|split]].
  - intros pre step post self2 t2 self3 t3 Hsteps Hpre Hfail.
    exact (ScenarioFacts.main_step_fails run_step scenario self self1 bs t1 Hbg
             pre step post self2 t2 self3 t3 Hsteps Hpre Hfail).
  - intros self2 t2 Hmain.
    exact (ScenarioFacts.main_steps_pass run_step scenario self self1 bs t1 Hbg
             self2 t2 Hmain).
  - intros pre step post self2 t2 self3 t3 e Hsteps Hpre Hraise.
    rewrite (ScenarioFacts.main_step_raises run_step scenario self self1 bs t1 Hbg
               pre step post self2 t2 self3 t3 e Hsteps Hpre Hraise).
    do 2 eexists. split; [reflexivity|]. cbn. auto.
  - intros scenario' self'.
    destruct (ScenarioFacts.execute_scenario_returns run_step scenario' self')
      as (r & self'' & t & Hrun & Hiff).
    exists r, self'', t. split; [exact Hrun|]. split; [exact Hiff|].
    exact (ScenarioFacts.passed_iff_all_steps_pass run_step scenario' self' r self'' t Hrun).
Qed.

(** ** Concrete runs *)

(** A run is its outcome, its final state and its trace. *)
Lemma run_eta {A S : Type} (p : outcome A * S * list event) (o : outcome A) :
  fst (fst p) = o -> p = (o, snd (fst p), snd p).
Proof. destruct p as [[o' s] t]. simpl. now intros ->. Qed.


Lemma C1_cache_hit_short_circuits_witness :
  TestExecutor._get_element_selector "Login Button"
    (warm_executor_on (Page "http://x/login" "<html/>" [])) =
  (Ret (Some (TestExecutor.Selector "//button[text()='Login']" "xpath"), TestExecutor.CACHE),
   TestExecutor.with_hit (warm_executor_on (Page "http://x/login" "<html/>" [])),
   [Log INFO "Cache hit for: Login Button";
    Log INFO "Using cached selector for: Login Button"]).
Proof.
  apply (C1_cache_hit_short_circuits page unit static_page offline
           (warm_executor_on (Page "http://x/login" "<html/>" [])) "Login Button"
           login_entry).
  vm_compute. reflexivity.
Defined.

Lemma C3_generic_selector_guarantees_resolution_witness :
  exists sel src self' trace,
    TestExecutor._get_element_selector "Enter"
      (executor_on (Page "http://x/login" "<html/>" ["//*[contains(text(),'Enter')]"])) =
    (Ret (Some sel, src), self', trace)
    /\ src <> TestExecutor.NONE.
Proof.
  destruct (C3_generic_selector_guarantees_resolution page unit static_page offline
              (executor_on (Page "http://x/login" "<html/>" ["//*[contains(text(),'Enter')]"]))
              "Enter")
    as (sel & src & self' & trace & Hres & Hsrc & _).
  - vm_compute. reflexivity.
  - exists sel, src, self', trace. split; [exact Hres | exact Hsrc].
Defined.

Lemma C4_heuristic_tier_short_circuits_witness :
  exists self' stored,
    TestExecutor._get_element_selector "Login button"
      (executor_on (Page "http://x/login" "<html/>" ["//button[contains(text(),'Login')]"])) =
    (Ret (Some (TestExecutor.Selector "//button[contains(text(),'Login')]" "xpath"),
          TestExecutor.HEURISTIC),
     self',
     [Log INFO "Cache miss for: Login button"; Generate "Login button";
      Probe "//button[text()='Login']" "xpath";
      Probe "//button[contains(text(),'Login')]" "xpath";
      Log INFO "Found element with pattern: //button[contains(text(),'Login')]"]
     ++ stored)
    /\ TestExecutor.ai_calls self' = 0.
Proof.
  destruct (C4_heuristic_tier_short_circuits page unit static_page offline
              (executor_on (Page "http://x/login" "<html/>"
                              ["//button[contains(text(),'Login')]"]))
              "Login button"
              ["//button[text()='Login']"]
              "//button[contains(text(),'Login')]"
              ["//input[@type='button' and @value='Login']";
               "//input[@type='submit' and @value='Login']";
               "//*[contains(text(),'Login button')]"])
    as (self' & stored & Hres & _ & _ & _ & Hai & _).
  - vm_compute. reflexivity.
  - vm_compute. reflexivity.
  - repeat constructor.
  - vm_compute. reflexivity.
  - exists self', stored. split; [exact Hres | exact Hai].
Defined.

Lemma C10_azure_analysis_always_fails_witness :
  ai_client.call_analyze_dom
    (ai_client.Object ai_client.AzureOpenAIClient
       (ai_client.Instance "AzureOpenAIClient"
          (<["deployment" := ai_client.VStr "gpt4-deploy"]>
             (<["client" := ai_client.VClient
                               (ai_client.AzureOpenAI "az-test" "https://unit.openai.azure.com"
                                  "2024-02-01")]> ∅))))
    "<html/>" "Login button" "http://x/login" tt =
  (Ret (Some (ai_client.Result [] None false
                (Some "'AzureOpenAIClient' object has no attribute 'model'"))),
   tt,
   [Log ERROR "OpenAI API error: 'AzureOpenAIClient' object has no attribute 'model'"]).
Proof.
  apply (C10_azure_analysis_always_fails unit offline
           ["az-test"; "https://unit.openai.azure.com"; "gpt4-deploy"; "2024-02-01"]).
  reflexivity.
Defined.

(** The second scenario of the specification, after a background step that
    fails too: the button is a [div] no pattern matches and the AI services
    are unreachable.  The background click fails and the run goes on; the
    navigation passes, the click fails, the verification is not attempted. *)
Lemma C7_scenario_control_flow_witness :
  let scenario :=
    {| cucumber_parser.name := "login";
       cucumber_parser.steps :=
         [ step "I navigate to 'http://x/login'" (Some "'http://x/login'") (Some "navigate")
             None;
           step "I click login button" (Some "login button") (Some "click") None;
           step "I see Welcome" (Some "welcome") (Some "verify") (Some "welcome") ];
       cucumber_parser.tags := Some [];
       cucumber_parser.background_steps :=
         Some [step "I click accept button" (Some "accept button") (Some "click") None] |} in
  exists self' t,
    TestExecutor.execute_scenario_with TestExecutor._execute_step scenario
      (executor_on (Page EmptyString "<div role='button'>Enter</div>" [])) =
    (Ret {| TestExecutor.scenario_name := "login";
            TestExecutor.passed := false;
            TestExecutor.steps_executed := 3;
            TestExecutor.steps_passed := 1;
            TestExecutor.steps_failed := 2;
            TestExecutor.error_message := None;
            TestExecutor.failed_steps :=
              ["Background: I click accept button"; "I click login button"] |},
     self', t).
Proof.
  intros scenario.
  set (self := executor_on (Page EmptyString "<div role='button'>Enter</div>" [])).
  set (accept := step "I click accept button" (Some "accept button") (Some "click") None).
  set (open := step "I navigate to 'http://x/login'" (Some "'http://x/login'")
                 (Some "navigate") None).
  set (click := step "I click login button" (Some "login button") (Some "click") None).
  set (see := step "I see Welcome" (Some "welcome") (Some "verify") (Some "welcome")).
  assert (Haccept : fst (fst (TestExecutor._execute_step accept self)) = Ret false)
    by (vm_compute; reflexivity).
  set (self1 := snd (fst (TestExecutor._execute_step accept self))).
  assert (Hopen : fst (fst (TestExecutor._execute_step open self1)) = Ret true)
    by (vm_compute; reflexivity).
  set (self2 := snd (fst (TestExecutor._execute_step open self1))).
  assert (Hclick : fst (fst (TestExecutor._execute_step click self2)) = Ret false)
    by (vm_compute; reflexivity).
  destruct (C7_scenario_control_flow page unit static_page offline TestExecutor._execute_step
              scenario self self1 [false] _
              (TestExecutor.runs_cons _ _ _ _ _ _ _ _ _ _ (run_eta _ _ Haccept)
                 (TestExecutor.runs_nil _ _))) as (Hstop & _).
  do 2 eexists.
  exact (Hstop [open] click [see] self2 _ _ _ eq_refl
           (TestExecutor.runs_cons _ _ _ _ _ _ _ _ _ _ (run_eta _ _ Hopen)
              (TestExecutor.runs_nil _ _))
           (run_eta _ _ Hclick)).
Defined.

(** * Further properties of the code *)

(** ** The element cache *)

Arguments MD5.hexdigest : simpl never.
Arguments ElementCache._generate_key : simpl never.

Module CacheExtraFacts.
Import ElementCache.

Lemma key_normal url d d' :
  PyStr.strip (PyStr.lower d') = PyStr.strip (PyStr.lower d) ->
  _generate_key url d' = _generate_key url d.
Proof. intros Heq. unfold _generate_key, key_input. now rewrite Heq. Qed.

Lemma clear_cache_spec self :
  clear_cache self =
  (Ret tt, snd (fst (save_cache (Make (cache_file self) ∅))),
   snd (save_cache (Make (cache_file self) ∅)) ++ [Log INFO "Cache cleared"]).
Proof.
  unfold clear_cache, set_table. run_py.
  rewrite ElementCacheFacts.save_cache_spec. simpl.
  destruct (write_fault (cache_file self)); reflexivity.
Qed.

End CacheExtraFacts.

(** X1. What [set] stores, [get] returns: after [set(url, d, selector,
    selector_type)], whether or not the file could be written, [get(url, d')]
    returns that entry for every [d'] equal to [d] up to case and surrounding
    whitespace; the entries under other keys are untouched, and a later [set]
    for the same pair replaces the entry. *)
Theorem X1_cache_set_get_round_trip :
  forall (self : ElementCache.t) (url d d' sel ty : string)
         (md : option (list (string * string))),
    PyStr.strip (PyStr.lower d') = PyStr.strip (PyStr.lower d) ->
    let self' := snd (fst (ElementCache.set url d sel ty md self)) in
    fst (fst (ElementCache.set url d sel ty md self)) = Ret tt
    /\ fst (fst (ElementCache.get url d' self')) =
       Ret (Some (ElementCache.Entry sel ty url d (default [] md)))
    /\ (forall k, k <> ElementCache._generate_key url d ->
                  ElementCache.cache self' !! k = ElementCache.cache self !! k)
    /\ (forall sel2 ty2,
          fst (fst (ElementCache.get url d'
                      (snd (fst (ElementCache.set url d' sel2 ty2 None self'))))) =
          Ret (Some (ElementCache.Entry sel2 ty2 url d' []))).
Proof.
  intros self url d d' sel ty md Hnorm self'.
  assert (Htable : ElementCache.cache self' =
                   <[ElementCache._generate_key url d :=
                       ElementCache.Entry sel ty url d (default [] md)]>
                     (ElementCache.cache self))
    by apply ElementCacheFacts.set_table_after.
  split; [now rewrite ElementCacheFacts.set_spec|].
  split; [|split].
  - rewrite ElementCacheFacts.get_spec. simpl.
    rewrite (CacheExtraFacts.key_normal url d d' Hnorm), Htable.
    now rewrite lookup_insert_eq.
  - intros k Hk. rewrite Htable. now apply lookup_insert_ne.
  - intros sel2 ty2. rewrite ElementCacheFacts.get_spec. simpl.
    rewrite ElementCacheFacts.set_table_after. now rewrite lookup_insert_eq.
Qed.

Lemma X1_cache_set_get_round_trip_witness :
  fst (fst (ElementCache.get "http://x/login" "  LOGIN button "
              (snd (fst (ElementCache.set "http://x/login" "Login Button"
                           "//button[text()='Login']" "xpath" None
                           (ElementCache.Make
                              (ElementCache.Store ElementCache.NoFile ElementCache.DumpFails)
                              ∅)))))) =
  Ret (Some (ElementCache.Entry "//button[text()='Login']" "xpath" "http://x/login"
               "Login Button" [])).
Proof.
  assert (Hnorm : PyStr.strip (PyStr.lower "  LOGIN button ") =
                  PyStr.strip (PyStr.lower "Login Button")) by (vm_compute; reflexivity).
  destruct (X1_cache_set_get_round_trip
              (ElementCache.Make
                 (ElementCache.Store ElementCache.NoFile ElementCache.DumpFails) ∅)
              "http://x/login" "Login Button" "  LOGIN button " "//button[text()='Login']"
              "xpath" None Hnorm) as (_ & Hget & _).
  exact Hget.
Defined.

(** X2. Write-through: after a [set] on a disk that takes the write, the
    file holds exactly the table in memory, and a cache object built from
    that file, or a [load_cache] over any stale content of [self.cache], has
    the same table. *)
Theorem X2_write_through_and_reload :
  forall (self : ElementCache.t) (url d sel ty : string)
         (md : option (list (string * string))),
    ElementCache.write_fault (ElementCache.cache_file self) = ElementCache.NoFault ->
    let self' := snd (fst (ElementCache.set url d sel ty md self)) in
    ElementCache.content (ElementCache.cache_file self') =
      ElementCache.Stored (ElementCache.cache self')
    /\ (exists msg,
          ElementCache.__init__ (ElementCache.cache_file self') =
          (Ret (ElementCache.of_t self'), [Log INFO msg]))
    /\ (forall stale,
          snd (fst (ElementCache.load_cache
                      (ElementCache.Obj (ElementCache.cache_file self') stale))) =
          ElementCache.of_t self').
Proof.
  intros self url d sel ty md Hok self'.
  set (table := <[ElementCache._generate_key url d :=
                    ElementCache.Entry sel ty url d (default [] md)]>
                  (ElementCache.cache self)).
  assert (Hself : self' =
                  ElementCache.Make
                    (ElementCache.Store (ElementCache.Stored table) ElementCache.NoFault)
                    table).
  { subst self'. rewrite ElementCacheFacts.set_spec. cbn [fst snd].
    rewrite ElementCacheFacts.save_cache_spec.
    cbn [ElementCache.cache_file ElementCache.cache]. now rewrite Hok. }
  rewrite Hself. split; [reflexivity|]. split.
  - unfold ElementCache.__init__. rewrite ElementCacheFacts.load_cache_spec.
    cbn [ElementCache.cache_file ElementCache.obj_file ElementCache.content]. eauto.
  - intros stale. rewrite ElementCacheFacts.load_cache_spec. reflexivity.
Qed.

Lemma X2_write_through_and_reload_witness :
  ElementCache.content
    (ElementCache.cache_file
       (snd (fst (ElementCache.set "http://x/login" "login button"
                    "//button[text()='Login']" "xpath" None fresh_cache)))) =
  ElementCache.Stored
    (ElementCache.cache
       (snd (fst (ElementCache.set "http://x/login" "login button"
                    "//button[text()='Login']" "xpath" None fresh_cache)))).
Proof.
  assert (Hok : ElementCache.write_fault (ElementCache.cache_file fresh_cache) =
                ElementCache.NoFault) by reflexivity.
  destruct (X2_write_through_and_reload fresh_cache "http://x/login" "login button"
              "//button[text()='Login']" "xpath" None Hok) as (Hfile & _).
  exact Hfile.
Defined.

(** X3. [clear_cache] always returns, leaves the table empty, so that every
    later [get] is a miss, and persists the empty table when the disk takes
    the write; when the file cannot be opened it is left as it was. *)
Theorem X3_clear_cache_empties :
  forall (self : ElementCache.t),
    let self' := snd (fst (ElementCache.clear_cache self)) in
    fst (fst (ElementCache.clear_cache self)) = Ret tt
    /\ ElementCache.cache self' = ∅
    /\ (forall url d, fst (fst (ElementCache.get url d self')) = Ret None)
    /\ match ElementCache.write_fault (ElementCache.cache_file self) with
       | ElementCache.NoFault =>
           ElementCache.content (ElementCache.cache_file self') = ElementCache.Stored ∅
       | ElementCache.OpenFails =>
           ElementCache.cache_file self' = ElementCache.cache_file self
       | ElementCache.DumpFails =>
           ElementCache.content (ElementCache.cache_file self') = ElementCache.Garbled
       end.
Proof.
  intros self self'. subst self'. rewrite CacheExtraFacts.clear_cache_spec. simpl.
  rewrite ElementCacheFacts.save_cache_spec. simpl.
  destruct (ElementCache.write_fault (ElementCache.cache_file self)) eqn:Hf; simpl;
    (split; [reflexivity|]; split; [reflexivity|]; split; [|reflexivity]);
    intros url d; rewrite ElementCacheFacts.get_spec; simpl; now rewrite lookup_empty.
Qed.

(** ** Element resolution, all tiers *)

Module ResolutionCases.
Import TestExecutor.

Section Facts.
Context {B N : Type} `{PlaywrightController B} `{ai_client.Services N}.
Abbreviation executor := (TestExecutor.t (B:=B) (N:=N)).

(** Either no candidate is on the page, or the list splits at the first one
    that is. *)
Lemma candidates_split (self : executor) xs :
  Forall (fun xpath => exists_on_page self xpath = false) xs
  \/ exists pre x post,
       xs = pre ++ x :: post
       /\ Forall (fun xpath => exists_on_page self xpath = false) pre
       /\ exists_on_page self x = true.
Proof.
  induction xs as [|z xs IH]; [left; constructor|].
  destruct (exists_on_page self z) eqn:Hz.
  - right. exists [], z, xs. auto.
  - destruct IH as [Hnone | (pre & x & post & -> & Hpre & Hx)].
    + left. now constructor.
    + right. exists (z :: pre), x, post. auto.
Qed.

Lemma page_url_with_cache (self : executor) c : page_url (with_cache self c) = page_url self.
Proof. reflexivity. Qed.

(** After a [set] for the pair, the entry is in the executor's cache. *)
Lemma stored_after_set (self : executor) d sel ty :
  ElementCache.cache
    (element_cache
       (with_cache self
          (snd (fst (ElementCache.set (page_url self) d sel ty None (element_cache self))))))
    !! ElementCache._generate_key (page_url self) d =
  Some (ElementCache.Entry sel ty (page_url self) d []).
Proof.
  cbn [with_cache element_cache]. rewrite ElementCacheFacts.set_table_after.
  apply lookup_insert_eq.
Qed.

End Facts.
End ResolutionCases.

(** X4. A resolution that returned a selector, from whichever tier, has left
    it in the cache: the next resolution of the same description on the same
    page returns the same selector and type from the cache tier, and its
    trace is the two log records of a hit. *)
Theorem X4_resolved_then_cached :
  forall (B N : Type) (PC : PlaywrightController B) (S : ai_client.Services N)
         (self self1 : TestExecutor.t) (d : string) (sel : TestExecutor.selector_dict)
         (src : TestExecutor.source) (t1 : list event),
    TestExecutor._get_element_selector d self = (Ret (Some sel, src), self1, t1) ->
    TestExecutor._get_element_selector d self1 =
    (Ret (Some sel, TestExecutor.CACHE), TestExecutor.with_hit self1,
     [Log INFO ("Cache hit for: " +:+ d); Log INFO ("Using cached selector for: " +:+ d)]).
Proof.
  intros B N PC S self self1 d sel src t1 Hres.
  destruct (ElementCache.cache (TestExecutor.element_cache self)
              !! ElementCache._generate_key (TestExecutor.page_url self) d) as [e|] eqn:Hc.
  - rewrite (ResolutionFacts.resolve_hit d self e Hc) in Hres.
    injection Hres as <- <- <- <-.
    now apply (ResolutionFacts.resolve_hit d (TestExecutor.with_hit self) e).
  - destruct (ResolutionCases.candidates_split self (XPathHelper.generate_xpath_variations d))
      as [Hnone | (pre & x & post & Hgen & Hpre & Hx)].
    + rewrite (ResolutionFacts.resolve_ai_tier d self Hc Hnone) in Hres.
      destruct (ai_client.find_element_selector _ _ _ _ _) as [[[a|e] n] t_ai];
        [|discriminate].
      cbv zeta in Hres.
      destruct (ai_client.success a && truthy_opt (ai_client.best_selector a));
        [|discriminate].
      destruct (find_element _ _ _); [|discriminate].
      injection Hres as <- <- <- <-.
      apply (ResolutionFacts.resolve_hit d _
               (ElementCache.Entry _ _ (TestExecutor.page_url self) d [])).
      cbn [TestExecutor.with_cache TestExecutor.element_cache].
      change (TestExecutor.page_url (TestExecutor.Make _ _ _ _ _ _))
        with (TestExecutor.page_url self).
      rewrite ElementCacheFacts.set_table_after. apply lookup_insert_eq.
    + rewrite (ResolutionFacts.resolve_heuristic d pre x post self Hc Hgen Hpre Hx) in Hres.
      injection Hres as <- <- <- <-.
      apply (ResolutionFacts.resolve_hit d _
               (ElementCache.Entry x "xpath" (TestExecutor.page_url self) d [])).
      exact (ResolutionCases.stored_after_set self d x "xpath").
Qed.

(** X5. What a returning resolution can be, by tier.  From the cache: the
    stored entry, with only the hit counter changed.  From the heuristics: a
    generated candidate that is on the page, typed xpath, with both counters
    unchanged.  From the AI tier: a selector that is on the page under the
    type inferred from its spelling, with one AI call counted.  Otherwise
    [None], with one AI call counted and the cache as it was: a selector is
    returned from outside the cache only after a successful probe. *)
Theorem X5_answers_are_validated :
  forall (B N : Type) (PC : PlaywrightController B) (S : ai_client.Services N)
         (self self1 : TestExecutor.t) (d : string)
         (r : option TestExecutor.selector_dict) (src : TestExecutor.source)
         (t1 : list event),
    TestExecutor._get_element_selector d self = (Ret (r, src), self1, t1) ->
    match src with
    | TestExecutor.CACHE =>
        exists e,
          ElementCache.cache (TestExecutor.element_cache self)
            !! ElementCache._generate_key (TestExecutor.page_url self) d = Some e
          /\ r = Some (TestExecutor.Selector (ElementCache.selector e)
                         (ElementCache.selector_type e))
          /\ self1 = TestExecutor.with_hit self
    | TestExecutor.HEURISTIC =>
        exists x,
          r = Some (TestExecutor.Selector x "xpath")
          /\ In x (XPathHelper.generate_xpath_variations d)
          /\ TestExecutor.exists_on_page self x = true
          /\ TestExecutor.ai_calls self1 = TestExecutor.ai_calls self
          /\ TestExecutor.cache_hits self1 = TestExecutor.cache_hits self
    | TestExecutor.AI =>
        exists sel,
          r = Some sel
          /\ find_element (TestExecutor.playwright_controller self)
               (TestExecutor.selector sel) (TestExecutor.type sel) = true
          /\ TestExecutor.type sel = TestExecutor.inferred_type (TestExecutor.selector sel)
          /\ TestExecutor.ai_calls self1 = TestExecutor.ai_calls self + 1
    | TestExecutor.NONE =>
        r = None
        /\ TestExecutor.ai_calls self1 = TestExecutor.ai_calls self + 1
        /\ TestExecutor.element_cache self1 = TestExecutor.element_cache self
    end.
Proof.
  intros B N PC S self self1 d r src t1 Hres.
  destruct (ElementCache.cache (TestExecutor.element_cache self)
              !! ElementCache._generate_key (TestExecutor.page_url self) d) as [e|] eqn:Hc.
  - rewrite (ResolutionFacts.resolve_hit d self e Hc) in Hres.
    injection Hres as <- <- <- <-. exists e. auto.
  - destruct (ResolutionCases.candidates_split self (XPathHelper.generate_xpath_variations d))
      as [Hnone | (pre & x & post & Hgen & Hpre & Hx)].
    + rewrite (ResolutionFacts.resolve_ai_tier d self Hc Hnone) in Hres.
      destruct (ai_client.find_element_selector _ _ _ _ _) as [[[a|e] n] t_ai];
        [|discriminate].
      cbv zeta in Hres.
      destruct (ai_client.success a && truthy_opt (ai_client.best_selector a)).
      * destruct (find_element _ _ _) eqn:Hfound; injection Hres as <- <- <- <-.
        -- eexists. split; [reflexivity|]. cbn. auto.
        -- cbn. auto.
      * injection Hres as <- <- <- <-. cbn. auto.
    + rewrite (ResolutionFacts.resolve_heuristic d pre x post self Hc Hgen Hpre Hx) in Hres.
      injection Hres as <- <- <- <-. exists x. split; [reflexivity|].
      split; [rewrite Hgen; apply in_or_app; right; now left|]. auto.
Qed.

(** X6. When the heuristics found nothing and the detector returns [answer]:
    if the answer reports success with a non-empty best selector that is on
    the page, that selector is returned from the AI tier with the type
    inferred from its spelling, stored in the cache under the pair, and one
    AI call is counted; if the answer reports no success, the resolution
    returns [None] without probing the best selector it may carry. *)
Theorem X6_ai_tier_decision :
  forall (B N : Type) (PC : PlaywrightController B) (S : ai_client.Services N)
         (self : TestExecutor.t) (d : string) (answer : ai_client.result) (n' : N)
         (t_ai : list event),
    ElementCache.cache (TestExecutor.element_cache self)
      !! ElementCache._generate_key (TestExecutor.page_url self) d = None ->
    Forall (fun xpath => TestExecutor.exists_on_page self xpath = false)
      (XPathHelper.generate_xpath_variations d) ->
    ai_client.find_element_selector (TestExecutor.ai_detector self)
      (TestExecutor.page_html self) d (TestExecutor.page_url self)
      (TestExecutor.remote self) = (Ret answer, n', t_ai) ->
    let s := default EmptyString (ai_client.best_selector answer) in
    let ty := TestExecutor.inferred_type s in
    (ai_client.success answer = true ->
     truthy_opt (ai_client.best_selector answer) = true ->
     find_element (TestExecutor.playwright_controller self) s ty = true ->
     exists self1 stored,
       TestExecutor._get_element_selector d self =
       (Ret (Some (TestExecutor.Selector s ty), TestExecutor.AI), self1,
        TestExecutor.heuristic_prefix d ++ t_ai ++ Probe s ty :: stored)
       /\ ElementCache.cache (TestExecutor.element_cache self1)
            !! ElementCache._generate_key (TestExecutor.page_url self) d =
          Some (ElementCache.Entry s ty (TestExecutor.page_url self) d [])
       /\ TestExecutor.ai_calls self1 = TestExecutor.ai_calls self + 1
       /\ TestExecutor.remote self1 = n')
    /\ (ai_client.success answer = false ->
        TestExecutor._get_element_selector d self =
        (Ret (None, TestExecutor.NONE), TestExecutor.with_ai_call self n',
         TestExecutor.heuristic_prefix d ++ t_ai
         ++ [Log ERROR ("Could not find selector for: " +:+ d)])).
Proof.
  intros B N PC S self d answer n' t_ai Hmiss Hnone Hfind s ty.
  pose proof (ResolutionFacts.resolve_ai_tier d self Hmiss Hnone) as Hres.
  rewrite Hfind in Hres. cbv zeta in Hres. fold s in Hres. fold ty in Hres.
  split.
  - intros Hs Hb Hfound. rewrite Hs, Hb, Hfound in Hres. cbn [andb] in Hres.
    do 2 eexists. split; [exact Hres|]. split; [|auto].
    cbn [TestExecutor.with_cache TestExecutor.element_cache].
    rewrite ElementCacheFacts.set_table_after. apply lookup_insert_eq.
  - intros Hs. rewrite Hs in Hres. exact Hres.
Qed.

Import Replies.

Lemma X4_resolved_then_cached_witness :
  let self := executor_on (Page "http://x/login" "<html/>" ["//button[contains(text(),'Login')]"]) in
  fst (fst (TestExecutor._get_element_selector "Login button"
              (snd (fst (TestExecutor._get_element_selector "Login button" self))))) =
  Ret (Some (TestExecutor.Selector "//button[contains(text(),'Login')]" "xpath"),
       TestExecutor.CACHE).
Proof.
  intros self.
  assert (Hfirst : fst (fst (TestExecutor._get_element_selector "Login button" self)) =
                   Ret (Some (TestExecutor.Selector "//button[contains(text(),'Login')]"
                                "xpath"),
                        TestExecutor.HEURISTIC)) by (vm_compute; reflexivity).
  rewrite (X4_resolved_then_cached page unit static_page offline self _ "Login button" _ _ _
             (run_eta _ _ Hfirst)).
  reflexivity.
Defined.

Lemma X5_answers_are_validated_witness :
  let self := executor_answering "css" (Page "http://x/login" "<html/>" ["div[role='button']"]) in
  exists sel,
    Some (TestExecutor.Selector "div[role='button']" "css") = Some sel
    /\ find_element (TestExecutor.playwright_controller self)
         (TestExecutor.selector sel) (TestExecutor.type sel) = true
    /\ TestExecutor.type sel = TestExecutor.inferred_type (TestExecutor.selector sel)
    /\ TestExecutor.ai_calls
         (snd (fst (TestExecutor._get_element_selector "Enter" self))) =
       TestExecutor.ai_calls self + 1.
Proof.
  intros self.
  assert (Hrun : fst (fst (TestExecutor._get_element_selector "Enter" self)) =
                 Ret (Some (TestExecutor.Selector "div[role='button']" "css"),
                      TestExecutor.AI)) by (vm_compute; reflexivity).
  exact (X5_answers_are_validated page canned static_page canned_services self _ "Enter" _ _ _
           (run_eta _ _ Hrun)).
Defined.

Lemma X6_ai_tier_decision_witness :
  let self := executor_answering "css" (Page "http://x/login" "<html/>" ["div[role='button']"]) in
  exists self1 stored,
    TestExecutor._get_element_selector "Enter" self =
    (Ret (Some (TestExecutor.Selector "div[role='button']" "css"), TestExecutor.AI), self1,
     TestExecutor.heuristic_prefix "Enter"
     ++ [Log INFO "Analyzing element: Enter"; Analyze "Enter" "http://x/login";
         Log INFO "Anthropic analysis completed for: Enter"]
     ++ Probe "div[role='button']" "css" :: stored)
    /\ TestExecutor.ai_calls self1 = 1.
Proof.
  intros self.
  destruct (X6_ai_tier_decision page canned static_page canned_services self "Enter"
              css_answer (Canned "css")
              [Log INFO "Analyzing element: Enter"; Analyze "Enter" "http://x/login";
               Log INFO "Anthropic analysis completed for: Enter"])
    as (Haccept & _).
  - reflexivity.
  - repeat constructor.
  - reflexivity.
  - destruct Haccept as (self1 & stored & Hres & _ & Hcalls & _); try reflexivity.
    exists self1, stored. split; [exact Hres | exact Hcalls].
Defined.

(** ** The AI clients and the detector *)

Module ClientExtraFacts.
Import ai_client.

Section Facts.
Context {N : Type} `{Services N}.

Lemma new_AnthropicClient args obj :
  new (N:=N) AnthropicClient args = Ret obj ->
  exists api_key model,
    args = [api_key; model]
    /\ obj = Object AnthropicClient
               (Instance "AnthropicClient"
                  (<["model" := VStr model]> (<["client" := VClient (Anthropic api_key)]> ∅))).
Proof.
  unfold new. rewrite AIClientFacts.AnthropicClient_concrete.
  change (getattr_class AnthropicClient "__init__")
    with (Some (Init (N:=N) AnthropicClient___init__)).
  destruct args as [|a [|b [|c args]]]; simpl; try discriminate.
  intros [= <-]. now exists a, b.
Qed.

(** The Anthropic method on an instance built by [__init__]. *)
Lemma anthropic_analyze_dom api_key model html d url (n : N) :
  call_analyze_dom
    (Object AnthropicClient
       (Instance "AnthropicClient"
          (<["model" := VStr model]> (<["client" := VClient (Anthropic api_key)]> ∅))))
    html d url n =
  match messages_create (VClient (Anthropic api_key)) (VStr model) system_prompt
          (user_prompt html d url) n with
  | (Ret content, n1, t1) =>
      match json_loads content with
      | Ret a =>
          (Ret (Some a), n1,
           t1 ++ [Log INFO ("Anthropic analysis completed for: " +:+ d)])
      | Raise e =>
          (Ret (Some (failure (if is_json_error e
                               then "JSON parse error: " +:+ message e
                               else message e))),
           n1,
           t1 ++ [Log ERROR (if is_json_error e
                             then "Failed to parse Anthropic response: " +:+ message e
                             else "Anthropic API error: " +:+ message e)])
      end
  | (Raise e, n1, t1) =>
      (Ret (Some (failure (if is_json_error e
                           then "JSON parse error: " +:+ message e
                           else message e))),
       n1,
       t1 ++ [Log ERROR (if is_json_error e
                         then "Failed to parse Anthropic response: " +:+ message e
                         else "Anthropic API error: " +:+ message e)])
  end.
Proof.
  change (call_analyze_dom _ html d url n)
    with (AnthropicClient_analyze_dom
            (Instance "AnthropicClient"
               (<["model" := VStr model]> (<["client" := VClient (Anthropic api_key)]> ∅)))
            html d url n).
  unfold AnthropicClient_analyze_dom, try_except, bind.
  change (getattr _ "client") with (Ret (A:=value) (VClient (Anthropic api_key))).
  change (getattr _ "model") with (Ret (A:=value) (VStr model)).
  cbn [lift ret].
  destruct (messages_create _ _ _ _ n) as [[[content|e] n1] t1].
  - destruct (json_loads content) as [a|e]; cbn.
    + reflexivity.
    + unfold on_error, bind, emit, ret. destruct (is_json_error e); cbn;
        now rewrite ?app_nil_r.
  - unfold on_error, bind, emit, ret. destruct (is_json_error e); cbn; reflexivity.
Qed.

End Facts.
End ClientExtraFacts.


(** X7. Whenever the client's analysis returns a dictionary, the detector
    returns one whose best selector is non-empty.  An analysis that succeeded
    with a best selector is passed on unchanged.  One without a best selector
    gets the first heuristic candidate as best selector and [success] set.
    One that failed but carries a best selector keeps both, so it still
    reports no success.  In every fallback case the heuristic candidates are
    appended to the candidate list. *)
Theorem X7_detector_names_a_selector :
  forall (N : Type) (S : ai_client.Services N) (det : ai_client.AIElementDetector N)
         (html d url : string) (n n' : N) (answer : ai_client.result) (t_ai : list event),
    ai_client.call_analyze_dom (ai_client.client det) (ai_client._clean_html html) d url n =
      (Ret (Some answer), n', t_ai) ->
    exists r t,
      ai_client.find_element_selector det html d url n = (Ret r, n', t)
      /\ truthy_opt (ai_client.best_selector r) = true
      /\ (ai_client.success answer = true ->
          truthy_opt (ai_client.best_selector answer) = true -> r = answer)
      /\ (truthy_opt (ai_client.best_selector answer) = true ->
          ai_client.best_selector r = ai_client.best_selector answer
          /\ ai_client.success r = ai_client.success answer)
      /\ (truthy_opt (ai_client.best_selector answer) = false ->
          ai_client.best_selector r = head (XPathHelper.generate_xpath_variations d)
          /\ ai_client.success r = true)
      /\ (ai_client.success answer && truthy_opt (ai_client.best_selector answer) = false ->
          ai_client.selectors r =
          ai_client.selectors answer
          ++ map ai_client.fallback_candidate (XPathHelper.generate_xpath_variations d)).
Proof.
  intros N S det html d url n n' answer t_ai Hcall.
  destruct (XPathHelper.generate_xpath_variations d) as [|first rest] eqn:Hgen.
  { now destruct (XPathFacts.generate_nonempty d). }
  assert (Hxpath : PyStr.truthy first = true).
  { pose proof (DetectorFacts.generate_all_xpath d) as Hall. rewrite Hgen in Hall.
    inversion Hall; subst. now apply DetectorFacts.xpath_truthy. }
  rewrite (DetectorFacts.find_element_selector_spec det html d url n n' answer t_ai
             first rest Hgen Hcall).
  destruct (ai_client.success answer) eqn:Hs;
    destruct (truthy_opt (ai_client.best_selector answer)) eqn:Hb; cbn;
    do 2 eexists; (split; [reflexivity|]); cbn; rewrite ?Hb; cbn;
    repeat split; try congruence; auto.
Qed.

Lemma X7_detector_names_a_selector_witness :
  exists r t,
    ai_client.find_element_selector anthropic_detector "<html/>" "Login button"
      "http://x/login" tt = (Ret r, tt, t)
    /\ ai_client.best_selector r = Some "//button[text()='Login']"
    /\ ai_client.success r = true.
Proof.
  destruct (X7_detector_names_a_selector unit offline anthropic_detector "<html/>"
              "Login button" "http://x/login" tt tt
              (ai_client.Result [] None false (Some "Connection error."))
              [Log ERROR "Anthropic API error: Connection error."] eq_refl)
    as (r & t & Hfind & _ & _ & _ & Hfallback & _).
  exists r, t. split; [exact Hfind|]. exact (Hfallback eq_refl).
Defined.

(** X8. [analyze_dom] of an Anthropic client never raises.  If the request
    raises, or the reply does not decode, the result is the failure record
    (no candidates, no best selector, no success) carrying the message of
    the exception, prefixed with "JSON parse error: " for a decoding error;
    otherwise it is the decoded reply as it is. *)
Theorem X8_anthropic_analysis_never_raises :
  forall (N : Type) (S : ai_client.Services N) (args : list string)
         (obj : ai_client.object N) (html d url : string) (n : N),
    ai_client.new ai_client.AnthropicClient args = Ret obj ->
    exists api_key model r n1 t,
      args = [api_key; model]
      /\ ai_client.call_analyze_dom obj html d url n = (Ret (Some r), n1, t)
      /\ match ai_client.messages_create (ai_client.VClient (ai_client.Anthropic api_key))
                 (ai_client.VStr model) ai_client.system_prompt
                 (ai_client.user_prompt html d url) n with
         | (Ret content, n2, _) =>
             n1 = n2
             /\ match ai_client.json_loads content with
                | Ret a => r = a
                | Raise e =>
                    ai_client.selectors r = [] /\ ai_client.best_selector r = None
                    /\ ai_client.success r = false
                    /\ (is_json_error e = true ->
                        ai_client.error r = Some ("JSON parse error: " +:+ message e))
                end
         | (Raise e, n2, _) =>
             n1 = n2
             /\ ai_client.selectors r = [] /\ ai_client.best_selector r = None
             /\ ai_client.success r = false
             /\ (is_json_error e = false -> ai_client.error r = Some (message e))
         end.
Proof.
  intros N S args obj html d url n Hnew.
  apply ClientExtraFacts.new_AnthropicClient in Hnew as (api_key & model & -> & ->).
  exists api_key, model.
  pose proof (ClientExtraFacts.anthropic_analyze_dom api_key model html d url n) as Hcall.
  destruct (ai_client.messages_create _ _ _ _ n) as [[[content|e] n2] t2].
  - destruct (ai_client.json_loads content) as [a|e].
    + do 3 eexists. split; [reflexivity|]. split; [exact Hcall|]. auto.
    + do 3 eexists. split; [reflexivity|]. split; [exact Hcall|].
      cbn. repeat split. now intros ->.
  - do 3 eexists. split; [reflexivity|]. split; [exact Hcall|].
    cbn. repeat split. now intros ->.
Qed.

Lemma X8_anthropic_analysis_never_raises_witness :
  exists r,
    ai_client.call_analyze_dom
      (ai_client.Object ai_client.AnthropicClient
         (ai_client.Instance "AnthropicClient"
            (<["model" := ai_client.VStr "claude-3-sonnet-20240229"]>
               (<["client" := ai_client.VClient (ai_client.Anthropic "sk-test")]> ∅))))
      "<html/>" "Enter" "http://x/login" tt =
    (Ret (Some r), tt, [Log ERROR "Anthropic API error: Connection error."])
    /\ ai_client.error r = Some "Connection error.".
Proof.
  destruct (X8_anthropic_analysis_never_raises unit offline
              ["sk-test"; "claude-3-sonnet-20240229"]
              (ai_client.Object ai_client.AnthropicClient
                 (ai_client.Instance "AnthropicClient"
                    (<["model" := ai_client.VStr "claude-3-sonnet-20240229"]>
                       (<["client" := ai_client.VClient (ai_client.Anthropic "sk-test")]> ∅))))
              "<html/>" "Enter" "http://x/login" tt eq_refl)
    as (api_key & model & r & n1 & t & Hargs & Hcall & Hshape).
  injection Hargs as <- <-. cbn in Hshape.
  destruct Hshape as (-> & _ & _ & _ & Herr).
  exists r. split; [|now apply Herr].
  rewrite Hcall. f_equal.
  vm_compute in Hcall. now injection Hcall as _ <-.
Defined.

(** X9. [_initialize_client] by provider: "anthropic" with a key builds an
    Anthropic client holding the configured model and key; "azure_openai"
    with key, endpoint and deployment builds an Azure client holding the
    deployment; either provider with a credential missing or empty raises
    [ValueError], and so does any provider name outside the three. *)
Theorem X9_client_selection :
  forall (N : Type) (S : ai_client.Services N) (settings : Config.Settings),
    (Config.ai_provider settings = "anthropic" ->
     truthy_opt (Config.anthropic_api_key settings) = true ->
     exists obj,
       ai_client._initialize_client (N:=N) settings = Ret obj
       /\ ai_client.class_of obj = ai_client.AnthropicClient
       /\ ai_client.getattr (ai_client.self_of obj) "model" =
          Ret (ai_client.VStr (Config.anthropic_model settings))
       /\ ai_client.getattr (ai_client.self_of obj) "client" =
          Ret (ai_client.VClient
                 (ai_client.Anthropic (default EmptyString (Config.anthropic_api_key settings)))))
    /\ (Config.ai_provider settings = "azure_openai" ->
        truthy_opt (Config.azure_openai_api_key settings) = true ->
        truthy_opt (Config.azure_openai_endpoint settings) = true ->
        truthy_opt (Config.azure_openai_deployment settings) = true ->
        exists obj,
          ai_client._initialize_client (N:=N) settings = Ret obj
          /\ ai_client.class_of obj = ai_client.AzureOpenAIClient
          /\ ai_client.getattr (ai_client.self_of obj) "deployment" =
             Ret (ai_client.VStr
                    (default EmptyString (Config.azure_openai_deployment settings))))
    /\ (Config.ai_provider settings = "anthropic" ->
        truthy_opt (Config.anthropic_api_key settings) = false ->
        ai_client._initialize_client (N:=N) settings =
        Raise (Exn ValueError "Anthropic API key not configured"))
    /\ (Config.ai_provider settings = "azure_openai" ->
        truthy_opt (Config.azure_openai_api_key settings)
        && truthy_opt (Config.azure_openai_endpoint settings)
        && truthy_opt (Config.azure_openai_deployment settings) = false ->
        ai_client._initialize_client (N:=N) settings =
        Raise (Exn ValueError
                 "Azure OpenAI configuration incomplete. Need: api_key, endpoint, deployment"))
    /\ (Config.ai_provider settings <> "openai" ->
        Config.ai_provider settings <> "azure_openai" ->
        Config.ai_provider settings <> "anthropic" ->
        ai_client._initialize_client (N:=N) settings =
        Raise (Exn ValueError ("Unsupported AI provider: " +:+ Config.ai_provider settings))).
Proof.
  intros N S settings. unfold ai_client._initialize_client.
  split; [|split; [|split; [|split]]].
  - intros -> ->. cbn [String.eqb Ascii.eqb Bool.eqb negb].
    eexists. split; [reflexivity|]. repeat split.
  - intros -> -> -> ->. cbn [String.eqb Ascii.eqb Bool.eqb negb orb].
    eexists. split; [reflexivity|]. repeat split.
  - intros -> ->. reflexivity.
  - intros -> Hmissing. cbn [String.eqb Ascii.eqb Bool.eqb].
    destruct (truthy_opt (Config.azure_openai_api_key settings)),
      (truthy_opt (Config.azure_openai_endpoint settings)),
      (truthy_opt (Config.azure_openai_deployment settings)); try discriminate; reflexivity.
  - intros H1 H2 H3.
    apply String.eqb_neq in H1, H2, H3. now rewrite H1, H2, H3.
Qed.

Lemma X9_client_selection_witness :
  exists obj,
    ai_client._initialize_client (N:=unit) anthropic_settings = Ret obj
    /\ ai_client.class_of obj = ai_client.AnthropicClient.
Proof.
  destruct (X9_client_selection unit offline anthropic_settings) as (Hanthropic & _).
  destruct (Hanthropic eq_refl eq_refl) as (obj & Hinit & Hclass & _).
  exists obj. split; [exact Hinit | exact Hclass].
Defined.

(** ** Steps and scenarios *)

Module StepFacts.
Import cucumber_parser TestExecutor.

Section Facts.
Context {B N : Type} `{PlaywrightController B} `{ai_client.Services N}.
Abbreviation executor := (TestExecutor.t (B:=B) (N:=N)).

(** [try: m except Exception: ...] with a handler that returns. *)
Lemma try_except_returns {S A} (m : M S A) (h : exn -> M S A) s :
  (forall e s1, exists a s2 t, h e s1 = (Ret a, s2, t)) ->
  exists a s2 t, try_except m h s = (Ret a, s2, t).
Proof.
  intros Hh. unfold try_except. destruct (m s) as [[[a|e] s1] t1]; [eauto|].
  destruct (Hh e s1) as (a & s2 & t & ->). eauto.
Qed.

Lemma execute_step_spec step (self : executor) :
  let handler :=
    if action_is step "navigate" then _handle_navigate_step step
    else if action_is step "click" then _handle_click_step step
    else if action_is step "type" then _handle_type_step step
    else if action_is step "select" then _handle_select_step step
    else if action_is step "verify" then _handle_verify_step step
    else if action_is step "wait" then _handle_wait_step step
    else _handle_generic_step step in
  let started := Log INFO ("Executing step: " +:+ step_text step) in
  _execute_step step self =
  match handler self with
  | (Ret b, self', t) => (Ret b, self', started :: t)
  | (Raise e, self', t) =>
      (Ret false, self',
       started :: t ++ [Log ERROR ("Step execution failed: " +:+ message e)])
  end.
Proof.
  intros handler started. unfold _execute_step. fold handler.
  unfold bind at 1, emit at 1, try_except. cbv beta iota zeta.
  destruct (handler self) as [[[b|e] s1] t1]; [reflexivity|].
  unfold bind, emit, ret. cbn. reflexivity.
Qed.

Lemma execute_step_returns step (self : executor) :
  exists b self' t,
    _execute_step step self =
    (Ret b, self', Log INFO ("Executing step: " +:+ step_text step) :: t).
Proof.
  unfold _execute_step. unfold bind at 1, emit at 1. cbv beta iota.
  match goal with
  | |- context [try_except ?m ?h self] =>
      destruct (try_except_returns m h self) as (b & s2 & t & ->)
  end.
  - intros e s1. unfold bind, emit, ret. cbn. eauto.
  - eauto.
Qed.

End Facts.
End StepFacts.

Module TallyFacts.
Import cucumber_parser TestExecutor.

(** The counters agree with each other. *)
Local Abbreviation consistent c :=
  (executed c = passed_count c + failed_count c
   /\ length (failed_list c) = failed_count c).

Lemma count_step_consistent label b c :
  consistent c ->
  consistent (count_step label b c)
  /\ executed (count_step label b c) = executed c + 1.
Proof.
  intros [He Hf]. unfold count_step.
  destruct b; cbn; rewrite ?length_app; cbn; lia.
Qed.

Section Facts.
Context {B N : Type} `{PlaywrightController B} `{ai_client.Services N}.
Variable run_step : TestStep -> M (TestExecutor.t (B:=B) (N:=N)) bool.

Lemma background_loop_consistent steps self c r self' c' t :
  background_loop run_step steps (self, c) = (r, (self', c'), t) ->
  consistent c ->
  consistent c' /\ executed c <= executed c' <= executed c + length steps.
Proof.
  revert self c t. induction steps as [|step rest IH]; intros self c t Hrun Hc.
  - injection Hrun as <- <- <- <-. cbn. split; [exact Hc | lia].
  - cbn [background_loop] in Hrun. unfold bind at 1, on_self, zoom in Hrun.
    cbn [fst snd] in Hrun.
    destruct (run_step step self) as [[[b|e] s1] t1].
    + unfold bind at 1, on_tally, modify in Hrun. cbn [fst snd] in Hrun.
      destruct (background_loop run_step rest _) as [[r2 [s2 c2]] t2] eqn:Hrest.
      injection Hrun as <- <- <- <-.
      destruct (count_step_consistent ("Background: " +:+ step_text step) b c Hc)
        as [Hc1 He1].
      destruct (IH _ _ _ Hrest Hc1) as [Hc2 Hb]. split; [exact Hc2|]. cbn. lia.
    + injection Hrun as <- <- <- <-. split; [exact Hc|]. cbn. lia.
Qed.

Lemma scenario_loop_consistent steps self c r self' c' t :
  scenario_loop run_step steps (self, c) = (r, (self', c'), t) ->
  consistent c ->
  consistent c' /\ executed c <= executed c' <= executed c + length steps.
Proof.
  revert self c t. induction steps as [|step rest IH]; intros self c t Hrun Hc.
  - injection Hrun as <- <- <- <-. cbn. split; [exact Hc | lia].
  - cbn [scenario_loop] in Hrun. unfold bind at 1, on_self, zoom in Hrun.
    cbn [fst snd] in Hrun.
    destruct (run_step step self) as [[[b|e] s1] t1].
    + unfold bind at 1, on_tally, modify in Hrun. cbn [fst snd] in Hrun.
      destruct (count_step_consistent (step_text step) b c Hc) as [Hc1 He1].
      destruct b.
      * destruct (scenario_loop run_step rest _) as [[r2 [s2 c2]] t2] eqn:Hrest.
        injection Hrun as <- <- <- <-.
        destruct (IH _ _ _ Hrest Hc1) as [Hc2 Hb]. split; [exact Hc2|]. cbn. lia.
      * unfold ret in Hrun. injection Hrun as <- <- <- <-.
        split; [exact Hc1|]. cbn. lia.
    + injection Hrun as <- <- <- <-. split; [exact Hc|]. cbn. lia.
Qed.

Local Abbreviation background_of scenario := (default [] (background_steps scenario)).

Lemma guarded_body_consistent scenario self r self' c' t :
  guarded_body run_step scenario (self, Tally 0 0 0 []) = (r, (self', c'), t) ->
  consistent c'
  /\ executed c' <= length (background_of scenario) + length (steps scenario).
Proof.
  unfold guarded_body, try_except. unfold bind at 1.
  assert (Hc0 : consistent (Tally 0 0 0 [])) by (split; reflexivity).
  set (bg := match background_steps scenario with
             | Some ((_ :: _) as bg) => background_loop run_step bg
             | _ => ret tt
             end).
  assert (Hbg : forall r1 s1 c1 t1,
             bg (self, Tally 0 0 0 []) = (r1, (s1, c1), t1) ->
             consistent c1 /\ executed c1 <= length (background_of scenario)).
  { intros r1 s1 c1 t1 Hrun. subst bg.
    destruct (background_steps scenario) as [[|s0 l]|].
    - injection Hrun as <- <- <- <-. split; [exact Hc0 | cbn; lia].
    - destruct (background_loop_consistent _ _ _ _ _ _ _ Hrun Hc0) as [Hc Hb].
      split; [exact Hc|]. cbn in *. lia.
    - injection Hrun as <- <- <- <-. split; [exact Hc0 | cbn; lia]. }
  destruct (bg (self, Tally 0 0 0 [])) as [[[[]|e] [s1 c1]] t1] eqn:Hbgrun.
  - destruct (Hbg _ _ _ _ eq_refl) as [Hc1 Hb1].
    unfold bind at 1.
    destruct (scenario_loop run_step (steps scenario) (s1, c1)) as [[[[]|e] [s2 c2]] t2] eqn:Hmain;
      destruct (scenario_loop_consistent _ _ _ _ _ _ _ Hmain Hc1) as [Hc2 Hb2].
    + unfold ret. intros [= <- <- <- <-]. split; [exact Hc2 | lia].
    + unfold bind, emit, ret. cbn. intros [= <- <- <- <-]. split; [exact Hc2 | lia].
  - destruct (Hbg _ _ _ _ eq_refl) as [Hc1 Hb1].
    unfold bind, emit, ret. cbn. intros [= <- <- <- <-]. split; [exact Hc1 | lia].
Qed.

Hypothesis run_step_returns :
  forall step self, exists b self' t, run_step step self = (Ret b, self', t).

Lemma background_loop_returns steps st :
  exists st' t, background_loop run_step steps st = (Ret tt, st', t).
Proof.
  revert st. induction steps as [|step rest IH]; intros [self c]; [cbn; eauto|].
  destruct (run_step_returns step self) as (b & s1 & t1 & Hrun).
  rewrite (ScenarioFacts.background_loop_cons run_step _ _ _ _ _ _ _ Hrun).
  destruct (IH (s1, count_step ("Background: " +:+ step_text step) b c)) as (st' & t & ->).
  eauto.
Qed.

Lemma scenario_loop_returns steps st :
  exists st' t, scenario_loop run_step steps st = (Ret tt, st', t).
Proof.
  revert st. induction steps as [|step rest IH]; intros [self c]; [cbn; eauto|].
  destruct (run_step_returns step self) as ([] & s1 & t1 & Hrun).
  - rewrite (ScenarioFacts.scenario_loop_pass run_step _ _ _ _ _ _ Hrun).
    destruct (IH (s1, count_step (step_text step) true c)) as (st' & t & ->). eauto.
  - rewrite (ScenarioFacts.scenario_loop_fail run_step _ _ _ _ _ _ Hrun). eauto.
Qed.

Lemma guarded_body_no_error scenario st :
  exists st' t, guarded_body run_step scenario st = (Ret None, st', t).
Proof.
  unfold guarded_body, try_except. unfold bind at 1.
  assert (exists st1 t1,
            match background_steps scenario with
            | Some ((_ :: _) as bg) => background_loop run_step bg
            | _ => ret tt
            end st = (Ret tt, st1, t1)) as (st1 & t1 & ->).
  { destruct (background_steps scenario) as [[|s0 l]|];
      [cbn; eauto | apply background_loop_returns | cbn; eauto]. }
  unfold bind at 1. destruct (scenario_loop_returns (steps scenario) st1) as (st2 & t2 & ->).
  unfold ret. eauto.
Qed.

End Facts.
End TallyFacts.

(** X10. [_execute_step] never raises.  It logs the step, picks the handler
    by the step's action and runs it: what the handler returns is the
    result of the step, and an exception raised by the handler is caught and
    turned into [False], with the state the handler left and an error record
    carrying the message at the end of the trace.  So a scenario run with it
    never has an error message, and is reported passed exactly when no step
    failed. *)
Theorem X10_steps_never_raise :
  forall (B N : Type) (PC : PlaywrightController B) (S : ai_client.Services N),
    (forall step (self : TestExecutor.t),
       let handler :=
         if TestExecutor.action_is step "navigate" then TestExecutor._handle_navigate_step step
         else if TestExecutor.action_is step "click" then TestExecutor._handle_click_step step
         else if TestExecutor.action_is step "type" then TestExecutor._handle_type_step step
         else if TestExecutor.action_is step "select" then TestExecutor._handle_select_step step
         else if TestExecutor.action_is step "verify" then TestExecutor._handle_verify_step step
         else if TestExecutor.action_is step "wait" then TestExecutor._handle_wait_step step
         else TestExecutor._handle_generic_step step in
       let started := Log INFO ("Executing step: " +:+ cucumber_parser.step_text step) in
       TestExecutor._execute_step step self =
       match handler self with
       | (Ret b, self', t) => (Ret b, self', started :: t)
       | (Raise e, self', t) =>
           (Ret false, self',
            started :: t ++ [Log ERROR ("Step execution failed: " +:+ message e)])
       end)
    /\ (forall scenario (self : TestExecutor.t),
          exists r self' t,
            TestExecutor.execute_scenario scenario self = (Ret r, self', t)
            /\ TestExecutor.error_message r = None
            /\ TestExecutor.passed r = Nat.eqb (TestExecutor.steps_failed r) 0).
Proof.
  intros B N PC S. split; [apply StepFacts.execute_step_spec|].
  intros scenario self. unfold TestExecutor.execute_scenario, TestExecutor.execute_scenario_with.
  destruct (TallyFacts.guarded_body_no_error TestExecutor._execute_step) with
    (scenario := scenario) (st := (self, TestExecutor.Tally 0 0 0 []))
    as ([self' c] & t & ->).
  - intros step s. destruct (StepFacts.execute_step_returns step s) as (b & s' & t & ->).
    eauto.
  - do 3 eexists. split; [reflexivity|]. cbn. split; [reflexivity|].
    now rewrite andb_true_r.
Qed.

(** A click on a page where no pattern matches, with a client whose analysis
    returns nothing: the detector raises on the missing result, and the step
    fails with the error record. *)
Lemma X10_steps_never_raise_witness :
  exists self' t,
    TestExecutor._execute_step
      (step "I click login button" (Some "login button") (Some "click") None)
      (silent_executor_on (Page "http://x/login" "<div role='button'>Enter</div>" [])) =
    (Ret false, self',
     Log INFO "Executing step: I click login button"
     :: t ++ [Log ERROR "Step execution failed: 'NoneType' object is not subscriptable"]).
Proof.
  set (click := step "I click login button" (Some "login button") (Some "click") None).
  set (self := silent_executor_on (Page "http://x/login" "<div role='button'>Enter</div>" [])).
  assert (Hrun : fst (fst (TestExecutor._handle_click_step click self)) =
                 Raise (Exn TypeError "'NoneType' object is not subscriptable"))
    by (vm_compute; reflexivity).
  destruct (X10_steps_never_raise page unit static_page offline) as (Hstep & _).
  do 2 eexists. rewrite (Hstep click self). cbv zeta.
  change (TestExecutor.action_is click "navigate") with false.
  change (TestExecutor.action_is click "click") with true. cbv iota.
  rewrite (run_eta _ _ Hrun). reflexivity.
Defined.

(** X11. [execute_scenario] always returns a result, for any behaviour of
    the step runner, exceptions included, and the result's counters agree:
    executed is passed plus failed, the list of failed steps has one label
    per failed step, and no more steps were executed than the scenario has,
    background included.  The result carries the scenario's name. *)
Theorem X11_result_counters_agree :
  forall (B N : Type) (PC : PlaywrightController B) (S : ai_client.Services N)
         (run_step : cucumber_parser.TestStep -> M (TestExecutor.t (B:=B) (N:=N)) bool)
         (scenario : cucumber_parser.TestScenario) (self : TestExecutor.t),
    exists r self' t,
      TestExecutor.execute_scenario_with run_step scenario self = (Ret r, self', t)
      /\ TestExecutor.steps_executed r =
         TestExecutor.steps_passed r + TestExecutor.steps_failed r
      /\ length (TestExecutor.failed_steps r) = TestExecutor.steps_failed r
      /\ TestExecutor.steps_executed r <=
         length (default [] (cucumber_parser.background_steps scenario))
         + length (cucumber_parser.steps scenario)
      /\ TestExecutor.scenario_name r = cucumber_parser.name scenario.
Proof.
  intros B N PC S run_step scenario self.
  destruct (ScenarioFacts.execute_scenario_returns run_step scenario self)
    as (r & self' & t & Hrun & _).
  exists r, self', t. split; [exact Hrun|].
  unfold TestExecutor.execute_scenario_with in Hrun.
  destruct (TestExecutor.guarded_body run_step scenario _) as [[o [s1 c1]] t1] eqn:Hg.
  destruct (TallyFacts.guarded_body_consistent run_step _ _ _ _ _ _ Hg) as [[He Hf] Hb].
  destruct o as [m|e]; [|discriminate].
  injection Hrun as <- <- <-. cbn. auto.
Qed.


Module ScenarioExtraFacts.
Import cucumber_parser TestExecutor.

Section Facts.
Context {B N : Type} `{PlaywrightController B} `{ai_client.Services N}.
Variable run_step : TestStep -> M (TestExecutor.t (B:=B) (N:=N)) bool.

Lemma background_phase_runs scenario bg self bs self1 t1 c :
  background_steps scenario = Some bg ->
  runs run_step bg self bs self1 t1 ->
  match background_steps scenario with
  | Some ((_ :: _) as bg) => background_loop run_step bg
  | _ => ret tt
  end (self, c) =
  (Ret tt,
   (self1, count_steps (map (fun s => "Background: " +:+ step_text s) bg) bs c), t1).
Proof.
  intros -> Hruns. destruct bg as [|s0 l].
  - inversion Hruns; subst. reflexivity.
  - exact (ScenarioFacts.background_loop_runs run_step _ _ _ _ _ _ Hruns).
Qed.

End Facts.
End ScenarioExtraFacts.

(** X12. Background failures do not stop anything but do fail the scenario:
    when the background steps return [bs] and every main step passes, all
    steps of both lists have run, in order, the failed count is the number of
    failed background steps, and the scenario is reported passed exactly when
    every background step passed. *)
Theorem X12_background_failure_fails_scenario :
  forall (B N : Type) (PC : PlaywrightController B) (S : ai_client.Services N)
         (run_step : cucumber_parser.TestStep -> M (TestExecutor.t (B:=B) (N:=N)) bool)
         (scenario : cucumber_parser.TestScenario) (bg : list cucumber_parser.TestStep)
         (self self1 self2 : TestExecutor.t) (bs : list bool) (t1 t2 : list event),
    cucumber_parser.background_steps scenario = Some bg ->
    TestExecutor.runs run_step bg self bs self1 t1 ->
    TestExecutor.runs run_step (cucumber_parser.steps scenario) self1
      (repeat true (length (cucumber_parser.steps scenario))) self2 t2 ->
    exists r,
      TestExecutor.execute_scenario_with run_step scenario self =
      (Ret r, self2,
       Log INFO ("Executing scenario: " +:+ cucumber_parser.name scenario) :: t1 ++ t2)
      /\ TestExecutor.steps_executed r = length bg + length (cucumber_parser.steps scenario)
      /\ TestExecutor.steps_failed r = length (List.filter negb bs)
      /\ TestExecutor.steps_passed r =
         length (List.filter (fun b : bool => b) bs) + length (cucumber_parser.steps scenario)
      /\ TestExecutor.error_message r = None
      /\ TestExecutor.passed r = forallb (fun b : bool => b) bs.
Proof.
  intros B N PC S run_step scenario bg self self1 self2 bs t1 t2 Hbg Hruns Hmain.
  pose proof (ScenarioFacts.runs_length run_step _ _ _ _ _ Hruns) as Hlen.
  set (labels := map (fun s => "Background: " +:+ cucumber_parser.step_text s) bg).
  set (c1 := TestExecutor.count_steps labels bs (TestExecutor.Tally 0 0 0 [])).
  destruct (ScenarioFacts.count_steps_executed labels bs (TestExecutor.Tally 0 0 0 []))
    as (He & Hf & Hp); [subst labels; now rewrite length_map|].
  fold c1 in He, Hf, Hp. cbn in He, Hf, Hp.
  assert (Hg : TestExecutor.guarded_body run_step scenario
                 (self, TestExecutor.Tally 0 0 0 []) =
               (Ret None,
                (self2,
                 TestExecutor.Tally
                   (TestExecutor.executed c1 + length (cucumber_parser.steps scenario))
                   (TestExecutor.passed_count c1 + length (cucumber_parser.steps scenario))
                   (TestExecutor.failed_count c1) (TestExecutor.failed_list c1)),
                t1 ++ t2)).
  { unfold TestExecutor.guarded_body, try_except. unfold bind at 1.
    rewrite (ScenarioExtraFacts.background_phase_runs run_step scenario bg self bs self1 t1
               _ Hbg Hruns).
    fold labels. fold c1. unfold bind at 1.
    rewrite (ScenarioFacts.scenario_loop_all_pass run_step _ _ _ _ _ Hmain).
    unfold ret. cbn. now rewrite app_nil_r. }
  unfold TestExecutor.execute_scenario_with. rewrite Hg.
  eexists. split; [reflexivity|]. cbn.
  rewrite He, Hf, Hp, Hlen. repeat split; try lia.
  rewrite andb_true_r. apply ScenarioFacts.no_failure_iff_all_pass.
Qed.

(** X13. An exception that escapes the step runner ends the scenario, in
    the main steps and in the background steps alike: it is caught, its
    message becomes the error message and is logged, and the scenario is
    reported failed.  The step that raised is counted neither as executed
    nor as failed and no later step is run; the counters keep what the
    steps before it gave, so the failed count is the number of background
    steps that returned [False], and it is zero when none did. *)
Theorem X13_escaping_exception_fails_scenario :
  forall (B N : Type) (PC : PlaywrightController B) (S : ai_client.Services N)
         (run_step : cucumber_parser.TestStep -> M (TestExecutor.t (B:=B) (N:=N)) bool)
         (scenario : cucumber_parser.TestScenario),
    (forall (self self1 self2 self3 : TestExecutor.t) (bs : list bool)
            (t1 t2 t3 : list event) pre step post (e : exn),
       let bg := default [] (cucumber_parser.background_steps scenario) in
       let labels := map (fun s => "Background: " +:+ cucumber_parser.step_text s) bg in
       TestExecutor.runs run_step bg self bs self1 t1 ->
       cucumber_parser.steps scenario = pre ++ step :: post ->
       TestExecutor.runs run_step pre self1 (repeat true (length pre)) self2 t2 ->
       run_step step self2 = (Raise e, self3, t3) ->
       TestExecutor.execute_scenario_with run_step scenario self =
       (Ret {| TestExecutor.scenario_name := cucumber_parser.name scenario;
               TestExecutor.passed := false;
               TestExecutor.steps_executed := length bg + length pre;
               TestExecutor.steps_passed :=
                 length (List.filter (fun b : bool => b) bs) + length pre;
               TestExecutor.steps_failed := length (List.filter negb bs);
               TestExecutor.error_message := Some (message e);
               TestExecutor.failed_steps :=
                 map fst (List.filter (fun p => negb (snd p)) (combine labels bs)) |},
        self3,
        Log INFO ("Executing scenario: " +:+ cucumber_parser.name scenario)
        :: t1 ++ t2 ++ t3 ++ [Log ERROR ("Scenario execution failed: " +:+ message e)]))
    /\ (forall (self self1 self2 : TestExecutor.t) (bs : list bool)
               (t1 t2 : list event) pre step post (e : exn),
          let labels := map (fun s => "Background: " +:+ cucumber_parser.step_text s) pre in
          default [] (cucumber_parser.background_steps scenario) = pre ++ step :: post ->
          TestExecutor.runs run_step pre self bs self1 t1 ->
          run_step step self1 = (Raise e, self2, t2) ->
          TestExecutor.execute_scenario_with run_step scenario self =
          (Ret {| TestExecutor.scenario_name := cucumber_parser.name scenario;
                  TestExecutor.passed := false;
                  TestExecutor.steps_executed := length pre;
                  TestExecutor.steps_passed := length (List.filter (fun b : bool => b) bs);
                  TestExecutor.steps_failed := length (List.filter negb bs);
                  TestExecutor.error_message := Some (message e);
                  TestExecutor.failed_steps :=
                    map fst (List.filter (fun p => negb (snd p)) (combine labels bs)) |},
           self2,
           Log INFO ("Executing scenario: " +:+ cucumber_parser.name scenario)
           :: t1 ++ t2 ++ [Log ERROR ("Scenario execution failed: " +:+ message e)])).
Proof.
  intros B N PC S run_step scenario. split.
  - intros self self1 self2 self3 bs t1 t2 t3 pre step post e bg labels Hbg Hsteps Hpre Hraise.
    exact (ScenarioFacts.main_step_raises run_step scenario self self1 bs t1 Hbg
             pre step post self2 t2 self3 t3 e Hsteps Hpre Hraise).
  - intros self self1 self2 bs t1 t2 pre step post e labels Hbg Hpre Hraise.
    exact (ScenarioFacts.background_step_raises run_step scenario pre step post self bs
             self1 t1 e self2 t2 Hbg Hpre Hraise).
Qed.

Lemma X12_background_failure_fails_scenario_witness :
  let scenario :=
    {| cucumber_parser.name := "login";
       cucumber_parser.steps :=
         [step "I see Welcome" (Some "welcome") (Some "verify") (Some "welcome")];
       cucumber_parser.tags := None;
       cucumber_parser.background_steps :=
         Some [step "I click login button" (Some "login button") (Some "click") None] |} in
  exists r,
    fst (fst (TestExecutor.execute_scenario_with TestExecutor._execute_step scenario
                (executor_on (Page "http://x/login" "<p>welcome</p>"
                                ["//*[contains(text(),'welcome')]"])))) = Ret r
    /\ TestExecutor.steps_executed r = 2
    /\ TestExecutor.passed r = false.
Proof.
  intros scenario.
  edestruct (X12_background_failure_fails_scenario page unit static_page offline
               TestExecutor._execute_step scenario
               [step "I click login button" (Some "login button") (Some "click") None]
               (executor_on (Page "http://x/login" "<p>welcome</p>"
                               ["//*[contains(text(),'welcome')]"])))
    as (r & Hrun & He & _ & _ & _ & Hp).
  - reflexivity.
  - eapply TestExecutor.runs_cons; [reflexivity | apply TestExecutor.runs_nil].
  - eapply TestExecutor.runs_cons; [reflexivity | apply TestExecutor.runs_nil].
  - exists r. rewrite Hrun. split; [reflexivity|]. split; [exact He | exact Hp].
Defined.

Lemma X13_escaping_exception_fails_scenario_witness :
  let crashing (s : cucumber_parser.TestStep) : M TestExecutor.t bool :=
    if String.eqb (cucumber_parser.step_text s) "crash"
    then raise (Exn OSError "browser crashed")
    else ret (negb (String.eqb (cucumber_parser.step_text s) "fail")) in
  let scenario :=
    {| cucumber_parser.name := "login";
       cucumber_parser.steps :=
         [step "open" None None None; step "crash" None None None;
          step "never" None None None];
       cucumber_parser.tags := Some [];
       cucumber_parser.background_steps := Some [step "fail" None None None] |} in
  exists self' t,
    TestExecutor.execute_scenario_with crashing scenario
      (executor_on (Page "http://x/login" "<html/>" [])) =
    (Ret {| TestExecutor.scenario_name := "login";
            TestExecutor.passed := false;
            TestExecutor.steps_executed := 2;
            TestExecutor.steps_passed := 1;
            TestExecutor.steps_failed := 1;
            TestExecutor.error_message := Some "browser crashed";
            TestExecutor.failed_steps := ["Background: fail"] |},
     self', t).
Proof.
  intros crashing scenario.
  destruct (X13_escaping_exception_fails_scenario page unit static_page offline
              crashing scenario) as (Hmain & _).
  do 2 eexists.
  eapply (Hmain _ _ _ _ [false] _ _ _ [step "open" None None None]
            (step "crash" None None None) [step "never" None None None]
            (Exn OSError "browser crashed")).
  - eapply TestExecutor.runs_cons; [reflexivity | apply TestExecutor.runs_nil].
  - reflexivity.
  - eapply TestExecutor.runs_cons; [reflexivity | apply TestExecutor.runs_nil].
  - reflexivity.
Defined.

(** ** Step handlers *)

Module HandlerFacts.
Import cucumber_parser TestExecutor.

Lemma closed_run_spec s u :
  closed_run s = Some u ->
  exists q post,
    s = u +:+ String q post /\ is_quote q = true
    /\ forallb (fun c => negb (is_quote c)) (list_ascii_of_string u) = true.
Proof.
  revert u. induction s as [|c s IH]; intros u; cbn; [discriminate|].
  destruct (is_quote c) eqn:Hc.
  - intros [= <-]. exists c, s. auto.
  - destruct (closed_run s) as [r|]; [|discriminate]. cbn. intros [= <-].
    destruct (IH r eq_refl) as (q & post & -> & Hq & Hr).
    exists q, post. cbn. rewrite Hc. auto.
Qed.

Lemma search_quoted_spec s u :
  search_quoted s = Some u ->
  exists pre q1 q2 post,
    s = pre +:+ String q1 (u +:+ String q2 post)
    /\ is_quote q1 = true /\ is_quote q2 = true
    /\ PyStr.truthy u = true
    /\ forallb (fun c => negb (is_quote c)) (list_ascii_of_string u) = true.
Proof.
  induction s as [|c s IH]; cbn; [discriminate|].
  assert (Hskip : search_quoted s = Some u ->
                  exists pre q1 q2 post,
                    String c s = pre +:+ String q1 (u +:+ String q2 post)
                    /\ is_quote q1 = true /\ is_quote q2 = true
                    /\ PyStr.truthy u = true
                    /\ forallb (fun c => negb (is_quote c)) (list_ascii_of_string u) = true).
  { intros Hs. destruct (IH Hs) as (pre & q1 & q2 & post & -> & H1 & H2 & H3 & H4).
    exists (String c pre), q1, q2, post. auto. }
  destruct (is_quote c) eqn:Hc; [|exact Hskip].
  destruct (closed_run s) as [[|a r]|] eqn:Hrun; [exact Hskip| |exact Hskip].
  intros [= <-]. destruct (closed_run_spec _ _ Hrun) as (q & post & -> & Hq & Hr).
  exists EmptyString, c, q, post. auto.
Qed.

Section Facts.
Context {B N : Type} `{PlaywrightController B} `{ai_client.Services N}.
Abbreviation executor := (TestExecutor.t (B:=B) (N:=N)).

Lemma dispatch step (self : executor) a :
  action step = Some a ->
  _execute_step step self =
  let handler :=
    if String.eqb a "navigate" then _handle_navigate_step step
    else if String.eqb a "click" then _handle_click_step step
    else if String.eqb a "type" then _handle_type_step step
    else if String.eqb a "select" then _handle_select_step step
    else if String.eqb a "verify" then _handle_verify_step step
    else if String.eqb a "wait" then _handle_wait_step step
    else _handle_generic_step step in
  match handler self with
  | (Ret b, self1, t1) =>
      (Ret b, self1, Log INFO ("Executing step: " +:+ step_text step) :: t1)
  | (Raise e, self1, t1) =>
      (Ret false, self1,
       Log INFO ("Executing step: " +:+ step_text step)
       :: t1 ++ [Log ERROR ("Step execution failed: " +:+ message e)])
  end.
Proof.
  intros Ha. unfold _execute_step, action_is. rewrite Ha.
  unfold bind at 1, emit at 1, try_except. cbv beta iota zeta.
  lazymatch goal with
  | |- _ = match ?h self with _ => _ end => destruct (h self) as [[[b|e] s1] t1]
  end.
  - reflexivity.
  - unfold bind, emit, ret. cbn. reflexivity.
Qed.

End Facts.
End HandlerFacts.

Module PageFacts.
Import cucumber_parser TestExecutor.

Section Facts.
Context {B N : Type} `{PlaywrightController B} `{ai_client.Services N}.

(** A resolution reads the page and leaves it as it is. *)
Lemma resolve_keeps_page d (self : TestExecutor.t (B:=B) (N:=N)) :
  playwright_controller (snd (fst (_get_element_selector d self))) =
  playwright_controller self.
Proof.
  destruct (ElementCache.cache (element_cache self)
              !! ElementCache._generate_key (page_url self) d) as [e|] eqn:Hc.
  - now rewrite (ResolutionFacts.resolve_hit d self e Hc).
  - destruct (ResolutionCases.candidates_split self (XPathHelper.generate_xpath_variations d))
      as [Hnone | (pre & x & post & Hgen & Hpre & Hx)].
    + rewrite (ResolutionFacts.resolve_ai_tier d self Hc Hnone).
      destruct (ai_client.find_element_selector _ _ _ _ _) as [[[a|e] n] t_ai];
        [|reflexivity].
      cbv zeta.
      destruct (ai_client.success a && truthy_opt (ai_client.best_selector a));
        [|reflexivity].
      now destruct (find_element _ _ _).
    + now rewrite (ResolutionFacts.resolve_heuristic d pre x post self Hc Hgen Hpre Hx).
Qed.

End Facts.
End PageFacts.

(** X14. A click step with an element description runs the resolution and
    acts on its answer: with a selector, [click_element] is called with that
    selector and type and its boolean is the step's result; with [None] the
    step fails and nothing is clicked; if the resolution raises, the step
    fails with an error record.  The resolution itself never changes the
    page. *)
Theorem X14_click_follows_resolution :
  forall (B N : Type) (PC : PlaywrightController B) (S : ai_client.Services N)
         (step : cucumber_parser.TestStep) (d : string) (self : TestExecutor.t),
    cucumber_parser.action step = Some "click" ->
    cucumber_parser.element_description step = Some d ->
    PyStr.truthy d = true ->
    TestExecutor._execute_step step self =
    match TestExecutor._get_element_selector d self with
    | (Ret (Some sel, _), self1, t1) =>
        let clicked :=
          click_element (TestExecutor.selector sel) (TestExecutor.type sel)
            (TestExecutor.playwright_controller self) in
        (Ret (fst clicked),
         TestExecutor.Make (TestExecutor.ai_detector self1) (snd clicked)
           (TestExecutor.element_cache self1) (TestExecutor.cache_hits self1)
           (TestExecutor.ai_calls self1) (TestExecutor.remote self1),
         Log INFO ("Executing step: " +:+ cucumber_parser.step_text step) :: t1)
    | (Ret (None, _), self1, t1) =>
        (Ret false, self1,
         Log INFO ("Executing step: " +:+ cucumber_parser.step_text step) :: t1)
    | (Raise e, self1, t1) =>
        (Ret false, self1,
         Log INFO ("Executing step: " +:+ cucumber_parser.step_text step)
         :: t1 ++ [Log ERROR ("Step execution failed: " +:+ message e)])
    end
    /\ TestExecutor.playwright_controller
         (snd (fst (TestExecutor._get_element_selector d self))) =
       TestExecutor.playwright_controller self.
Proof.
  intros B N PC S step d self Ha Hd Ht.
  split; [|apply PageFacts.resolve_keeps_page].
  rewrite (HandlerFacts.dispatch step self "click" Ha). cbv zeta.
  cbn [String.eqb Ascii.eqb Bool.eqb].
  unfold TestExecutor._handle_click_step. rewrite Hd. cbn [truthy_opt]. rewrite Ht.
  cbn [negb default from_option id]. unfold bind.
  pose proof (PageFacts.resolve_keeps_page d self) as Hpage.
  destruct (TestExecutor._get_element_selector d self) as [[[[[sel|] src]|e] self1] t1];
    cbn [fst snd] in *.
  - unfold TestExecutor.on_page. rewrite Hpage.
    destruct (click_element _ _ _) as [ok b]. cbn. now rewrite app_nil_r.
  - unfold ret. cbn. now rewrite app_nil_r.
  - reflexivity.
Qed.

Lemma X14_click_follows_resolution_witness :
  TestExecutor._execute_step
    (step "I click login button" (Some "login button") (Some "click") None)
    (executor_on (Page "http://x/login" "<div role='button'>Enter</div>" [])) =
  match TestExecutor._get_element_selector "login button"
          (executor_on (Page "http://x/login" "<div role='button'>Enter</div>" [])) with
  | (Ret (Some sel, _), self1, t1) =>
      let clicked :=
        click_element (TestExecutor.selector sel) (TestExecutor.type sel)
          (TestExecutor.playwright_controller
             (executor_on (Page "http://x/login" "<div role='button'>Enter</div>" []))) in
      (Ret (fst clicked),
       TestExecutor.Make (TestExecutor.ai_detector self1) (snd clicked)
         (TestExecutor.element_cache self1) (TestExecutor.cache_hits self1)
         (TestExecutor.ai_calls self1) (TestExecutor.remote self1),
       Log INFO "Executing step: I click login button" :: t1)
  | (Ret (None, _), self1, t1) =>
      (Ret false, self1, Log INFO "Executing step: I click login button" :: t1)
  | (Raise e, self1, t1) =>
      (Ret false, self1,
       Log INFO "Executing step: I click login button"
       :: t1 ++ [Log ERROR ("Step execution failed: " +:+ message e)])
  end.
Proof.
  exact (proj1 (X14_click_follows_resolution page unit static_page offline
                  (step "I click login button" (Some "login button") (Some "click") None)
                  "login button"
                  (executor_on (Page "http://x/login" "<div role='button'>Enter</div>" []))
                  eq_refl eq_refl eq_refl)).
Defined.

(** X15. Where a navigate step goes: to its element description when that is
    non-empty; otherwise to the first quoted text of the step; with neither,
    the step fails and the browser is not asked to navigate.  The quoted text
    found is non-empty, holds no quote character, and stands between two
    quote characters of the step text. *)
Theorem X15_navigation_target :
  forall (B N : Type) (PC : PlaywrightController B) (S : ai_client.Services N)
         (step : cucumber_parser.TestStep) (self : TestExecutor.t),
    cucumber_parser.action step = Some "navigate" ->
    let go (url : string) :=
      (Ret (fst (navigate_to url (TestExecutor.playwright_controller self))),
       TestExecutor.Make (TestExecutor.ai_detector self)
         (snd (navigate_to url (TestExecutor.playwright_controller self)))
         (TestExecutor.element_cache self) (TestExecutor.cache_hits self)
         (TestExecutor.ai_calls self) (TestExecutor.remote self),
       [Log INFO ("Executing step: " +:+ cucumber_parser.step_text step)]) in
    (forall url,
       cucumber_parser.element_description step = Some url -> PyStr.truthy url = true ->
       TestExecutor._execute_step step self = go url)
    /\ (forall url,
          truthy_opt (cucumber_parser.element_description step) = false ->
          TestExecutor.search_quoted (cucumber_parser.step_text step) = Some url ->
          TestExecutor._execute_step step self = go url)
    /\ (truthy_opt (cucumber_parser.element_description step) = false ->
        TestExecutor.search_quoted (cucumber_parser.step_text step) = None ->
        TestExecutor._execute_step step self =
        (Ret false, self,
         [Log INFO ("Executing step: " +:+ cucumber_parser.step_text step)]))
    /\ (forall text url,
          TestExecutor.search_quoted text = Some url ->
          exists pre q1 q2 post,
            text = pre +:+ String q1 (url +:+ String q2 post)
            /\ TestExecutor.is_quote q1 = true /\ TestExecutor.is_quote q2 = true
            /\ PyStr.truthy url = true
            /\ forallb (fun c => negb (TestExecutor.is_quote c))
                 (list_ascii_of_string url) = true).
Proof.
  intros B N PC S step self Ha go.
  assert (Hgo : forall url, TestExecutor.on_page (navigate_to url) self =
                            (Ret (fst (navigate_to url (TestExecutor.playwright_controller self))),
                             TestExecutor.Make (TestExecutor.ai_detector self)
                               (snd (navigate_to url (TestExecutor.playwright_controller self)))
                               (TestExecutor.element_cache self) (TestExecutor.cache_hits self)
                               (TestExecutor.ai_calls self) (TestExecutor.remote self),
                             [])).
  { intros url. unfold TestExecutor.on_page. now destruct (navigate_to url _). }
  rewrite (HandlerFacts.dispatch step self "navigate" Ha). cbv zeta.
  cbn [String.eqb Ascii.eqb Bool.eqb]. unfold TestExecutor._handle_navigate_step.
  split; [|split; [|split]].
  - intros url Hd Ht. rewrite Hd.
    repeat (progress (cbn [truthy_opt negb default from_option id]; rewrite ?Ht;
                      cbv beta iota zeta)).
    now rewrite Hgo.
  - intros url Hd Hs.
    destruct (HandlerFacts.search_quoted_spec _ _ Hs) as (_ & _ & _ & _ & _ & _ & _ & Ht & _).
    cbv zeta. rewrite Hd, Hs.
    repeat (progress (cbn [truthy_opt negb default from_option id]; rewrite ?Ht;
                      cbv beta iota zeta)).
    now rewrite Hgo.
  - intros Hd Hs. cbv zeta. rewrite Hd, Hs. cbn [negb]. cbv iota. now rewrite Hd.
  - apply HandlerFacts.search_quoted_spec.
Qed.

Lemma X15_navigation_target_witness :
  TestExecutor._execute_step
    (step "I navigate to 'http://x/login'" None (Some "navigate") None)
    (executor_on (Page EmptyString "<html/>" [])) =
  (Ret true, executor_on (Page "http://x/login" "<html/>" []),
   [Log INFO "Executing step: I navigate to 'http://x/login'"]).
Proof.
  destruct (X15_navigation_target page unit static_page offline
              (step "I navigate to 'http://x/login'" None (Some "navigate") None)
              (executor_on (Page EmptyString "<html/>" [])) eq_refl)
    as (_ & Hquoted & _).
  exact (Hquoted "http://x/login" eq_refl eq_refl).
Defined.

Module DispatchFacts.
Import cucumber_parser TestExecutor.

Section Facts.
Context {B N : Type} `{PlaywrightController B} `{ai_client.Services N}.

Lemma dispatch_none step (self : TestExecutor.t (B:=B) (N:=N)) :
  action step = None ->
  _execute_step step self =
  match _handle_generic_step step self with
  | (Ret b, self1, t1) =>
      (Ret b, self1, Log INFO ("Executing step: " +:+ step_text step) :: t1)
  | (Raise e, self1, t1) =>
      (Ret false, self1,
       Log INFO ("Executing step: " +:+ step_text step)
       :: t1 ++ [Log ERROR ("Step execution failed: " +:+ message e)])
  end.
Proof.
  intros Ha. unfold _execute_step, action_is. rewrite Ha.
  unfold bind at 1, emit at 1, try_except. cbv beta iota zeta.
  destruct (_handle_generic_step step self) as [[[b|e] s1] t1]; [reflexivity|].
  unfold bind, emit, ret. cbn. reflexivity.
Qed.

End Facts.
End DispatchFacts.

(** X16. Steps that never reach the resolution engine.  A verify step probes
    the page for its expected text with the "contains text" XPath and changes
    nothing; without expected text it fails.  Click, type and select steps
    that lack an operand fail at once; a wait step without an element
    succeeds.  A step with no action whose text holds none of the keywords of
    the generic handler succeeds with a warning.  In each case the executor
    is left as it was. *)
Theorem X16_steps_without_resolution :
  forall (B N : Type) (PC : PlaywrightController B) (S : ai_client.Services N)
         (step : cucumber_parser.TestStep) (self : TestExecutor.t),
    let log := Log INFO ("Executing step: " +:+ cucumber_parser.step_text step) in
    (forall e,
       cucumber_parser.action step = Some "verify" ->
       cucumber_parser.expected_text step = Some e -> PyStr.truthy e = true ->
       TestExecutor._execute_step step self =
       (Ret (find_element (TestExecutor.playwright_controller self)
               ("//*[contains(text(),'" +:+ e +:+ "')]") "xpath"),
        self, [log; Probe ("//*[contains(text(),'" +:+ e +:+ "')]") "xpath"]))
    /\ (cucumber_parser.action step = Some "verify" ->
        truthy_opt (cucumber_parser.expected_text step) = false ->
        TestExecutor._execute_step step self = (Ret false, self, [log]))
    /\ (cucumber_parser.action step = Some "click" ->
        truthy_opt (cucumber_parser.element_description step) = false ->
        TestExecutor._execute_step step self = (Ret false, self, [log]))
    /\ (cucumber_parser.action step = Some "type"
        \/ cucumber_parser.action step = Some "select" ->
        truthy_opt (cucumber_parser.element_description step)
        && truthy_opt (cucumber_parser.expected_text step) = false ->
        TestExecutor._execute_step step self = (Ret false, self, [log]))
    /\ (cucumber_parser.action step = Some "wait" ->
        truthy_opt (cucumber_parser.element_description step) = false ->
        TestExecutor._execute_step step self = (Ret true, self, [log]))
    /\ (cucumber_parser.action step = None ->
        existsb (fun word => PyStr.contains word (PyStr.lower (cucumber_parser.step_text step)))
          ["click"; "type"; "enter"; "input"; "select"; "see"; "verify"; "check";
           "navigate"; "go to"] = false ->
        TestExecutor._execute_step step self =
        (Ret true, self,
         [log; Log WARNING ("Unknown step type: " +:+ cucumber_parser.step_text step)])).
Proof.
  intros B N PC S step self log. subst log.
  split; [|split; [|split; [|split; [|split]]]].
  - intros e Ha He Ht. rewrite (HandlerFacts.dispatch step self "verify" Ha). cbv zeta.
    cbn [String.eqb Ascii.eqb Bool.eqb]. unfold TestExecutor._handle_verify_step.
    rewrite He. cbn [truthy_opt]. rewrite Ht. cbn [negb default from_option id].
    reflexivity.
  - intros Ha He. rewrite (HandlerFacts.dispatch step self "verify" Ha). cbv zeta.
    cbn [String.eqb Ascii.eqb Bool.eqb]. unfold TestExecutor._handle_verify_step.
    now rewrite He.
  - intros Ha Hd. rewrite (HandlerFacts.dispatch step self "click" Ha). cbv zeta.
    cbn [String.eqb Ascii.eqb Bool.eqb]. unfold TestExecutor._handle_click_step.
    now rewrite Hd.
  - intros [Ha | Ha] Hmissing.
    + rewrite (HandlerFacts.dispatch step self "type" Ha). cbv zeta.
      cbn [String.eqb Ascii.eqb Bool.eqb]. unfold TestExecutor._handle_type_step.
      rewrite <- negb_andb, Hmissing. reflexivity.
    + rewrite (HandlerFacts.dispatch step self "select" Ha). cbv zeta.
      cbn [String.eqb Ascii.eqb Bool.eqb]. unfold TestExecutor._handle_select_step.
      rewrite <- negb_andb, Hmissing. reflexivity.
  - intros Ha Hd. rewrite (HandlerFacts.dispatch step self "wait" Ha). cbv zeta.
    cbn [String.eqb Ascii.eqb Bool.eqb]. unfold TestExecutor._handle_wait_step.
    now rewrite Hd.
  - intros Ha Hwords. rewrite (DispatchFacts.dispatch_none step self Ha).
    unfold TestExecutor._handle_generic_step. cbv zeta.
    cbn [existsb] in Hwords |- *. rewrite !orb_false_r in Hwords.
    repeat (apply orb_false_elim in Hwords as [? Hwords]).
    repeat match goal with Hw : PyStr.contains _ _ = false |- _ => rewrite Hw; clear Hw end.
    reflexivity.
Qed.

Lemma X16_steps_without_resolution_witness :
  TestExecutor._execute_step
    (step "I should see Welcome" (Some "welcome") (Some "verify") (Some "welcome"))
    (executor_on (Page "http://x/home" "<p>welcome</p>" ["//*[contains(text(),'welcome')]"])) =
  (Ret true,
   executor_on (Page "http://x/home" "<p>welcome</p>" ["//*[contains(text(),'welcome')]"]),
   [Log INFO "Executing step: I should see Welcome";
    Probe "//*[contains(text(),'welcome')]" "xpath"])
  /\ TestExecutor._execute_step
       (step "the moon is full" None None None)
       (executor_on (Page "http://x/home" "<p>welcome</p>" [])) =
     (Ret true, executor_on (Page "http://x/home" "<p>welcome</p>" []),
      [Log INFO "Executing step: the moon is full";
       Log WARNING "Unknown step type: the moon is full"]).
Proof.
  split.
  - destruct (X16_steps_without_resolution page unit static_page offline
                (step "I should see Welcome" (Some "welcome") (Some "verify") (Some "welcome"))
                (executor_on (Page "http://x/home" "<p>welcome</p>"
                                ["//*[contains(text(),'welcome')]"])))
      as (Hverify & _).
    exact (Hverify "welcome" eq_refl eq_refl eq_refl).
  - destruct (X16_steps_without_resolution page unit static_page offline
                (step "the moon is full" None None None)
                (executor_on (Page "http://x/home" "<p>welcome</p>" [])))
      as (_ & _ & _ & _ & _ & Hunknown).
    exact (Hunknown eq_refl eq_refl).
Defined.

(** ** The heuristic generator, further *)

Module GeneratorFacts.
Import PyStr XPathHelper.

Lemma prefix_of_contains sub s : contains sub s = false -> String.prefix sub s = false.
Proof. destruct s; cbn; intros H; now apply orb_false_elim in H as [H _]. Qed.

(** Without an occurrence there is nothing to replace. *)
Lemma replace_absent old new s : contains old s = false -> replace old new s = s.
Proof.
  unfold replace. induction s as [|c s IH]; [reflexivity|].
  intros Hc. pose proof (prefix_of_contains _ _ Hc) as Hp.
  cbn [replace_from]. rewrite Hp. f_equal. apply IH.
  cbn [contains] in Hc. now apply orb_false_elim in Hc as [_ Hc].
Qed.

(** What [lstrip] leaves does not start with whitespace. *)
Lemma lstrip_idem s : lstrip (lstrip s) = lstrip s.
Proof.
  induction s as [|c s IH]; [reflexivity|]. cbn.
  destruct (is_space c) eqn:Hc; [exact IH|]. cbn. now rewrite Hc.
Qed.

Lemma rstrip_cons c s :
  rstrip (String c s) =
  match rstrip s with
  | EmptyString => if is_space c then EmptyString else String c EmptyString
  | r => String c r
  end.
Proof. reflexivity. Qed.

Lemma rstrip_idem s : rstrip (rstrip s) = rstrip s.
Proof.
  induction s as [|c s IH]; [reflexivity|]. rewrite rstrip_cons.
  destruct (rstrip s) as [|c' r] eqn:Hr.
  - destruct (is_space c) eqn:Hc; [reflexivity|]. cbn. now rewrite Hc.
  - rewrite rstrip_cons, IH. reflexivity.
Qed.

(** [rstrip] keeps a first character that is not whitespace. *)
Lemma lstrip_rstrip_head c s :
  is_space c = false -> lstrip (rstrip (String c s)) = rstrip (String c s).
Proof.
  intros Hc. rewrite rstrip_cons. destruct (rstrip s); rewrite ?Hc; cbn; now rewrite Hc.
Qed.

Lemma lstrip_rstrip_lstrip s : lstrip (rstrip (lstrip s)) = rstrip (lstrip s).
Proof.
  induction s as [|c s IH]; [reflexivity|]. cbn [lstrip].
  destruct (is_space c) eqn:Hc; [exact IH|]. now apply lstrip_rstrip_head.
Qed.

Lemma strip_idem s : strip (strip s) = strip s.
Proof. unfold strip. now rewrite lstrip_rstrip_lstrip, rstrip_idem. Qed.

Lemma generate_padding pre d post :
  all_space pre = true -> all_space post = true ->
  generate_xpath_variations (pre +:+ d +:+ post) = generate_xpath_variations d.
Proof.
  intros Hpre Hpost. unfold generate_xpath_variations.
  now rewrite (PyStrFacts.strip_padding pre d post Hpre Hpost).
Qed.

End GeneratorFacts.

(** X17. Shape of the generated list.  Every candidate is an XPath expression
    starting with two slashes.  The list has one generic candidate plus four
    for "button", two for "link" and four for "input" or "field", each block
    present exactly when its keyword occurs in the stripped description taken
    in lower case.  Whitespace around the description does not change the
    list.  The keyword is removed from the text only where it is spelled in
    lower case: when the stripped description has no lower-case "button", the
    four button selectors quote the whole stripped description. *)
Theorem X17_generator_shape :
  (forall d,
     Forall (fun xpath => PyStr.startswith xpath "//" = true)
       (XPathHelper.generate_xpath_variations d))
  /\ (forall d,
        let text := PyStr.lower (PyStr.strip d) in
        length (XPathHelper.generate_xpath_variations d) =
        (if PyStr.contains "button" text then 4 else 0)
        + (if PyStr.contains "link" text then 2 else 0)
        + (if PyStr.contains "input" text || PyStr.contains "field" text then 4 else 0)
        + 1)
  /\ (forall pre d post,
        PyStr.all_space pre = true -> PyStr.all_space post = true ->
        XPathHelper.generate_xpath_variations (pre +:+ d +:+ post) =
        XPathHelper.generate_xpath_variations d)
  /\ (forall d,
        PyStr.contains "button" (PyStr.strip d) = false ->
        XPathHelper.button_variations (PyStr.strip d) =
        [ XPathHelper.button_by_text (PyStr.strip d);
          XPathHelper.button_by_partial_text (PyStr.strip d);
          "//input[@type='button' and @value='" +:+ PyStr.strip d +:+ "']";
          "//input[@type='submit' and @value='" +:+ PyStr.strip d +:+ "']" ]).
Proof.
  split; [apply DetectorFacts.generate_all_xpath|]. split; [|split].
  - intros d text. subst text. unfold XPathHelper.generate_xpath_variations.
    destruct (PyStr.contains "button" _), (PyStr.contains "link" _),
      (PyStr.contains "input" _ || PyStr.contains "field" _); reflexivity.
  - apply GeneratorFacts.generate_padding.
  - intros d Habsent. unfold XPathHelper.button_variations.
    rewrite (GeneratorFacts.replace_absent _ _ _ Habsent), GeneratorFacts.strip_idem.
    reflexivity.
Qed.

Lemma X17_generator_shape_witness :
  XPathHelper.generate_xpath_variations ("  " +:+ "Login Button" +:+ " ") =
  XPathHelper.generate_xpath_variations "Login Button"
  /\ XPathHelper.button_variations (PyStr.strip "Login Button") =
     [ XPathHelper.button_by_text (PyStr.strip "Login Button");
       XPathHelper.button_by_partial_text (PyStr.strip "Login Button");
       "//input[@type='button' and @value='" +:+ PyStr.strip "Login Button" +:+ "']";
       "//input[@type='submit' and @value='" +:+ PyStr.strip "Login Button" +:+ "']" ].
Proof.
  destruct X17_generator_shape as (_ & _ & Hpad & Hcase).
  split.
  - apply Hpad; reflexivity.
  - apply Hcase. reflexivity.
Defined.

(** ** The cache: failures that are contained, and the key *)





(** * The feature parser *)

Module ParserFacts.
Import cucumber_parser CucumberParser.

Lemma prefix_cons a p c s :
  String.prefix (String a p) (String c s) = true -> a = c /\ String.prefix p s = true.
Proof.
  cbn. destruct (Ascii.ascii_dec a c) as [->|]; [auto | discriminate].
Qed.

(** A non-empty prefix of the lower-cased line starting with a character
    that is no whitespace: the line starts with a visible character. *)
Lemma starts_visible line a p :
  PyStr.startswith (PyStr.lower line) (String a p) = true ->
  PyStr.is_space a = false ->
  exists c rest, line = String c rest /\ PyStr.is_space c = false.
Proof.
  unfold PyStr.startswith. destruct line as [|c rest]; [discriminate|].
  cbn [PyStr.lower]. intros Hp Ha. apply prefix_cons in Hp as [-> _].
  exists c, rest. split; [reflexivity|]. now rewrite <- PyStrFacts.is_space_lower_char.
Qed.

Lemma step_line_visible line :
  _is_step_line line = true ->
  exists c rest, line = String c rest /\ PyStr.is_space c = false.
Proof.
  unfold _is_step_line. cbn [existsb]. rewrite !orb_true_iff.
  intros [H|[H|[H|[H|[H|H]]]]]; try discriminate;
    (eapply starts_visible; [exact H | reflexivity]).
Qed.

Lemma take_word_visible c rest :
  PyStr.is_space c = false ->
  exists w r, PyText.take_word (String c rest) = (String c w, r).
Proof.
  intros Hc. cbn. rewrite Hc. destruct (PyText.take_word rest) as [w r]. eauto.
Qed.

(** Two prefixes of one string: one is a prefix of the other. *)
Lemma prefix_compatible p q s :
  String.prefix p s = true -> String.prefix q s = true ->
  String.prefix p q = true \/ String.prefix q p = true.
Proof.
  revert q s. induction p as [|a p IH]; intros q s Hp Hq; [left; now destruct q|].
  destruct q as [|b q]; [right; reflexivity|].
  destruct s as [|c s]; [discriminate|].
  apply prefix_cons in Hp as [-> Hp]. apply prefix_cons in Hq as [-> Hq].
  destruct (IH q s Hp Hq) as [H|H]; [left|right]; cbn;
    (destruct (Ascii.ascii_dec c c); [exact H | congruence]).
Qed.

Lemma prefix_lower p s :
  String.prefix p s = true -> String.prefix (PyStr.lower p) (PyStr.lower s) = true.
Proof.
  revert s. induction p as [|a p IH]; intros s Hp; [now destruct s|].
  destruct s as [|c s]; [discriminate|]. apply prefix_cons in Hp as [-> Hp].
  cbn. destruct (Ascii.ascii_dec _ _); [now apply IH | congruence].
Qed.

(** A line cannot start with both of two strings neither of which starts
    with the other. *)
Lemma prefix_clash p q s :
  String.prefix p q = false -> String.prefix q p = false ->
  String.prefix p s = true -> String.prefix q s = false.
Proof.
  intros Hpq Hqp Hp. destruct (String.prefix q s) eqn:Hq; [|reflexivity].
  destruct (prefix_compatible p q s Hp Hq); congruence.
Qed.

Lemma keyword_of_step_line line :
  _is_step_line line = true ->
  exists kw, In kw ["given"; "when"; "then"; "and"; "but"]
             /\ String.prefix kw (PyStr.lower line) = true.
Proof.
  unfold _is_step_line. rewrite existsb_exists. intros (kw & Hin & Hkw). eauto.
Qed.

Lemma step_line_exclusive line :
  _is_step_line line = true ->
  PyStr.truthy line = true
  /\ PyStr.startswith line "#" = false
  /\ PyStr.startswith line "@" = false
  /\ PyStr.startswith (PyStr.lower line) "background:" = false
  /\ is_scenario_header line = false.
Proof.
  intros Hstep. destruct (step_line_visible line Hstep) as (c & rest & Hline & _).
  destruct (keyword_of_step_line line Hstep) as (kw & Hin & Hkw).
  assert (Hmark : forall m, PyStr.lower m = m ->
                            String.prefix kw m = false -> String.prefix m kw = false ->
                            PyStr.startswith line m = false).
  { intros m Hm H1 H2. unfold PyStr.startswith.
    destruct (String.prefix m line) eqn:Hp; [|reflexivity].
    apply prefix_lower in Hp. rewrite Hm in Hp.
    destruct (prefix_compatible kw m _ Hkw Hp); congruence. }
  unfold is_scenario_header, PyStr.startswith in *.
  split; [now rewrite Hline|].
  cbn [In] in Hin.
  destruct Hin as [<-|[<-|[<-|[<-|[<-|[]]]]]];
    (split; [now apply Hmark|]; split; [now apply Hmark|];
     split; [refine (prefix_clash _ _ _ _ _ Hkw); reflexivity|];
     apply orb_false_iff; split; refine (prefix_clash _ _ _ _ _ Hkw); reflexivity).
Qed.

Lemma header_exclusive line :
  is_scenario_header line = true ->
  PyStr.truthy line = true
  /\ PyStr.startswith line "#" = false
  /\ PyStr.startswith line "@" = false
  /\ PyStr.startswith (PyStr.lower line) "background:" = false.
Proof.
  intros Hh.
  assert (Hs : String.prefix "s" (PyStr.lower line) = true).
  { unfold is_scenario_header, PyStr.startswith in Hh. apply orb_true_iff in Hh.
    destruct (PyStr.lower line) as [|c r]; [now destruct Hh|].
    destruct Hh as [Hh|Hh]; apply prefix_cons in Hh as [<- _]; cbn; now destruct r. }
  assert (Hmark : forall m, PyStr.lower m = m ->
                            String.prefix "s" m = false -> String.prefix m "s" = false ->
                            PyStr.startswith line m = false).
  { intros m Hm H1 H2. unfold PyStr.startswith.
    destruct (String.prefix m line) eqn:Hp; [|reflexivity].
    apply prefix_lower in Hp. rewrite Hm in Hp.
    destruct (prefix_compatible "s" m _ Hs Hp); congruence. }
  split; [destruct line; [discriminate | reflexivity]|].
  split; [now apply Hmark|]. split; [now apply Hmark|].
  refine (prefix_clash _ _ _ _ _ Hs); reflexivity.
Qed.

Section Facts.
Variable ex : string -> option string * option string * option string.

Lemma parse_step_returns line :
  _is_step_line line = true -> exists step, _parse_step ex line = Ret step.
Proof.
  intros Hstep. destruct (step_line_visible line Hstep) as (c & rest & -> & Hc).
  unfold _parse_step, PyText.split_first. cbn [PyStr.lstrip]. rewrite Hc.
  destruct (take_word_visible c rest Hc) as (w & r & ->).
  destruct (PyStr.lstrip r); [eauto|].
  destruct (ex _) as [[act el] expd]. eauto.
Qed.

Lemma lower_char_colon c : PyStr.lower_char c = ":"%char -> c = ":"%char.
Proof.
  unfold PyStr.lower_char.
  destruct (Nat.leb 65 (nat_of_ascii c) && Nat.leb (nat_of_ascii c) 90) eqn:Hup; [|auto].
  intros Heq. apply (f_equal nat_of_ascii) in Heq.
  apply andb_true_iff in Hup as [H1 H2]. apply Nat.leb_le in H1, H2.
  rewrite nat_ascii_embedding in Heq by lia.
  change (nat_of_ascii ":") with 58 in Heq. lia.
Qed.

Local Abbreviation has_colon p := (existsb (Ascii.eqb ":") (list_ascii_of_string p)).

Lemma prefix_with_colon p line :
  String.prefix p (PyStr.lower line) = true -> has_colon p = true ->
  exists title, PyText.after_first ":" line = Some title.
Proof.
  revert line. induction p as [|a p IH]; intros line Hp Hc; [discriminate|].
  destruct line as [|c rest]; [discriminate|].
  cbn [PyStr.lower] in Hp. apply prefix_cons in Hp as [-> Hp].
  cbn [PyText.after_first]. destruct (Ascii.eqb c ":") eqn:Hcolon; [eauto|].
  cbn [list_ascii_of_string existsb] in Hc. apply orb_true_iff in Hc as [Hc|Hc].
  - apply Ascii.eqb_eq in Hc. symmetry in Hc. apply lower_char_colon in Hc. subst c.
    discriminate.
  - now apply IH.
Qed.

Lemma header_has_colon line :
  is_scenario_header line = true -> exists title, PyText.after_first ":" line = Some title.
Proof.
  unfold is_scenario_header, PyStr.startswith. rewrite orb_true_iff.
  intros [H|H]; (eapply prefix_with_colon; [exact H | reflexivity]).
Qed.

Lemma parse_line_returns st raw : exists st', parse_line ex st raw = Ret st'.
Proof.
  unfold parse_line.
  destruct (negb _ || _); [eauto|].
  destruct (PyStr.startswith (PyStr.strip raw) "@"); [eauto|].
  destruct (PyStr.startswith (PyStr.lower (PyStr.strip raw)) "background:"); [eauto|].
  destruct (is_scenario_header (PyStr.strip raw)) eqn:Hh.
  - destruct (header_has_colon _ Hh) as [title ->]. eauto.
  - destruct (_is_step_line (PyStr.strip raw)) eqn:Hs; [|eauto].
    destruct (parse_step_returns _ Hs) as [step ->].
    destruct (in_background st); eauto.
Qed.

Lemma parse_lines_returns st lines : exists st', parse_lines ex st lines = Ret st'.
Proof.
  revert st. induction lines as [|l ls IH]; intros st; cbn; [eauto|].
  destruct (parse_line_returns st l) as [st' ->]. apply IH.
Qed.

(** *** What one line does to the state *)

Local Abbreviation good :=
  (fun sc : TestScenario =>
     steps sc <> []
     /\ (exists ts, tags sc = Some ts) /\ (exists bg, background_steps sc = Some bg)).

Local Abbreviation measure st :=
  (length (scenarios st) + match current_scenario st with Some _ => 1 | None => 0 end).

Local Abbreviation shaped st :=
  (Forall good (scenarios st)
   /\ forall sc, current_scenario st = Some sc ->
                 (exists ts, tags sc = Some ts) /\ (exists bg, background_steps sc = Some bg)).

Lemma flush_good st : shaped st -> Forall good (flush st).
Proof.
  intros [Hall Hcur]. unfold flush.
  destruct (current_scenario st) as [sc|]; [|exact Hall].
  destruct (current_steps st) as [|s0 l] eqn:Hsteps; [exact Hall|].
  apply Forall_app. split; [exact Hall|]. constructor; [|constructor].
  destruct (Hcur sc eq_refl) as [Ht Hb]. split; [cbn; discriminate|]. split; assumption.
Qed.

Lemma flush_length st : length (flush st) <= measure st.
Proof.
  unfold flush. destruct (current_scenario st); [|lia].
  destruct (current_steps st); [lia|]. rewrite length_app. cbn. lia.
Qed.

Lemma parse_line_shaped st raw st' :
  parse_line ex st raw = Ret st' -> shaped st ->
  shaped st'
  /\ measure st' <= measure st + (if is_scenario_header (PyStr.strip raw) then 1 else 0).
Proof.
  unfold parse_line. intros Hrun Hst.
  destruct (negb _ || _).
  { injection Hrun as <-. split; [exact Hst | lia]. }
  destruct (PyStr.startswith (PyStr.strip raw) "@").
  { injection Hrun as <-. split; [exact Hst | cbn; lia]. }
  destruct (PyStr.startswith (PyStr.lower (PyStr.strip raw)) "background:").
  { injection Hrun as <-. split; [exact Hst | cbn; lia]. }
  destruct (is_scenario_header (PyStr.strip raw)).
  - destruct (PyText.after_first ":" (PyStr.strip raw)) as [title|]; [|discriminate].
    injection Hrun as <-. split.
    + split; [now apply flush_good|]. cbn. intros sc [= <-]. cbn. eauto.
    + pose proof (flush_length st). cbn. lia.
  - destruct (_is_step_line (PyStr.strip raw)).
    + destruct (_parse_step ex (PyStr.strip raw)) as [step|e]; [|discriminate].
      destruct (in_background st); injection Hrun as <-;
        (split; [exact Hst | cbn; lia]).
    + injection Hrun as <-. split; [exact Hst | lia].
Qed.

Lemma parse_lines_shaped lines st st' :
  parse_lines ex st lines = Ret st' -> shaped st ->
  shaped st'
  /\ measure st' <=
     measure st + length (List.filter (fun l => is_scenario_header (PyStr.strip l)) lines).
Proof.
  revert st. induction lines as [|l ls IH]; intros st Hrun Hst; cbn in Hrun.
  - injection Hrun as <-. split; [exact Hst | cbn; lia].
  - destruct (parse_line ex st l) as [st1|e] eqn:Hline; [|discriminate].
    destruct (parse_line_shaped _ _ _ Hline Hst) as [Hst1 Hm1].
    destruct (IH _ Hrun Hst1) as [Hst' Hm']. split; [exact Hst'|].
    cbn [List.filter]. destruct (is_scenario_header (PyStr.strip l)); cbn [length]; lia.
Qed.

Lemma parse_feature_content_spec {S : Type} content (s : S) :
  exists st,
    parse_lines ex start (PyText.split_on (ascii_of_nat 10) content) = Ret st
    /\ parse_feature_content ex content s =
       (Ret (flush st), s,
        [Log INFO ("Parsed " +:+ str_nat (length (flush st)) +:+ " scenarios")]).
Proof.
  destruct (parse_lines_returns start (PyText.split_on (ascii_of_nat 10) content))
    as [st Hst].
  exists st. split; [exact Hst|]. unfold parse_feature_content. rewrite Hst.
  reflexivity.
Qed.

(** *** Background steps only accumulate *)

Local Abbreviation bg_of := (fun sc : TestScenario => default [] (background_steps sc)).
Local Abbreviation extends := (fun a b : list TestStep => exists more, b = a ++ more).

Local Abbreviation chained st :=
  (StronglySorted extends (map bg_of (scenarios st))
   /\ Forall (fun sc => extends (bg_of sc) (background st)) (scenarios st)
   /\ forall sc, current_scenario st = Some sc ->
                 extends (bg_of sc) (background st)
                 /\ Forall (fun sc' => extends (bg_of sc') (bg_of sc)) (scenarios st)).

Lemma extends_refl (a : list TestStep) : extends a a.
Proof. exists []. now rewrite app_nil_r. Qed.

Lemma extends_app (a b : list TestStep) c : extends a b -> extends a (b ++ c).
Proof. intros [more ->]. exists (more ++ c). now rewrite app_assoc. Qed.

Lemma sorted_snoc (l : list (list TestStep)) a :
  StronglySorted extends l -> Forall (fun x => extends x a) l ->
  StronglySorted extends (l ++ [a]).
Proof.
  induction 1 as [|x l Hs IH Hx]; intros Hall; cbn.
  - constructor; constructor.
  - apply Forall_cons_iff in Hall as [Hxa Hall]. constructor; [now apply IH|].
    apply Forall_app. split; [exact Hx|]. constructor; [exact Hxa | constructor].
Qed.

Lemma flush_chained st :
  chained st ->
  StronglySorted extends (map bg_of (flush st))
  /\ Forall (fun sc => extends (bg_of sc) (background st)) (flush st).
Proof.
  intros (Hs & Hall & Hcur). unfold flush.
  destruct (current_scenario st) as [sc|]; [|auto].
  destruct (current_steps st) as [|s0 l]; [auto|].
  destruct (Hcur sc eq_refl) as [Hsc Hprev]. split.
  - rewrite map_app. cbn [map]. apply sorted_snoc; [exact Hs|].
    apply Forall_map. exact Hprev.
  - apply Forall_app. split; [exact Hall|]. constructor; [exact Hsc | constructor].
Qed.

Lemma parse_line_chained st raw st' :
  parse_line ex st raw = Ret st' -> chained st -> chained st'.
Proof.
  unfold parse_line. intros Hrun Hst.
  destruct (negb _ || _); [now injection Hrun as <-|].
  destruct (PyStr.startswith (PyStr.strip raw) "@"); [now injection Hrun as <-|].
  destruct (PyStr.startswith (PyStr.lower (PyStr.strip raw)) "background:");
    [now injection Hrun as <-|].
  destruct (is_scenario_header (PyStr.strip raw)).
  - destruct (PyText.after_first ":" (PyStr.strip raw)) as [title|]; [|discriminate].
    injection Hrun as <-. destruct (flush_chained st Hst) as [Hs Hall]. cbn.
    split; [exact Hs|]. split; [exact Hall|].
    intros sc [= <-]. cbn. split; [apply extends_refl | exact Hall].
  - destruct (_is_step_line (PyStr.strip raw)); [|now injection Hrun as <-].
    destruct (_parse_step ex (PyStr.strip raw)) as [step|e]; [|discriminate].
    destruct (in_background st); injection Hrun as <-; [|exact Hst].
    destruct Hst as (Hs & Hall & Hcur). cbn. split; [exact Hs|]. split.
    + eapply Forall_impl; [exact Hall|]. intros sc Hsc. now apply extends_app.
    + intros sc Hsc. destruct (Hcur sc Hsc) as [H1 H2]. split; [now apply extends_app | exact H2].
Qed.

Lemma parse_lines_chained lines st st' :
  parse_lines ex st lines = Ret st' -> chained st -> chained st'.
Proof.
  revert st. induction lines as [|l ls IH]; intros st Hrun Hst; cbn in Hrun.
  - now injection Hrun as <-.
  - destruct (parse_line ex st l) as [st1|e] eqn:Hline; [|discriminate].
    eapply IH; [exact Hrun|]. eapply parse_line_chained; eassumption.
Qed.

Lemma sorted_lookup (l : list (list TestStep)) i j a b :
  StronglySorted extends l -> i < j -> l !! i = Some a -> l !! j = Some b -> extends a b.
Proof.
  intros Hs. revert i j. induction Hs as [|x l Hs IH Hx]; intros i j Hij Hi Hj.
  - now rewrite lookup_nil in Hi.
  - destruct j as [|j]; [lia|]. cbn in Hj. destruct i as [|i]; cbn in Hi.
    + injection Hi as <-. exact (Forall_lookup_1 _ _ _ _ Hx Hj).
    + eapply IH; [|exact Hi|exact Hj]. lia.
Qed.

(** *** The kinds of line *)

Lemma parse_line_step st raw :
  _is_step_line (PyStr.strip raw) = true ->
  exists step,
    _parse_step ex (PyStr.strip raw) = Ret step
    /\ parse_line ex st raw =
       Ret (if in_background st
            then Locals (scenarios st) (current_scenario st) (current_steps st)
                   (current_tags st) (background st ++ [step]) true
            else Locals (scenarios st) (current_scenario st) (current_steps st ++ [step])
                   (current_tags st) (background st) false).
Proof.
  intros Hstep. destruct (parse_step_returns _ Hstep) as [step Hparse].
  exists step. split; [exact Hparse|].
  destruct (step_line_exclusive _ Hstep) as (Ht & Hc & Htag & Hbg & Hh).
  unfold parse_line. rewrite Ht, Hc, Htag, Hbg, Hh, Hstep, Hparse. cbn.
  now destruct (in_background st).
Qed.

Lemma parse_line_header st raw :
  is_scenario_header (PyStr.strip raw) = true ->
  exists title,
    PyText.after_first ":" (PyStr.strip raw) = Some title
    /\ parse_line ex st raw =
       Ret (Locals (flush st)
              (Some {| name := PyStr.strip title; steps := [];
                       tags := Some (current_tags st);
                       background_steps := Some (background st) |})
              [] [] (background st) false).
Proof.
  intros Hh. destruct (header_has_colon _ Hh) as [title Htitle].
  exists title. split; [exact Htitle|].
  destruct (header_exclusive _ Hh) as (Ht & Hc & Htag & Hbg).
  unfold parse_line. now rewrite Ht, Hc, Htag, Hbg, Hh, Htitle.
Qed.

(** *** White space and lines that are no part of a scenario *)

Lemma parse_line_padding st pre line post :
  PyStr.all_space pre = true -> PyStr.all_space post = true ->
  parse_line ex st (pre +:+ line +:+ post) = parse_line ex st line.
Proof.
  intros Hpre Hpost. unfold parse_line.
  now rewrite (PyStrFacts.strip_padding pre line post Hpre Hpost).
Qed.

Lemma parse_lines_app l1 l2 st :
  parse_lines ex st (l1 ++ l2) =
  match parse_lines ex st l1 with
  | Ret st1 => parse_lines ex st1 l2
  | Raise e => Raise e
  end.
Proof.
  revert st. induction l1 as [|l ls IH]; intros st; cbn; [reflexivity|].
  destruct (parse_line ex st l); [apply IH | reflexivity].
Qed.

Lemma parse_lines_skip l1 line l2 st :
  (forall st', parse_line ex st' line = Ret st') ->
  parse_lines ex st (l1 ++ line :: l2) = parse_lines ex st (l1 ++ l2).
Proof.
  intros Hskip. rewrite !parse_lines_app.
  destruct (parse_lines ex st l1) as [st1|e]; [|reflexivity].
  cbn. now rewrite Hskip.
Qed.

(** Lines that are blank, comments, or of no kind. *)
Local Abbreviation ignored :=
  (fun l : string =>
     let line := PyStr.strip l in
     negb (PyStr.truthy line) || PyStr.startswith line "#"
     || (negb (PyStr.startswith line "@")
         && negb (PyStr.startswith (PyStr.lower line) "background:")
         && negb (is_scenario_header line)
         && negb (_is_step_line line))).

Lemma parse_line_ignored st raw : ignored raw = true -> parse_line ex st raw = Ret st.
Proof.
  cbv zeta. unfold parse_line.
  destruct (negb (PyStr.truthy (PyStr.strip raw)) || PyStr.startswith (PyStr.strip raw) "#");
    [reflexivity|].
  cbn [orb]. rewrite !andb_true_iff, !negb_true_iff. now intros (((-> & ->) & ->) & ->).
Qed.

Lemma parse_lines_filter lines st :
  parse_lines ex st (List.filter (fun l => negb (ignored l)) lines) = parse_lines ex st lines.
Proof.
  revert st. induction lines as [|l ls IH]; intros st; [reflexivity|].
  cbn [List.filter parse_lines]. destruct (ignored l) eqn:Hl; cbn [negb].
  - rewrite (parse_line_ignored st l Hl). apply IH.
  - cbn [parse_lines]. destruct (parse_line ex st l); [apply IH | reflexivity].
Qed.

(** *** A feature made of a background and scenarios *)

Local Abbreviation step_of :=
  (fun (l : string) (s : TestStep) =>
     _is_step_line (PyStr.strip l) = true /\ _parse_step ex (PyStr.strip l) = Ret s).

Local Abbreviation block_of bg :=
  (fun (block : string * list string) (sc : TestScenario) =>
     is_scenario_header (PyStr.strip (fst block)) = true
     /\ (exists title,
           PyText.after_first ":" (PyStr.strip (fst block)) = Some title
           /\ name sc = PyStr.strip title)
     /\ Forall2 step_of (snd block) (steps sc)
     /\ steps sc <> []
     /\ tags sc = Some []
     /\ background_steps sc = Some bg).

Lemma background_line_exclusive line :
  PyStr.startswith (PyStr.lower line) "background:" = true ->
  PyStr.truthy line = true
  /\ PyStr.startswith line "#" = false
  /\ PyStr.startswith line "@" = false.
Proof.
  unfold PyStr.startswith. intros Hb.
  assert (Hmark : forall m, PyStr.lower m = m ->
                            String.prefix "background:" m = false ->
                            String.prefix m "background:" = false ->
                            String.prefix m line = false).
  { intros m Hm H1 H2. destruct (String.prefix m line) eqn:Hp; [|reflexivity].
    apply prefix_lower in Hp. rewrite Hm in Hp.
    destruct (prefix_compatible "background:" m _ Hb Hp); congruence. }
  split; [destruct line; [discriminate | reflexivity]|].
  split; now apply Hmark.
Qed.

Lemma parse_line_background st raw :
  PyStr.startswith (PyStr.lower (PyStr.strip raw)) "background:" = true ->
  parse_line ex st raw =
  Ret (Locals (scenarios st) (current_scenario st) (current_steps st) (current_tags st)
         (background st) true).
Proof.
  intros Hb. destruct (background_line_exclusive _ Hb) as (Ht & Hc & Htag).
  unfold parse_line. now rewrite Ht, Hc, Htag, Hb.
Qed.

Lemma background_steps_run ls ss st :
  Forall2 step_of ls ss -> in_background st = true ->
  parse_lines ex st ls =
  Ret (Locals (scenarios st) (current_scenario st) (current_steps st) (current_tags st)
         (background st ++ ss) true).
Proof.
  intros Hls. revert st. induction Hls as [|l s ls ss [Hl Hs] _ IH]; intros st Hin.
  - cbn. rewrite app_nil_r. destruct st; cbn in *. now subst.
  - cbn [parse_lines]. destruct (parse_line_step st l Hl) as (s' & Hs' & ->).
    rewrite Hs in Hs'. injection Hs' as <-. rewrite Hin, IH by reflexivity.
    cbn. now rewrite <- app_assoc.
Qed.

Lemma scenario_steps_run ls ss st :
  Forall2 step_of ls ss -> in_background st = false ->
  parse_lines ex st ls =
  Ret (Locals (scenarios st) (current_scenario st) (current_steps st ++ ss)
         (current_tags st) (background st) false).
Proof.
  intros Hls. revert st. induction Hls as [|l s ls ss [Hl Hs] _ IH]; intros st Hin.
  - cbn. rewrite app_nil_r. destruct st; cbn in *. now subst.
  - cbn [parse_lines]. destruct (parse_line_step st l Hl) as (s' & Hs' & ->).
    rewrite Hs in Hs'. injection Hs' as <-. rewrite Hin, IH by reflexivity.
    cbn. now rewrite <- app_assoc.
Qed.

Lemma block_run bg block sc st :
  block_of bg block sc -> current_tags st = [] -> background st = bg ->
  exists st',
    parse_lines ex st (fst block :: snd block) = Ret st'
    /\ flush st' = flush st ++ [sc]
    /\ current_tags st' = [] /\ background st' = bg.
Proof.
  intros (Hh & (title & Htitle & Hname) & Hsteps & Hne & Htags & Hbg) Hct Hb.
  cbn [parse_lines]. destruct (parse_line_header st (fst block) Hh) as (title' & Ht' & ->).
  rewrite Htitle in Ht'. injection Ht' as <-.
  rewrite (scenario_steps_run _ _ _ Hsteps) by reflexivity.
  eexists. split; [reflexivity|]. cbn. split; [|auto].
  unfold flush at 1. cbn.
  destruct (steps sc) as [|s0 l] eqn:Hs; [congruence|].
  rewrite Hct, Hb. destruct sc as [n ss ts bs]; cbn in *. now subst n ss ts bs.
Qed.

Lemma blocks_run bg blocks scs st :
  Forall2 (block_of bg) blocks scs -> current_tags st = [] -> background st = bg ->
  exists st',
    parse_lines ex st (concat (map (fun block => fst block :: snd block) blocks)) = Ret st'
    /\ flush st' = flush st ++ scs.
Proof.
  intros Hblocks. revert st.
  induction Hblocks as [|block sc blocks scs Hblock _ IH]; intros st Hct Hb.
  - cbn. exists st. now rewrite app_nil_r.
  - cbn [map concat]. rewrite parse_lines_app.
    destruct (block_run bg block sc st Hblock Hct Hb) as (st1 & -> & Hflush & Hct1 & Hb1).
    destruct (IH st1 Hct1 Hb1) as (st' & -> & Hflush').
    exists st'. split; [reflexivity|]. now rewrite Hflush', Hflush, <- app_assoc.
Qed.

End Facts.

(** *** Summaries *)

Local Abbreviation counts a :=
  (fun s : TestStep =>
     match action s with
     | Some x => String.eqb x a && PyStr.truthy x
     | None => false
     end).

Lemma count_action_lookup m s a :
  count_action m s !! a =
  if counts a s then Some (default 0 (m !! a) + 1) else m !! a.
Proof.
  unfold count_action. destruct (action s) as [x|]; cbn [truthy_opt]; [|reflexivity].
  destruct (PyStr.truthy x); [|now rewrite andb_false_r].
  rewrite andb_true_r. cbn [default from_option id].
  destruct (String.eqb x a) eqn:Heq.
  - apply String.eqb_eq in Heq. subst x. now rewrite lookup_insert_eq.
  - apply String.eqb_neq in Heq. now rewrite lookup_insert_ne.
Qed.

Lemma fold_count_action l m a :
  fold_left count_action l m !! a =
  match length (List.filter (counts a) l) with
  | 0 => m !! a
  | n => Some (default 0 (m !! a) + n)
  end.
Proof.
  revert m. induction l as [|s l IH]; intros m; [reflexivity|].
  cbn [fold_left List.filter]. rewrite IH, count_action_lookup.
  destruct (counts a s); [|reflexivity].
  cbn [length default from_option id].
  destruct (length (List.filter (counts a) l)); f_equal; lia.
Qed.

Lemma summary_lookup scs m a :
  fold_left
    (fun actions sc =>
       fold_left count_action (steps sc)
         (fold_left count_action (default [] (background_steps sc)) actions))
    scs m !! a =
  match length (List.filter (counts a)
                  (concat (map (fun sc => default [] (background_steps sc) ++ steps sc) scs)))
  with
  | 0 => m !! a
  | n => Some (default 0 (m !! a) + n)
  end.
Proof.
  revert m. induction scs as [|sc scs IH]; intros m; [reflexivity|].
  cbn [fold_left map concat]. rewrite IH, <- fold_left_app, fold_count_action.
  rewrite !List.filter_app, !length_app.
  destruct (length (List.filter (counts a) (default [] (background_steps sc)))) as [|n1],
    (length (List.filter (counts a) (steps sc))) as [|n2]; cbn [Nat.add];
    destruct (length (List.filter (counts a) (concat _))); cbn [default from_option id];
    try reflexivity; f_equal; lia.
Qed.

Lemma step_elements_spec l x :
  x ∈ step_elements l <->
  PyStr.truthy x = true /\ exists s, s ∈ l /\ element_description s = Some x.
Proof.
  unfold step_elements. rewrite elem_of_list_to_set, list_elem_of_omap. split.
  - intros (s & Hs & Hx). destruct (element_description s) as [d|] eqn:Hd; [|discriminate].
    cbn [truthy_opt] in Hx. destruct (PyStr.truthy d) eqn:Ht; [|discriminate].
    injection Hx as <-. eauto.
  - intros (Ht & s & Hs & Hd). exists s. split; [exact Hs|].
    rewrite Hd. cbn [truthy_opt]. now rewrite Ht.
Qed.

End ParserFacts.






(** ** Two feature texts parsed *)



